(** * note.com MCP server: the two tool handlers of [main.py]

    A shallow embedding of [post_note_article] (publish) and
    [save_note_draft] (save draft).  Python strings are lists of code
    points, values decoded from JSON are a small inductive type, the HTTP
    traffic of a handler is a tree of requests whose continuation waits for
    the reply, and a run against a server yields the requests that were
    issued together with the handler's outcome. *)

From Stdlib Require Import List NArith ZArith Bool String Ascii Lia.
From Stdlib Require Import DecimalString.
From Stdlib Require Import Floats.SpecFloat.
Import ListNotations.
Local Open Scope string_scope.
Local Open Scope list_scope.

Set Implicit Arguments.
Set Warnings "-register-all".

(** ** Python strings *)

(** A [str] is a sequence of Unicode code points; [len] is [length]. *)
Definition pystr := list N.

(** An ASCII literal of the source as a [pystr]. *)
Definition py (s : string) : pystr := map N_of_ascii (list_ascii_of_string s).

Fixpoint pystr_eqb (a b : pystr) : bool :=
  match a, b with
  | [], [] => true
  | x :: a', y :: b' => N.eqb x y && pystr_eqb a' b'
  | _, _ => false
  end.

(** [s.startswith(p)] *)
Fixpoint startswith (s p : pystr) : bool :=
  match p, s with
  | [], _ => true
  | y :: p', x :: s' => N.eqb x y && startswith s' p'
  | _ :: _, [] => false
  end.

(** [p in s] for strings. *)
Fixpoint contains (s p : pystr) : bool :=
  startswith s p ||
  match s with
  | [] => false
  | _ :: s' => contains s' p
  end.

(** ** Exceptions *)

Inductive exn : Type :=
| ValueError (msg : pystr)
| RuntimeError (msg : pystr)
| AttributeError
| KeyError (key : pystr)
| TypeError
| JSONDecodeError
| HTTPStatusError (status : Z)
| TransportError.

(** A computation that returns or raises, chained. *)
Definition and_then {A B : Type} (r : exn + A) (f : A -> exn + B) : exn + B :=
  match r with
  | inl e => inl e
  | inr a => f a
  end.

(** [str(n)] of an [int]. *)
Definition str_of_int (n : Z) : pystr := py (NilZero.string_of_int (Z.to_int n)).

(** ** [re.sub(r"<[^>]*>", "", s)]

    The pattern matches from a [<] to the first [>] after it, every
    character in between being allowed (newlines too); a [<] with no [>]
    after it matches nothing and stays.  [in_tag] says that the scan is
    inside a match. *)

Definition LT : N := 60.
Definition GT : N := 62.

Fixpoint sub_tags (in_tag : bool) (s : pystr) : pystr :=
  match s with
  | [] => []
  | c :: rest =>
      if in_tag then sub_tags (negb (N.eqb c GT)) rest
      else if N.eqb c LT && existsb (N.eqb GT) rest then sub_tags true rest
      else c :: sub_tags false rest
  end.

Definition strip_tags (s : pystr) : pystr := sub_tags false s.

(** ** [html.unescape]

    The standard library's function, as the interpreter ships it:
    the table of named references [html5], the two tables of numeric
    references the HTML 5 rules single out, the pattern [_charref] and the
    replacement function [_replace_charref]. *)

Definition html5 : list (string * list N) := [
  ("AElig", [198]); ("AElig;", [198]); ("AMP", [38]); ("AMP;", [38]); ("Aacute", [193]);
  ("Aacute;", [193]); ("Abreve;", [258]); ("Acirc", [194]); ("Acirc;", [194]); ("Acy;", [1040]);
  ("Afr;", [120068]); ("Agrave", [192]); ("Agrave;", [192]); ("Alpha;", [913]); ("Amacr;", [256]);
  ("And;", [10835]); ("Aogon;", [260]); ("Aopf;", [120120]); ("ApplyFunction;", [8289]);
  ("Aring", [197]); ("Aring;", [197]); ("Ascr;", [119964]); ("Assign;", [8788]); ("Atilde", [195]);
  ("Atilde;", [195]); ("Auml", [196]); ("Auml;", [196]); ("Backslash;", [8726]); ("Barv;", [10983]);
  ("Barwed;", [8966]); ("Bcy;", [1041]); ("Because;", [8757]); ("Bernoullis;", [8492]);
  ("Beta;", [914]); ("Bfr;", [120069]); ("Bopf;", [120121]); ("Breve;", [728]); ("Bscr;", [8492]);
  ("Bumpeq;", [8782]); ("CHcy;", [1063]); ("COPY", [169]); ("COPY;", [169]); ("Cacute;", [262]);
  ("Cap;", [8914]); ("CapitalDifferentialD;", [8517]); ("Cayleys;", [8493]); ("Ccaron;", [268]);
  ("Ccedil", [199]); ("Ccedil;", [199]); ("Ccirc;", [264]); ("Cconint;", [8752]); ("Cdot;", [266]);
  ("Cedilla;", [184]); ("CenterDot;", [183]); ("Cfr;", [8493]); ("Chi;", [935]);
  ("CircleDot;", [8857]); ("CircleMinus;", [8854]); ("CirclePlus;", [8853]);
  ("CircleTimes;", [8855]); ("ClockwiseContourIntegral;", [8754]);
  ("CloseCurlyDoubleQuote;", [8221]); ("CloseCurlyQuote;", [8217]); ("Colon;", [8759]);
  ("Colone;", [10868]); ("Congruent;", [8801]); ("Conint;", [8751]); ("ContourIntegral;", [8750]);
  ("Copf;", [8450]); ("Coproduct;", [8720]); ("CounterClockwiseContourIntegral;", [8755]);
  ("Cross;", [10799]); ("Cscr;", [119966]); ("Cup;", [8915]); ("CupCap;", [8781]); ("DD;", [8517]);
  ("DDotrahd;", [10513]); ("DJcy;", [1026]); ("DScy;", [1029]); ("DZcy;", [1039]);
  ("Dagger;", [8225]); ("Darr;", [8609]); ("Dashv;", [10980]); ("Dcaron;", [270]); ("Dcy;", [1044]);
  ("Del;", [8711]); ("Delta;", [916]); ("Dfr;", [120071]); ("DiacriticalAcute;", [180]);
  ("DiacriticalDot;", [729]); ("DiacriticalDoubleAcute;", [733]); ("DiacriticalGrave;", [96]);
  ("DiacriticalTilde;", [732]); ("Diamond;", [8900]); ("DifferentialD;", [8518]);
  ("Dopf;", [120123]); ("Dot;", [168]); ("DotDot;", [8412]); ("DotEqual;", [8784]);
  ("DoubleContourIntegral;", [8751]); ("DoubleDot;", [168]); ("DoubleDownArrow;", [8659]);
  ("DoubleLeftArrow;", [8656]); ("DoubleLeftRightArrow;", [8660]); ("DoubleLeftTee;", [10980]);
  ("DoubleLongLeftArrow;", [10232]); ("DoubleLongLeftRightArrow;", [10234]);
  ("DoubleLongRightArrow;", [10233]); ("DoubleRightArrow;", [8658]); ("DoubleRightTee;", [8872]);
  ("DoubleUpArrow;", [8657]); ("DoubleUpDownArrow;", [8661]); ("DoubleVerticalBar;", [8741]);
  ("DownArrow;", [8595]); ("DownArrowBar;", [10515]); ("DownArrowUpArrow;", [8693]);
  ("DownBreve;", [785]); ("DownLeftRightVector;", [10576]); ("DownLeftTeeVector;", [10590]);
  ("DownLeftVector;", [8637]); ("DownLeftVectorBar;", [10582]); ("DownRightTeeVector;", [10591]);
  ("DownRightVector;", [8641]); ("DownRightVectorBar;", [10583]); ("DownTee;", [8868]);
  ("DownTeeArrow;", [8615]); ("Downarrow;", [8659]); ("Dscr;", [119967]); ("Dstrok;", [272]);
  ("ENG;", [330]); ("ETH", [208]); ("ETH;", [208]); ("Eacute", [201]); ("Eacute;", [201]);
  ("Ecaron;", [282]); ("Ecirc", [202]); ("Ecirc;", [202]); ("Ecy;", [1069]); ("Edot;", [278]);
  ("Efr;", [120072]); ("Egrave", [200]); ("Egrave;", [200]); ("Element;", [8712]); ("Emacr;", [274]);
  ("EmptySmallSquare;", [9723]); ("EmptyVerySmallSquare;", [9643]); ("Eogon;", [280]);
  ("Eopf;", [120124]); ("Epsilon;", [917]); ("Equal;", [10869]); ("EqualTilde;", [8770]);
  ("Equilibrium;", [8652]); ("Escr;", [8496]); ("Esim;", [10867]); ("Eta;", [919]); ("Euml", [203]);
  ("Euml;", [203]); ("Exists;", [8707]); ("ExponentialE;", [8519]); ("Fcy;", [1060]);
  ("Ffr;", [120073]); ("FilledSmallSquare;", [9724]); ("FilledVerySmallSquare;", [9642]);
  ("Fopf;", [120125]); ("ForAll;", [8704]); ("Fouriertrf;", [8497]); ("Fscr;", [8497]);
  ("GJcy;", [1027]); ("GT", [62]); ("GT;", [62]); ("Gamma;", [915]); ("Gammad;", [988]);
  ("Gbreve;", [286]); ("Gcedil;", [290]); ("Gcirc;", [284]); ("Gcy;", [1043]); ("Gdot;", [288]);
  ("Gfr;", [120074]); ("Gg;", [8921]); ("Gopf;", [120126]); ("GreaterEqual;", [8805]);
  ("GreaterEqualLess;", [8923]); ("GreaterFullEqual;", [8807]); ("GreaterGreater;", [10914]);
  ("GreaterLess;", [8823]); ("GreaterSlantEqual;", [10878]); ("GreaterTilde;", [8819]);
  ("Gscr;", [119970]); ("Gt;", [8811]); ("HARDcy;", [1066]); ("Hacek;", [711]); ("Hat;", [94]);
  ("Hcirc;", [292]); ("Hfr;", [8460]); ("HilbertSpace;", [8459]); ("Hopf;", [8461]);
  ("HorizontalLine;", [9472]); ("Hscr;", [8459]); ("Hstrok;", [294]); ("HumpDownHump;", [8782]);
  ("HumpEqual;", [8783]); ("IEcy;", [1045]); ("IJlig;", [306]); ("IOcy;", [1025]); ("Iacute", [205]);
  ("Iacute;", [205]); ("Icirc", [206]); ("Icirc;", [206]); ("Icy;", [1048]); ("Idot;", [304]);
  ("Ifr;", [8465]); ("Igrave", [204]); ("Igrave;", [204]); ("Im;", [8465]); ("Imacr;", [298]);
  ("ImaginaryI;", [8520]); ("Implies;", [8658]); ("Int;", [8748]); ("Integral;", [8747]);
  ("Intersection;", [8898]); ("InvisibleComma;", [8291]); ("InvisibleTimes;", [8290]);
  ("Iogon;", [302]); ("Iopf;", [120128]); ("Iota;", [921]); ("Iscr;", [8464]); ("Itilde;", [296]);
  ("Iukcy;", [1030]); ("Iuml", [207]); ("Iuml;", [207]); ("Jcirc;", [308]); ("Jcy;", [1049]);
  ("Jfr;", [120077]); ("Jopf;", [120129]); ("Jscr;", [119973]); ("Jsercy;", [1032]);
  ("Jukcy;", [1028]); ("KHcy;", [1061]); ("KJcy;", [1036]); ("Kappa;", [922]); ("Kcedil;", [310]);
  ("Kcy;", [1050]); ("Kfr;", [120078]); ("Kopf;", [120130]); ("Kscr;", [119974]); ("LJcy;", [1033]);
  ("LT", [60]); ("LT;", [60]); ("Lacute;", [313]); ("Lambda;", [923]); ("Lang;", [10218]);
  ("Laplacetrf;", [8466]); ("Larr;", [8606]); ("Lcaron;", [317]); ("Lcedil;", [315]);
  ("Lcy;", [1051]); ("LeftAngleBracket;", [10216]); ("LeftArrow;", [8592]);
  ("LeftArrowBar;", [8676]); ("LeftArrowRightArrow;", [8646]); ("LeftCeiling;", [8968]);
  ("LeftDoubleBracket;", [10214]); ("LeftDownTeeVector;", [10593]); ("LeftDownVector;", [8643]);
  ("LeftDownVectorBar;", [10585]); ("LeftFloor;", [8970]); ("LeftRightArrow;", [8596]);
  ("LeftRightVector;", [10574]); ("LeftTee;", [8867]); ("LeftTeeArrow;", [8612]);
  ("LeftTeeVector;", [10586]); ("LeftTriangle;", [8882]); ("LeftTriangleBar;", [10703]);
  ("LeftTriangleEqual;", [8884]); ("LeftUpDownVector;", [10577]); ("LeftUpTeeVector;", [10592]);
  ("LeftUpVector;", [8639]); ("LeftUpVectorBar;", [10584]); ("LeftVector;", [8636]);
  ("LeftVectorBar;", [10578]); ("Leftarrow;", [8656]); ("Leftrightarrow;", [8660]);
  ("LessEqualGreater;", [8922]); ("LessFullEqual;", [8806]); ("LessGreater;", [8822]);
  ("LessLess;", [10913]); ("LessSlantEqual;", [10877]); ("LessTilde;", [8818]); ("Lfr;", [120079]);
  ("Ll;", [8920]); ("Lleftarrow;", [8666]); ("Lmidot;", [319]); ("LongLeftArrow;", [10229]);
  ("LongLeftRightArrow;", [10231]); ("LongRightArrow;", [10230]); ("Longleftarrow;", [10232]);
  ("Longleftrightarrow;", [10234]); ("Longrightarrow;", [10233]); ("Lopf;", [120131]);
  ("LowerLeftArrow;", [8601]); ("LowerRightArrow;", [8600]); ("Lscr;", [8466]); ("Lsh;", [8624]);
  ("Lstrok;", [321]); ("Lt;", [8810]); ("Map;", [10501]); ("Mcy;", [1052]); ("MediumSpace;", [8287]);
  ("Mellintrf;", [8499]); ("Mfr;", [120080]); ("MinusPlus;", [8723]); ("Mopf;", [120132]);
  ("Mscr;", [8499]); ("Mu;", [924]); ("NJcy;", [1034]); ("Nacute;", [323]); ("Ncaron;", [327]);
  ("Ncedil;", [325]); ("Ncy;", [1053]); ("NegativeMediumSpace;", [8203]);
  ("NegativeThickSpace;", [8203]); ("NegativeThinSpace;", [8203]);
  ("NegativeVeryThinSpace;", [8203]); ("NestedGreaterGreater;", [8811]); ("NestedLessLess;", [8810]);
  ("NewLine;", [10]); ("Nfr;", [120081]); ("NoBreak;", [8288]); ("NonBreakingSpace;", [160]);
  ("Nopf;", [8469]); ("Not;", [10988]); ("NotCongruent;", [8802]); ("NotCupCap;", [8813]);
  ("NotDoubleVerticalBar;", [8742]); ("NotElement;", [8713]); ("NotEqual;", [8800]);
  ("NotEqualTilde;", [8770; 824]); ("NotExists;", [8708]); ("NotGreater;", [8815]);
  ("NotGreaterEqual;", [8817]); ("NotGreaterFullEqual;", [8807; 824]);
  ("NotGreaterGreater;", [8811; 824]); ("NotGreaterLess;", [8825]);
  ("NotGreaterSlantEqual;", [10878; 824]); ("NotGreaterTilde;", [8821]);
  ("NotHumpDownHump;", [8782; 824]); ("NotHumpEqual;", [8783; 824]); ("NotLeftTriangle;", [8938]);
  ("NotLeftTriangleBar;", [10703; 824]); ("NotLeftTriangleEqual;", [8940]); ("NotLess;", [8814]);
  ("NotLessEqual;", [8816]); ("NotLessGreater;", [8824]); ("NotLessLess;", [8810; 824]);
  ("NotLessSlantEqual;", [10877; 824]); ("NotLessTilde;", [8820]);
  ("NotNestedGreaterGreater;", [10914; 824]); ("NotNestedLessLess;", [10913; 824]);
  ("NotPrecedes;", [8832]); ("NotPrecedesEqual;", [10927; 824]); ("NotPrecedesSlantEqual;", [8928]);
  ("NotReverseElement;", [8716]); ("NotRightTriangle;", [8939]);
  ("NotRightTriangleBar;", [10704; 824]); ("NotRightTriangleEqual;", [8941]);
  ("NotSquareSubset;", [8847; 824]); ("NotSquareSubsetEqual;", [8930]);
  ("NotSquareSuperset;", [8848; 824]); ("NotSquareSupersetEqual;", [8931]);
  ("NotSubset;", [8834; 8402]); ("NotSubsetEqual;", [8840]); ("NotSucceeds;", [8833]);
  ("NotSucceedsEqual;", [10928; 824]); ("NotSucceedsSlantEqual;", [8929]);
  ("NotSucceedsTilde;", [8831; 824]); ("NotSuperset;", [8835; 8402]); ("NotSupersetEqual;", [8841]);
  ("NotTilde;", [8769]); ("NotTildeEqual;", [8772]); ("NotTildeFullEqual;", [8775]);
  ("NotTildeTilde;", [8777]); ("NotVerticalBar;", [8740]); ("Nscr;", [119977]); ("Ntilde", [209]);
  ("Ntilde;", [209]); ("Nu;", [925]); ("OElig;", [338]); ("Oacute", [211]); ("Oacute;", [211]);
  ("Ocirc", [212]); ("Ocirc;", [212]); ("Ocy;", [1054]); ("Odblac;", [336]); ("Ofr;", [120082]);
  ("Ograve", [210]); ("Ograve;", [210]); ("Omacr;", [332]); ("Omega;", [937]); ("Omicron;", [927]);
  ("Oopf;", [120134]); ("OpenCurlyDoubleQuote;", [8220]); ("OpenCurlyQuote;", [8216]);
  ("Or;", [10836]); ("Oscr;", [119978]); ("Oslash", [216]); ("Oslash;", [216]); ("Otilde", [213]);
  ("Otilde;", [213]); ("Otimes;", [10807]); ("Ouml", [214]); ("Ouml;", [214]); ("OverBar;", [8254]);
  ("OverBrace;", [9182]); ("OverBracket;", [9140]); ("OverParenthesis;", [9180]);
  ("PartialD;", [8706]); ("Pcy;", [1055]); ("Pfr;", [120083]); ("Phi;", [934]); ("Pi;", [928]);
  ("PlusMinus;", [177]); ("Poincareplane;", [8460]); ("Popf;", [8473]); ("Pr;", [10939]);
  ("Precedes;", [8826]); ("PrecedesEqual;", [10927]); ("PrecedesSlantEqual;", [8828]);
  ("PrecedesTilde;", [8830]); ("Prime;", [8243]); ("Product;", [8719]); ("Proportion;", [8759]);
  ("Proportional;", [8733]); ("Pscr;", [119979]); ("Psi;", [936]); ("QUOT", [34]); ("QUOT;", [34]);
  ("Qfr;", [120084]); ("Qopf;", [8474]); ("Qscr;", [119980]); ("RBarr;", [10512]); ("REG", [174]);
  ("REG;", [174]); ("Racute;", [340]); ("Rang;", [10219]); ("Rarr;", [8608]); ("Rarrtl;", [10518]);
  ("Rcaron;", [344]); ("Rcedil;", [342]); ("Rcy;", [1056]); ("Re;", [8476]);
  ("ReverseElement;", [8715]); ("ReverseEquilibrium;", [8651]); ("ReverseUpEquilibrium;", [10607]);
  ("Rfr;", [8476]); ("Rho;", [929]); ("RightAngleBracket;", [10217]); ("RightArrow;", [8594]);
  ("RightArrowBar;", [8677]); ("RightArrowLeftArrow;", [8644]); ("RightCeiling;", [8969]);
  ("RightDoubleBracket;", [10215]); ("RightDownTeeVector;", [10589]); ("RightDownVector;", [8642]);
  ("RightDownVectorBar;", [10581]); ("RightFloor;", [8971]); ("RightTee;", [8866]);
  ("RightTeeArrow;", [8614]); ("RightTeeVector;", [10587]); ("RightTriangle;", [8883]);
  ("RightTriangleBar;", [10704]); ("RightTriangleEqual;", [8885]); ("RightUpDownVector;", [10575]);
  ("RightUpTeeVector;", [10588]); ("RightUpVector;", [8638]); ("RightUpVectorBar;", [10580]);
  ("RightVector;", [8640]); ("RightVectorBar;", [10579]); ("Rightarrow;", [8658]); ("Ropf;", [8477]);
  ("RoundImplies;", [10608]); ("Rrightarrow;", [8667]); ("Rscr;", [8475]); ("Rsh;", [8625]);
  ("RuleDelayed;", [10740]); ("SHCHcy;", [1065]); ("SHcy;", [1064]); ("SOFTcy;", [1068]);
  ("Sacute;", [346]); ("Sc;", [10940]); ("Scaron;", [352]); ("Scedil;", [350]); ("Scirc;", [348]);
  ("Scy;", [1057]); ("Sfr;", [120086]); ("ShortDownArrow;", [8595]); ("ShortLeftArrow;", [8592]);
  ("ShortRightArrow;", [8594]); ("ShortUpArrow;", [8593]); ("Sigma;", [931]);
  ("SmallCircle;", [8728]); ("Sopf;", [120138]); ("Sqrt;", [8730]); ("Square;", [9633]);
  ("SquareIntersection;", [8851]); ("SquareSubset;", [8847]); ("SquareSubsetEqual;", [8849]);
  ("SquareSuperset;", [8848]); ("SquareSupersetEqual;", [8850]); ("SquareUnion;", [8852]);
  ("Sscr;", [119982]); ("Star;", [8902]); ("Sub;", [8912]); ("Subset;", [8912]);
  ("SubsetEqual;", [8838]); ("Succeeds;", [8827]); ("SucceedsEqual;", [10928]);
  ("SucceedsSlantEqual;", [8829]); ("SucceedsTilde;", [8831]); ("SuchThat;", [8715]);
  ("Sum;", [8721]); ("Sup;", [8913]); ("Superset;", [8835]); ("SupersetEqual;", [8839]);
  ("Supset;", [8913]); ("THORN", [222]); ("THORN;", [222]); ("TRADE;", [8482]); ("TSHcy;", [1035]);
  ("TScy;", [1062]); ("Tab;", [9]); ("Tau;", [932]); ("Tcaron;", [356]); ("Tcedil;", [354]);
  ("Tcy;", [1058]); ("Tfr;", [120087]); ("Therefore;", [8756]); ("Theta;", [920]);
  ("ThickSpace;", [8287; 8202]); ("ThinSpace;", [8201]); ("Tilde;", [8764]); ("TildeEqual;", [8771]);
  ("TildeFullEqual;", [8773]); ("TildeTilde;", [8776]); ("Topf;", [120139]); ("TripleDot;", [8411]);
  ("Tscr;", [119983]); ("Tstrok;", [358]); ("Uacute", [218]); ("Uacute;", [218]); ("Uarr;", [8607]);
  ("Uarrocir;", [10569]); ("Ubrcy;", [1038]); ("Ubreve;", [364]); ("Ucirc", [219]);
  ("Ucirc;", [219]); ("Ucy;", [1059]); ("Udblac;", [368]); ("Ufr;", [120088]); ("Ugrave", [217]);
  ("Ugrave;", [217]); ("Umacr;", [362]); ("UnderBar;", [95]); ("UnderBrace;", [9183]);
  ("UnderBracket;", [9141]); ("UnderParenthesis;", [9181]); ("Union;", [8899]);
  ("UnionPlus;", [8846]); ("Uogon;", [370]); ("Uopf;", [120140]); ("UpArrow;", [8593]);
  ("UpArrowBar;", [10514]); ("UpArrowDownArrow;", [8645]); ("UpDownArrow;", [8597]);
  ("UpEquilibrium;", [10606]); ("UpTee;", [8869]); ("UpTeeArrow;", [8613]); ("Uparrow;", [8657]);
  ("Updownarrow;", [8661]); ("UpperLeftArrow;", [8598]); ("UpperRightArrow;", [8599]);
  ("Upsi;", [978]); ("Upsilon;", [933]); ("Uring;", [366]); ("Uscr;", [119984]); ("Utilde;", [360]);
  ("Uuml", [220]); ("Uuml;", [220]); ("VDash;", [8875]); ("Vbar;", [10987]); ("Vcy;", [1042]);
  ("Vdash;", [8873]); ("Vdashl;", [10982]); ("Vee;", [8897]); ("Verbar;", [8214]); ("Vert;", [8214]);
  ("VerticalBar;", [8739]); ("VerticalLine;", [124]); ("VerticalSeparator;", [10072]);
  ("VerticalTilde;", [8768]); ("VeryThinSpace;", [8202]); ("Vfr;", [120089]); ("Vopf;", [120141]);
  ("Vscr;", [119985]); ("Vvdash;", [8874]); ("Wcirc;", [372]); ("Wedge;", [8896]);
  ("Wfr;", [120090]); ("Wopf;", [120142]); ("Wscr;", [119986]); ("Xfr;", [120091]); ("Xi;", [926]);
  ("Xopf;", [120143]); ("Xscr;", [119987]); ("YAcy;", [1071]); ("YIcy;", [1031]); ("YUcy;", [1070]);
  ("Yacute", [221]); ("Yacute;", [221]); ("Ycirc;", [374]); ("Ycy;", [1067]); ("Yfr;", [120092]);
  ("Yopf;", [120144]); ("Yscr;", [119988]); ("Yuml;", [376]); ("ZHcy;", [1046]); ("Zacute;", [377]);
  ("Zcaron;", [381]); ("Zcy;", [1047]); ("Zdot;", [379]); ("ZeroWidthSpace;", [8203]);
  ("Zeta;", [918]); ("Zfr;", [8488]); ("Zopf;", [8484]); ("Zscr;", [119989]); ("aacute", [225]);
  ("aacute;", [225]); ("abreve;", [259]); ("ac;", [8766]); ("acE;", [8766; 819]); ("acd;", [8767]);
  ("acirc", [226]); ("acirc;", [226]); ("acute", [180]); ("acute;", [180]); ("acy;", [1072]);
  ("aelig", [230]); ("aelig;", [230]); ("af;", [8289]); ("afr;", [120094]); ("agrave", [224]);
  ("agrave;", [224]); ("alefsym;", [8501]); ("aleph;", [8501]); ("alpha;", [945]); ("amacr;", [257]);
  ("amalg;", [10815]); ("amp", [38]); ("amp;", [38]); ("and;", [8743]); ("andand;", [10837]);
  ("andd;", [10844]); ("andslope;", [10840]); ("andv;", [10842]); ("ang;", [8736]);
  ("ange;", [10660]); ("angle;", [8736]); ("angmsd;", [8737]); ("angmsdaa;", [10664]);
  ("angmsdab;", [10665]); ("angmsdac;", [10666]); ("angmsdad;", [10667]); ("angmsdae;", [10668]);
  ("angmsdaf;", [10669]); ("angmsdag;", [10670]); ("angmsdah;", [10671]); ("angrt;", [8735]);
  ("angrtvb;", [8894]); ("angrtvbd;", [10653]); ("angsph;", [8738]); ("angst;", [197]);
  ("angzarr;", [9084]); ("aogon;", [261]); ("aopf;", [120146]); ("ap;", [8776]); ("apE;", [10864]);
  ("apacir;", [10863]); ("ape;", [8778]); ("apid;", [8779]); ("apos;", [39]); ("approx;", [8776]);
  ("approxeq;", [8778]); ("aring", [229]); ("aring;", [229]); ("ascr;", [119990]); ("ast;", [42]);
  ("asymp;", [8776]); ("asympeq;", [8781]); ("atilde", [227]); ("atilde;", [227]); ("auml", [228]);
  ("auml;", [228]); ("awconint;", [8755]); ("awint;", [10769]); ("bNot;", [10989]);
  ("backcong;", [8780]); ("backepsilon;", [1014]); ("backprime;", [8245]); ("backsim;", [8765]);
  ("backsimeq;", [8909]); ("barvee;", [8893]); ("barwed;", [8965]); ("barwedge;", [8965]);
  ("bbrk;", [9141]); ("bbrktbrk;", [9142]); ("bcong;", [8780]); ("bcy;", [1073]); ("bdquo;", [8222]);
  ("becaus;", [8757]); ("because;", [8757]); ("bemptyv;", [10672]); ("bepsi;", [1014]);
  ("bernou;", [8492]); ("beta;", [946]); ("beth;", [8502]); ("between;", [8812]); ("bfr;", [120095]);
  ("bigcap;", [8898]); ("bigcirc;", [9711]); ("bigcup;", [8899]); ("bigodot;", [10752]);
  ("bigoplus;", [10753]); ("bigotimes;", [10754]); ("bigsqcup;", [10758]); ("bigstar;", [9733]);
  ("bigtriangledown;", [9661]); ("bigtriangleup;", [9651]); ("biguplus;", [10756]);
  ("bigvee;", [8897]); ("bigwedge;", [8896]); ("bkarow;", [10509]); ("blacklozenge;", [10731]);
  ("blacksquare;", [9642]); ("blacktriangle;", [9652]); ("blacktriangledown;", [9662]);
  ("blacktriangleleft;", [9666]); ("blacktriangleright;", [9656]); ("blank;", [9251]);
  ("blk12;", [9618]); ("blk14;", [9617]); ("blk34;", [9619]); ("block;", [9608]);
  ("bne;", [61; 8421]); ("bnequiv;", [8801; 8421]); ("bnot;", [8976]); ("bopf;", [120147]);
  ("bot;", [8869]); ("bottom;", [8869]); ("bowtie;", [8904]); ("boxDL;", [9559]); ("boxDR;", [9556]);
  ("boxDl;", [9558]); ("boxDr;", [9555]); ("boxH;", [9552]); ("boxHD;", [9574]); ("boxHU;", [9577]);
  ("boxHd;", [9572]); ("boxHu;", [9575]); ("boxUL;", [9565]); ("boxUR;", [9562]); ("boxUl;", [9564]);
  ("boxUr;", [9561]); ("boxV;", [9553]); ("boxVH;", [9580]); ("boxVL;", [9571]); ("boxVR;", [9568]);
  ("boxVh;", [9579]); ("boxVl;", [9570]); ("boxVr;", [9567]); ("boxbox;", [10697]);
  ("boxdL;", [9557]); ("boxdR;", [9554]); ("boxdl;", [9488]); ("boxdr;", [9484]); ("boxh;", [9472]);
  ("boxhD;", [9573]); ("boxhU;", [9576]); ("boxhd;", [9516]); ("boxhu;", [9524]);
  ("boxminus;", [8863]); ("boxplus;", [8862]); ("boxtimes;", [8864]); ("boxuL;", [9563]);
  ("boxuR;", [9560]); ("boxul;", [9496]); ("boxur;", [9492]); ("boxv;", [9474]); ("boxvH;", [9578]);
  ("boxvL;", [9569]); ("boxvR;", [9566]); ("boxvh;", [9532]); ("boxvl;", [9508]); ("boxvr;", [9500]);
  ("bprime;", [8245]); ("breve;", [728]); ("brvbar", [166]); ("brvbar;", [166]); ("bscr;", [119991]);
  ("bsemi;", [8271]); ("bsim;", [8765]); ("bsime;", [8909]); ("bsol;", [92]); ("bsolb;", [10693]);
  ("bsolhsub;", [10184]); ("bull;", [8226]); ("bullet;", [8226]); ("bump;", [8782]);
  ("bumpE;", [10926]); ("bumpe;", [8783]); ("bumpeq;", [8783]); ("cacute;", [263]); ("cap;", [8745]);
  ("capand;", [10820]); ("capbrcup;", [10825]); ("capcap;", [10827]); ("capcup;", [10823]);
  ("capdot;", [10816]); ("caps;", [8745; 65024]); ("caret;", [8257]); ("caron;", [711]);
  ("ccaps;", [10829]); ("ccaron;", [269]); ("ccedil", [231]); ("ccedil;", [231]); ("ccirc;", [265]);
  ("ccups;", [10828]); ("ccupssm;", [10832]); ("cdot;", [267]); ("cedil", [184]); ("cedil;", [184]);
  ("cemptyv;", [10674]); ("cent", [162]); ("cent;", [162]); ("centerdot;", [183]);
  ("cfr;", [120096]); ("chcy;", [1095]); ("check;", [10003]); ("checkmark;", [10003]);
  ("chi;", [967]); ("cir;", [9675]); ("cirE;", [10691]); ("circ;", [710]); ("circeq;", [8791]);
  ("circlearrowleft;", [8634]); ("circlearrowright;", [8635]); ("circledR;", [174]);
  ("circledS;", [9416]); ("circledast;", [8859]); ("circledcirc;", [8858]); ("circleddash;", [8861]);
  ("cire;", [8791]); ("cirfnint;", [10768]); ("cirmid;", [10991]); ("cirscir;", [10690]);
  ("clubs;", [9827]); ("clubsuit;", [9827]); ("colon;", [58]); ("colone;", [8788]);
  ("coloneq;", [8788]); ("comma;", [44]); ("commat;", [64]); ("comp;", [8705]); ("compfn;", [8728]);
  ("complement;", [8705]); ("complexes;", [8450]); ("cong;", [8773]); ("congdot;", [10861]);
  ("conint;", [8750]); ("copf;", [120148]); ("coprod;", [8720]); ("copy", [169]); ("copy;", [169]);
  ("copysr;", [8471]); ("crarr;", [8629]); ("cross;", [10007]); ("cscr;", [119992]);
  ("csub;", [10959]); ("csube;", [10961]); ("csup;", [10960]); ("csupe;", [10962]);
  ("ctdot;", [8943]); ("cudarrl;", [10552]); ("cudarrr;", [10549]); ("cuepr;", [8926]);
  ("cuesc;", [8927]); ("cularr;", [8630]); ("cularrp;", [10557]); ("cup;", [8746]);
  ("cupbrcap;", [10824]); ("cupcap;", [10822]); ("cupcup;", [10826]); ("cupdot;", [8845]);
  ("cupor;", [10821]); ("cups;", [8746; 65024]); ("curarr;", [8631]); ("curarrm;", [10556]);
  ("curlyeqprec;", [8926]); ("curlyeqsucc;", [8927]); ("curlyvee;", [8910]); ("curlywedge;", [8911]);
  ("curren", [164]); ("curren;", [164]); ("curvearrowleft;", [8630]); ("curvearrowright;", [8631]);
  ("cuvee;", [8910]); ("cuwed;", [8911]); ("cwconint;", [8754]); ("cwint;", [8753]);
  ("cylcty;", [9005]); ("dArr;", [8659]); ("dHar;", [10597]); ("dagger;", [8224]);
  ("daleth;", [8504]); ("darr;", [8595]); ("dash;", [8208]); ("dashv;", [8867]);
  ("dbkarow;", [10511]); ("dblac;", [733]); ("dcaron;", [271]); ("dcy;", [1076]); ("dd;", [8518]);
  ("ddagger;", [8225]); ("ddarr;", [8650]); ("ddotseq;", [10871]); ("deg", [176]); ("deg;", [176]);
  ("delta;", [948]); ("demptyv;", [10673]); ("dfisht;", [10623]); ("dfr;", [120097]);
  ("dharl;", [8643]); ("dharr;", [8642]); ("diam;", [8900]); ("diamond;", [8900]);
  ("diamondsuit;", [9830]); ("diams;", [9830]); ("die;", [168]); ("digamma;", [989]);
  ("disin;", [8946]); ("div;", [247]); ("divide", [247]); ("divide;", [247]);
  ("divideontimes;", [8903]); ("divonx;", [8903]); ("djcy;", [1106]); ("dlcorn;", [8990]);
  ("dlcrop;", [8973]); ("dollar;", [36]); ("dopf;", [120149]); ("dot;", [729]); ("doteq;", [8784]);
  ("doteqdot;", [8785]); ("dotminus;", [8760]); ("dotplus;", [8724]); ("dotsquare;", [8865]);
  ("doublebarwedge;", [8966]); ("downarrow;", [8595]); ("downdownarrows;", [8650]);
  ("downharpoonleft;", [8643]); ("downharpoonright;", [8642]); ("drbkarow;", [10512]);
  ("drcorn;", [8991]); ("drcrop;", [8972]); ("dscr;", [119993]); ("dscy;", [1109]);
  ("dsol;", [10742]); ("dstrok;", [273]); ("dtdot;", [8945]); ("dtri;", [9663]); ("dtrif;", [9662]);
  ("duarr;", [8693]); ("duhar;", [10607]); ("dwangle;", [10662]); ("dzcy;", [1119]);
  ("dzigrarr;", [10239]); ("eDDot;", [10871]); ("eDot;", [8785]); ("eacute", [233]);
  ("eacute;", [233]); ("easter;", [10862]); ("ecaron;", [283]); ("ecir;", [8790]); ("ecirc", [234]);
  ("ecirc;", [234]); ("ecolon;", [8789]); ("ecy;", [1101]); ("edot;", [279]); ("ee;", [8519]);
  ("efDot;", [8786]); ("efr;", [120098]); ("eg;", [10906]); ("egrave", [232]); ("egrave;", [232]);
  ("egs;", [10902]); ("egsdot;", [10904]); ("el;", [10905]); ("elinters;", [9191]); ("ell;", [8467]);
  ("els;", [10901]); ("elsdot;", [10903]); ("emacr;", [275]); ("empty;", [8709]);
  ("emptyset;", [8709]); ("emptyv;", [8709]); ("emsp13;", [8196]); ("emsp14;", [8197]);
  ("emsp;", [8195]); ("eng;", [331]); ("ensp;", [8194]); ("eogon;", [281]); ("eopf;", [120150]);
  ("epar;", [8917]); ("eparsl;", [10723]); ("eplus;", [10865]); ("epsi;", [949]);
  ("epsilon;", [949]); ("epsiv;", [1013]); ("eqcirc;", [8790]); ("eqcolon;", [8789]);
  ("eqsim;", [8770]); ("eqslantgtr;", [10902]); ("eqslantless;", [10901]); ("equals;", [61]);
  ("equest;", [8799]); ("equiv;", [8801]); ("equivDD;", [10872]); ("eqvparsl;", [10725]);
  ("erDot;", [8787]); ("erarr;", [10609]); ("escr;", [8495]); ("esdot;", [8784]); ("esim;", [8770]);
  ("eta;", [951]); ("eth", [240]); ("eth;", [240]); ("euml", [235]); ("euml;", [235]);
  ("euro;", [8364]); ("excl;", [33]); ("exist;", [8707]); ("expectation;", [8496]);
  ("exponentiale;", [8519]); ("fallingdotseq;", [8786]); ("fcy;", [1092]); ("female;", [9792]);
  ("ffilig;", [64259]); ("fflig;", [64256]); ("ffllig;", [64260]); ("ffr;", [120099]);
  ("filig;", [64257]); ("fjlig;", [102; 106]); ("flat;", [9837]); ("fllig;", [64258]);
  ("fltns;", [9649]); ("fnof;", [402]); ("fopf;", [120151]); ("forall;", [8704]); ("fork;", [8916]);
  ("forkv;", [10969]); ("fpartint;", [10765]); ("frac12", [189]); ("frac12;", [189]);
  ("frac13;", [8531]); ("frac14", [188]); ("frac14;", [188]); ("frac15;", [8533]);
  ("frac16;", [8537]); ("frac18;", [8539]); ("frac23;", [8532]); ("frac25;", [8534]);
  ("frac34", [190]); ("frac34;", [190]); ("frac35;", [8535]); ("frac38;", [8540]);
  ("frac45;", [8536]); ("frac56;", [8538]); ("frac58;", [8541]); ("frac78;", [8542]);
  ("frasl;", [8260]); ("frown;", [8994]); ("fscr;", [119995]); ("gE;", [8807]); ("gEl;", [10892]);
  ("gacute;", [501]); ("gamma;", [947]); ("gammad;", [989]); ("gap;", [10886]); ("gbreve;", [287]);
  ("gcirc;", [285]); ("gcy;", [1075]); ("gdot;", [289]); ("ge;", [8805]); ("gel;", [8923]);
  ("geq;", [8805]); ("geqq;", [8807]); ("geqslant;", [10878]); ("ges;", [10878]);
  ("gescc;", [10921]); ("gesdot;", [10880]); ("gesdoto;", [10882]); ("gesdotol;", [10884]);
  ("gesl;", [8923; 65024]); ("gesles;", [10900]); ("gfr;", [120100]); ("gg;", [8811]);
  ("ggg;", [8921]); ("gimel;", [8503]); ("gjcy;", [1107]); ("gl;", [8823]); ("glE;", [10898]);
  ("gla;", [10917]); ("glj;", [10916]); ("gnE;", [8809]); ("gnap;", [10890]); ("gnapprox;", [10890]);
  ("gne;", [10888]); ("gneq;", [10888]); ("gneqq;", [8809]); ("gnsim;", [8935]); ("gopf;", [120152]);
  ("grave;", [96]); ("gscr;", [8458]); ("gsim;", [8819]); ("gsime;", [10894]); ("gsiml;", [10896]);
  ("gt", [62]); ("gt;", [62]); ("gtcc;", [10919]); ("gtcir;", [10874]); ("gtdot;", [8919]);
  ("gtlPar;", [10645]); ("gtquest;", [10876]); ("gtrapprox;", [10886]); ("gtrarr;", [10616]);
  ("gtrdot;", [8919]); ("gtreqless;", [8923]); ("gtreqqless;", [10892]); ("gtrless;", [8823]);
  ("gtrsim;", [8819]); ("gvertneqq;", [8809; 65024]); ("gvnE;", [8809; 65024]); ("hArr;", [8660]);
  ("hairsp;", [8202]); ("half;", [189]); ("hamilt;", [8459]); ("hardcy;", [1098]); ("harr;", [8596]);
  ("harrcir;", [10568]); ("harrw;", [8621]); ("hbar;", [8463]); ("hcirc;", [293]);
  ("hearts;", [9829]); ("heartsuit;", [9829]); ("hellip;", [8230]); ("hercon;", [8889]);
  ("hfr;", [120101]); ("hksearow;", [10533]); ("hkswarow;", [10534]); ("hoarr;", [8703]);
  ("homtht;", [8763]); ("hookleftarrow;", [8617]); ("hookrightarrow;", [8618]); ("hopf;", [120153]);
  ("horbar;", [8213]); ("hscr;", [119997]); ("hslash;", [8463]); ("hstrok;", [295]);
  ("hybull;", [8259]); ("hyphen;", [8208]); ("iacute", [237]); ("iacute;", [237]); ("ic;", [8291]);
  ("icirc", [238]); ("icirc;", [238]); ("icy;", [1080]); ("iecy;", [1077]); ("iexcl", [161]);
  ("iexcl;", [161]); ("iff;", [8660]); ("ifr;", [120102]); ("igrave", [236]); ("igrave;", [236]);
  ("ii;", [8520]); ("iiiint;", [10764]); ("iiint;", [8749]); ("iinfin;", [10716]);
  ("iiota;", [8489]); ("ijlig;", [307]); ("imacr;", [299]); ("image;", [8465]);
  ("imagline;", [8464]); ("imagpart;", [8465]); ("imath;", [305]); ("imof;", [8887]);
  ("imped;", [437]); ("in;", [8712]); ("incare;", [8453]); ("infin;", [8734]);
  ("infintie;", [10717]); ("inodot;", [305]); ("int;", [8747]); ("intcal;", [8890]);
  ("integers;", [8484]); ("intercal;", [8890]); ("intlarhk;", [10775]); ("intprod;", [10812]);
  ("iocy;", [1105]); ("iogon;", [303]); ("iopf;", [120154]); ("iota;", [953]); ("iprod;", [10812]);
  ("iquest", [191]); ("iquest;", [191]); ("iscr;", [119998]); ("isin;", [8712]); ("isinE;", [8953]);
  ("isindot;", [8949]); ("isins;", [8948]); ("isinsv;", [8947]); ("isinv;", [8712]); ("it;", [8290]);
  ("itilde;", [297]); ("iukcy;", [1110]); ("iuml", [239]); ("iuml;", [239]); ("jcirc;", [309]);
  ("jcy;", [1081]); ("jfr;", [120103]); ("jmath;", [567]); ("jopf;", [120155]); ("jscr;", [119999]);
  ("jsercy;", [1112]); ("jukcy;", [1108]); ("kappa;", [954]); ("kappav;", [1008]);
  ("kcedil;", [311]); ("kcy;", [1082]); ("kfr;", [120104]); ("kgreen;", [312]); ("khcy;", [1093]);
  ("kjcy;", [1116]); ("kopf;", [120156]); ("kscr;", [120000]); ("lAarr;", [8666]); ("lArr;", [8656]);
  ("lAtail;", [10523]); ("lBarr;", [10510]); ("lE;", [8806]); ("lEg;", [10891]); ("lHar;", [10594]);
  ("lacute;", [314]); ("laemptyv;", [10676]); ("lagran;", [8466]); ("lambda;", [955]);
  ("lang;", [10216]); ("langd;", [10641]); ("langle;", [10216]); ("lap;", [10885]); ("laquo", [171]);
  ("laquo;", [171]); ("larr;", [8592]); ("larrb;", [8676]); ("larrbfs;", [10527]);
  ("larrfs;", [10525]); ("larrhk;", [8617]); ("larrlp;", [8619]); ("larrpl;", [10553]);
  ("larrsim;", [10611]); ("larrtl;", [8610]); ("lat;", [10923]); ("latail;", [10521]);
  ("late;", [10925]); ("lates;", [10925; 65024]); ("lbarr;", [10508]); ("lbbrk;", [10098]);
  ("lbrace;", [123]); ("lbrack;", [91]); ("lbrke;", [10635]); ("lbrksld;", [10639]);
  ("lbrkslu;", [10637]); ("lcaron;", [318]); ("lcedil;", [316]); ("lceil;", [8968]);
  ("lcub;", [123]); ("lcy;", [1083]); ("ldca;", [10550]); ("ldquo;", [8220]); ("ldquor;", [8222]);
  ("ldrdhar;", [10599]); ("ldrushar;", [10571]); ("ldsh;", [8626]); ("le;", [8804]);
  ("leftarrow;", [8592]); ("leftarrowtail;", [8610]); ("leftharpoondown;", [8637]);
  ("leftharpoonup;", [8636]); ("leftleftarrows;", [8647]); ("leftrightarrow;", [8596]);
  ("leftrightarrows;", [8646]); ("leftrightharpoons;", [8651]); ("leftrightsquigarrow;", [8621]);
  ("leftthreetimes;", [8907]); ("leg;", [8922]); ("leq;", [8804]); ("leqq;", [8806]);
  ("leqslant;", [10877]); ("les;", [10877]); ("lescc;", [10920]); ("lesdot;", [10879]);
  ("lesdoto;", [10881]); ("lesdotor;", [10883]); ("lesg;", [8922; 65024]); ("lesges;", [10899]);
  ("lessapprox;", [10885]); ("lessdot;", [8918]); ("lesseqgtr;", [8922]); ("lesseqqgtr;", [10891]);
  ("lessgtr;", [8822]); ("lesssim;", [8818]); ("lfisht;", [10620]); ("lfloor;", [8970]);
  ("lfr;", [120105]); ("lg;", [8822]); ("lgE;", [10897]); ("lhard;", [8637]); ("lharu;", [8636]);
  ("lharul;", [10602]); ("lhblk;", [9604]); ("ljcy;", [1113]); ("ll;", [8810]); ("llarr;", [8647]);
  ("llcorner;", [8990]); ("llhard;", [10603]); ("lltri;", [9722]); ("lmidot;", [320]);
  ("lmoust;", [9136]); ("lmoustache;", [9136]); ("lnE;", [8808]); ("lnap;", [10889]);
  ("lnapprox;", [10889]); ("lne;", [10887]); ("lneq;", [10887]); ("lneqq;", [8808]);
  ("lnsim;", [8934]); ("loang;", [10220]); ("loarr;", [8701]); ("lobrk;", [10214]);
  ("longleftarrow;", [10229]); ("longleftrightarrow;", [10231]); ("longmapsto;", [10236]);
  ("longrightarrow;", [10230]); ("looparrowleft;", [8619]); ("looparrowright;", [8620]);
  ("lopar;", [10629]); ("lopf;", [120157]); ("loplus;", [10797]); ("lotimes;", [10804]);
  ("lowast;", [8727]); ("lowbar;", [95]); ("loz;", [9674]); ("lozenge;", [9674]); ("lozf;", [10731]);
  ("lpar;", [40]); ("lparlt;", [10643]); ("lrarr;", [8646]); ("lrcorner;", [8991]);
  ("lrhar;", [8651]); ("lrhard;", [10605]); ("lrm;", [8206]); ("lrtri;", [8895]);
  ("lsaquo;", [8249]); ("lscr;", [120001]); ("lsh;", [8624]); ("lsim;", [8818]); ("lsime;", [10893]);
  ("lsimg;", [10895]); ("lsqb;", [91]); ("lsquo;", [8216]); ("lsquor;", [8218]); ("lstrok;", [322]);
  ("lt", [60]); ("lt;", [60]); ("ltcc;", [10918]); ("ltcir;", [10873]); ("ltdot;", [8918]);
  ("lthree;", [8907]); ("ltimes;", [8905]); ("ltlarr;", [10614]); ("ltquest;", [10875]);
  ("ltrPar;", [10646]); ("ltri;", [9667]); ("ltrie;", [8884]); ("ltrif;", [9666]);
  ("lurdshar;", [10570]); ("luruhar;", [10598]); ("lvertneqq;", [8808; 65024]);
  ("lvnE;", [8808; 65024]); ("mDDot;", [8762]); ("macr", [175]); ("macr;", [175]); ("male;", [9794]);
  ("malt;", [10016]); ("maltese;", [10016]); ("map;", [8614]); ("mapsto;", [8614]);
  ("mapstodown;", [8615]); ("mapstoleft;", [8612]); ("mapstoup;", [8613]); ("marker;", [9646]);
  ("mcomma;", [10793]); ("mcy;", [1084]); ("mdash;", [8212]); ("measuredangle;", [8737]);
  ("mfr;", [120106]); ("mho;", [8487]); ("micro", [181]); ("micro;", [181]); ("mid;", [8739]);
  ("midast;", [42]); ("midcir;", [10992]); ("middot", [183]); ("middot;", [183]); ("minus;", [8722]);
  ("minusb;", [8863]); ("minusd;", [8760]); ("minusdu;", [10794]); ("mlcp;", [10971]);
  ("mldr;", [8230]); ("mnplus;", [8723]); ("models;", [8871]); ("mopf;", [120158]); ("mp;", [8723]);
  ("mscr;", [120002]); ("mstpos;", [8766]); ("mu;", [956]); ("multimap;", [8888]);
  ("mumap;", [8888]); ("nGg;", [8921; 824]); ("nGt;", [8811; 8402]); ("nGtv;", [8811; 824]);
  ("nLeftarrow;", [8653]); ("nLeftrightarrow;", [8654]); ("nLl;", [8920; 824]);
  ("nLt;", [8810; 8402]); ("nLtv;", [8810; 824]); ("nRightarrow;", [8655]); ("nVDash;", [8879]);
  ("nVdash;", [8878]); ("nabla;", [8711]); ("nacute;", [324]); ("nang;", [8736; 8402]);
  ("nap;", [8777]); ("napE;", [10864; 824]); ("napid;", [8779; 824]); ("napos;", [329]);
  ("napprox;", [8777]); ("natur;", [9838]); ("natural;", [9838]); ("naturals;", [8469]);
  ("nbsp", [160]); ("nbsp;", [160]); ("nbump;", [8782; 824]); ("nbumpe;", [8783; 824]);
  ("ncap;", [10819]); ("ncaron;", [328]); ("ncedil;", [326]); ("ncong;", [8775]);
  ("ncongdot;", [10861; 824]); ("ncup;", [10818]); ("ncy;", [1085]); ("ndash;", [8211]);
  ("ne;", [8800]); ("neArr;", [8663]); ("nearhk;", [10532]); ("nearr;", [8599]);
  ("nearrow;", [8599]); ("nedot;", [8784; 824]); ("nequiv;", [8802]); ("nesear;", [10536]);
  ("nesim;", [8770; 824]); ("nexist;", [8708]); ("nexists;", [8708]); ("nfr;", [120107]);
  ("ngE;", [8807; 824]); ("nge;", [8817]); ("ngeq;", [8817]); ("ngeqq;", [8807; 824]);
  ("ngeqslant;", [10878; 824]); ("nges;", [10878; 824]); ("ngsim;", [8821]); ("ngt;", [8815]);
  ("ngtr;", [8815]); ("nhArr;", [8654]); ("nharr;", [8622]); ("nhpar;", [10994]); ("ni;", [8715]);
  ("nis;", [8956]); ("nisd;", [8954]); ("niv;", [8715]); ("njcy;", [1114]); ("nlArr;", [8653]);
  ("nlE;", [8806; 824]); ("nlarr;", [8602]); ("nldr;", [8229]); ("nle;", [8816]);
  ("nleftarrow;", [8602]); ("nleftrightarrow;", [8622]); ("nleq;", [8816]); ("nleqq;", [8806; 824]);
  ("nleqslant;", [10877; 824]); ("nles;", [10877; 824]); ("nless;", [8814]); ("nlsim;", [8820]);
  ("nlt;", [8814]); ("nltri;", [8938]); ("nltrie;", [8940]); ("nmid;", [8740]); ("nopf;", [120159]);
  ("not", [172]); ("not;", [172]); ("notin;", [8713]); ("notinE;", [8953; 824]);
  ("notindot;", [8949; 824]); ("notinva;", [8713]); ("notinvb;", [8951]); ("notinvc;", [8950]);
  ("notni;", [8716]); ("notniva;", [8716]); ("notnivb;", [8958]); ("notnivc;", [8957]);
  ("npar;", [8742]); ("nparallel;", [8742]); ("nparsl;", [11005; 8421]); ("npart;", [8706; 824]);
  ("npolint;", [10772]); ("npr;", [8832]); ("nprcue;", [8928]); ("npre;", [10927; 824]);
  ("nprec;", [8832]); ("npreceq;", [10927; 824]); ("nrArr;", [8655]); ("nrarr;", [8603]);
  ("nrarrc;", [10547; 824]); ("nrarrw;", [8605; 824]); ("nrightarrow;", [8603]); ("nrtri;", [8939]);
  ("nrtrie;", [8941]); ("nsc;", [8833]); ("nsccue;", [8929]); ("nsce;", [10928; 824]);
  ("nscr;", [120003]); ("nshortmid;", [8740]); ("nshortparallel;", [8742]); ("nsim;", [8769]);
  ("nsime;", [8772]); ("nsimeq;", [8772]); ("nsmid;", [8740]); ("nspar;", [8742]);
  ("nsqsube;", [8930]); ("nsqsupe;", [8931]); ("nsub;", [8836]); ("nsubE;", [10949; 824]);
  ("nsube;", [8840]); ("nsubset;", [8834; 8402]); ("nsubseteq;", [8840]);
  ("nsubseteqq;", [10949; 824]); ("nsucc;", [8833]); ("nsucceq;", [10928; 824]); ("nsup;", [8837]);
  ("nsupE;", [10950; 824]); ("nsupe;", [8841]); ("nsupset;", [8835; 8402]); ("nsupseteq;", [8841]);
  ("nsupseteqq;", [10950; 824]); ("ntgl;", [8825]); ("ntilde", [241]); ("ntilde;", [241]);
  ("ntlg;", [8824]); ("ntriangleleft;", [8938]); ("ntrianglelefteq;", [8940]);
  ("ntriangleright;", [8939]); ("ntrianglerighteq;", [8941]); ("nu;", [957]); ("num;", [35]);
  ("numero;", [8470]); ("numsp;", [8199]); ("nvDash;", [8877]); ("nvHarr;", [10500]);
  ("nvap;", [8781; 8402]); ("nvdash;", [8876]); ("nvge;", [8805; 8402]); ("nvgt;", [62; 8402]);
  ("nvinfin;", [10718]); ("nvlArr;", [10498]); ("nvle;", [8804; 8402]); ("nvlt;", [60; 8402]);
  ("nvltrie;", [8884; 8402]); ("nvrArr;", [10499]); ("nvrtrie;", [8885; 8402]);
  ("nvsim;", [8764; 8402]); ("nwArr;", [8662]); ("nwarhk;", [10531]); ("nwarr;", [8598]);
  ("nwarrow;", [8598]); ("nwnear;", [10535]); ("oS;", [9416]); ("oacute", [243]); ("oacute;", [243]);
  ("oast;", [8859]); ("ocir;", [8858]); ("ocirc", [244]); ("ocirc;", [244]); ("ocy;", [1086]);
  ("odash;", [8861]); ("odblac;", [337]); ("odiv;", [10808]); ("odot;", [8857]);
  ("odsold;", [10684]); ("oelig;", [339]); ("ofcir;", [10687]); ("ofr;", [120108]); ("ogon;", [731]);
  ("ograve", [242]); ("ograve;", [242]); ("ogt;", [10689]); ("ohbar;", [10677]); ("ohm;", [937]);
  ("oint;", [8750]); ("olarr;", [8634]); ("olcir;", [10686]); ("olcross;", [10683]);
  ("oline;", [8254]); ("olt;", [10688]); ("omacr;", [333]); ("omega;", [969]); ("omicron;", [959]);
  ("omid;", [10678]); ("ominus;", [8854]); ("oopf;", [120160]); ("opar;", [10679]);
  ("operp;", [10681]); ("oplus;", [8853]); ("or;", [8744]); ("orarr;", [8635]); ("ord;", [10845]);
  ("order;", [8500]); ("orderof;", [8500]); ("ordf", [170]); ("ordf;", [170]); ("ordm", [186]);
  ("ordm;", [186]); ("origof;", [8886]); ("oror;", [10838]); ("orslope;", [10839]);
  ("orv;", [10843]); ("oscr;", [8500]); ("oslash", [248]); ("oslash;", [248]); ("osol;", [8856]);
  ("otilde", [245]); ("otilde;", [245]); ("otimes;", [8855]); ("otimesas;", [10806]);
  ("ouml", [246]); ("ouml;", [246]); ("ovbar;", [9021]); ("par;", [8741]); ("para", [182]);
  ("para;", [182]); ("parallel;", [8741]); ("parsim;", [10995]); ("parsl;", [11005]);
  ("part;", [8706]); ("pcy;", [1087]); ("percnt;", [37]); ("period;", [46]); ("permil;", [8240]);
  ("perp;", [8869]); ("pertenk;", [8241]); ("pfr;", [120109]); ("phi;", [966]); ("phiv;", [981]);
  ("phmmat;", [8499]); ("phone;", [9742]); ("pi;", [960]); ("pitchfork;", [8916]); ("piv;", [982]);
  ("planck;", [8463]); ("planckh;", [8462]); ("plankv;", [8463]); ("plus;", [43]);
  ("plusacir;", [10787]); ("plusb;", [8862]); ("pluscir;", [10786]); ("plusdo;", [8724]);
  ("plusdu;", [10789]); ("pluse;", [10866]); ("plusmn", [177]); ("plusmn;", [177]);
  ("plussim;", [10790]); ("plustwo;", [10791]); ("pm;", [177]); ("pointint;", [10773]);
  ("popf;", [120161]); ("pound", [163]); ("pound;", [163]); ("pr;", [8826]); ("prE;", [10931]);
  ("prap;", [10935]); ("prcue;", [8828]); ("pre;", [10927]); ("prec;", [8826]);
  ("precapprox;", [10935]); ("preccurlyeq;", [8828]); ("preceq;", [10927]);
  ("precnapprox;", [10937]); ("precneqq;", [10933]); ("precnsim;", [8936]); ("precsim;", [8830]);
  ("prime;", [8242]); ("primes;", [8473]); ("prnE;", [10933]); ("prnap;", [10937]);
  ("prnsim;", [8936]); ("prod;", [8719]); ("profalar;", [9006]); ("profline;", [8978]);
  ("profsurf;", [8979]); ("prop;", [8733]); ("propto;", [8733]); ("prsim;", [8830]);
  ("prurel;", [8880]); ("pscr;", [120005]); ("psi;", [968]); ("puncsp;", [8200]); ("qfr;", [120110]);
  ("qint;", [10764]); ("qopf;", [120162]); ("qprime;", [8279]); ("qscr;", [120006]);
  ("quaternions;", [8461]); ("quatint;", [10774]); ("quest;", [63]); ("questeq;", [8799]);
  ("quot", [34]); ("quot;", [34]); ("rAarr;", [8667]); ("rArr;", [8658]); ("rAtail;", [10524]);
  ("rBarr;", [10511]); ("rHar;", [10596]); ("race;", [8765; 817]); ("racute;", [341]);
  ("radic;", [8730]); ("raemptyv;", [10675]); ("rang;", [10217]); ("rangd;", [10642]);
  ("range;", [10661]); ("rangle;", [10217]); ("raquo", [187]); ("raquo;", [187]); ("rarr;", [8594]);
  ("rarrap;", [10613]); ("rarrb;", [8677]); ("rarrbfs;", [10528]); ("rarrc;", [10547]);
  ("rarrfs;", [10526]); ("rarrhk;", [8618]); ("rarrlp;", [8620]); ("rarrpl;", [10565]);
  ("rarrsim;", [10612]); ("rarrtl;", [8611]); ("rarrw;", [8605]); ("ratail;", [10522]);
  ("ratio;", [8758]); ("rationals;", [8474]); ("rbarr;", [10509]); ("rbbrk;", [10099]);
  ("rbrace;", [125]); ("rbrack;", [93]); ("rbrke;", [10636]); ("rbrksld;", [10638]);
  ("rbrkslu;", [10640]); ("rcaron;", [345]); ("rcedil;", [343]); ("rceil;", [8969]);
  ("rcub;", [125]); ("rcy;", [1088]); ("rdca;", [10551]); ("rdldhar;", [10601]); ("rdquo;", [8221]);
  ("rdquor;", [8221]); ("rdsh;", [8627]); ("real;", [8476]); ("realine;", [8475]);
  ("realpart;", [8476]); ("reals;", [8477]); ("rect;", [9645]); ("reg", [174]); ("reg;", [174]);
  ("rfisht;", [10621]); ("rfloor;", [8971]); ("rfr;", [120111]); ("rhard;", [8641]);
  ("rharu;", [8640]); ("rharul;", [10604]); ("rho;", [961]); ("rhov;", [1009]);
  ("rightarrow;", [8594]); ("rightarrowtail;", [8611]); ("rightharpoondown;", [8641]);
  ("rightharpoonup;", [8640]); ("rightleftarrows;", [8644]); ("rightleftharpoons;", [8652]);
  ("rightrightarrows;", [8649]); ("rightsquigarrow;", [8605]); ("rightthreetimes;", [8908]);
  ("ring;", [730]); ("risingdotseq;", [8787]); ("rlarr;", [8644]); ("rlhar;", [8652]);
  ("rlm;", [8207]); ("rmoust;", [9137]); ("rmoustache;", [9137]); ("rnmid;", [10990]);
  ("roang;", [10221]); ("roarr;", [8702]); ("robrk;", [10215]); ("ropar;", [10630]);
  ("ropf;", [120163]); ("roplus;", [10798]); ("rotimes;", [10805]); ("rpar;", [41]);
  ("rpargt;", [10644]); ("rppolint;", [10770]); ("rrarr;", [8649]); ("rsaquo;", [8250]);
  ("rscr;", [120007]); ("rsh;", [8625]); ("rsqb;", [93]); ("rsquo;", [8217]); ("rsquor;", [8217]);
  ("rthree;", [8908]); ("rtimes;", [8906]); ("rtri;", [9657]); ("rtrie;", [8885]);
  ("rtrif;", [9656]); ("rtriltri;", [10702]); ("ruluhar;", [10600]); ("rx;", [8478]);
  ("sacute;", [347]); ("sbquo;", [8218]); ("sc;", [8827]); ("scE;", [10932]); ("scap;", [10936]);
  ("scaron;", [353]); ("sccue;", [8829]); ("sce;", [10928]); ("scedil;", [351]); ("scirc;", [349]);
  ("scnE;", [10934]); ("scnap;", [10938]); ("scnsim;", [8937]); ("scpolint;", [10771]);
  ("scsim;", [8831]); ("scy;", [1089]); ("sdot;", [8901]); ("sdotb;", [8865]); ("sdote;", [10854]);
  ("seArr;", [8664]); ("searhk;", [10533]); ("searr;", [8600]); ("searrow;", [8600]);
  ("sect", [167]); ("sect;", [167]); ("semi;", [59]); ("seswar;", [10537]); ("setminus;", [8726]);
  ("setmn;", [8726]); ("sext;", [10038]); ("sfr;", [120112]); ("sfrown;", [8994]);
  ("sharp;", [9839]); ("shchcy;", [1097]); ("shcy;", [1096]); ("shortmid;", [8739]);
  ("shortparallel;", [8741]); ("shy", [173]); ("shy;", [173]); ("sigma;", [963]); ("sigmaf;", [962]);
  ("sigmav;", [962]); ("sim;", [8764]); ("simdot;", [10858]); ("sime;", [8771]); ("simeq;", [8771]);
  ("simg;", [10910]); ("simgE;", [10912]); ("siml;", [10909]); ("simlE;", [10911]);
  ("simne;", [8774]); ("simplus;", [10788]); ("simrarr;", [10610]); ("slarr;", [8592]);
  ("smallsetminus;", [8726]); ("smashp;", [10803]); ("smeparsl;", [10724]); ("smid;", [8739]);
  ("smile;", [8995]); ("smt;", [10922]); ("smte;", [10924]); ("smtes;", [10924; 65024]);
  ("softcy;", [1100]); ("sol;", [47]); ("solb;", [10692]); ("solbar;", [9023]); ("sopf;", [120164]);
  ("spades;", [9824]); ("spadesuit;", [9824]); ("spar;", [8741]); ("sqcap;", [8851]);
  ("sqcaps;", [8851; 65024]); ("sqcup;", [8852]); ("sqcups;", [8852; 65024]); ("sqsub;", [8847]);
  ("sqsube;", [8849]); ("sqsubset;", [8847]); ("sqsubseteq;", [8849]); ("sqsup;", [8848]);
  ("sqsupe;", [8850]); ("sqsupset;", [8848]); ("sqsupseteq;", [8850]); ("squ;", [9633]);
  ("square;", [9633]); ("squarf;", [9642]); ("squf;", [9642]); ("srarr;", [8594]);
  ("sscr;", [120008]); ("ssetmn;", [8726]); ("ssmile;", [8995]); ("sstarf;", [8902]);
  ("star;", [9734]); ("starf;", [9733]); ("straightepsilon;", [1013]); ("straightphi;", [981]);
  ("strns;", [175]); ("sub;", [8834]); ("subE;", [10949]); ("subdot;", [10941]); ("sube;", [8838]);
  ("subedot;", [10947]); ("submult;", [10945]); ("subnE;", [10955]); ("subne;", [8842]);
  ("subplus;", [10943]); ("subrarr;", [10617]); ("subset;", [8834]); ("subseteq;", [8838]);
  ("subseteqq;", [10949]); ("subsetneq;", [8842]); ("subsetneqq;", [10955]); ("subsim;", [10951]);
  ("subsub;", [10965]); ("subsup;", [10963]); ("succ;", [8827]); ("succapprox;", [10936]);
  ("succcurlyeq;", [8829]); ("succeq;", [10928]); ("succnapprox;", [10938]); ("succneqq;", [10934]);
  ("succnsim;", [8937]); ("succsim;", [8831]); ("sum;", [8721]); ("sung;", [9834]); ("sup1", [185]);
  ("sup1;", [185]); ("sup2", [178]); ("sup2;", [178]); ("sup3", [179]); ("sup3;", [179]);
  ("sup;", [8835]); ("supE;", [10950]); ("supdot;", [10942]); ("supdsub;", [10968]);
  ("supe;", [8839]); ("supedot;", [10948]); ("suphsol;", [10185]); ("suphsub;", [10967]);
  ("suplarr;", [10619]); ("supmult;", [10946]); ("supnE;", [10956]); ("supne;", [8843]);
  ("supplus;", [10944]); ("supset;", [8835]); ("supseteq;", [8839]); ("supseteqq;", [10950]);
  ("supsetneq;", [8843]); ("supsetneqq;", [10956]); ("supsim;", [10952]); ("supsub;", [10964]);
  ("supsup;", [10966]); ("swArr;", [8665]); ("swarhk;", [10534]); ("swarr;", [8601]);
  ("swarrow;", [8601]); ("swnwar;", [10538]); ("szlig", [223]); ("szlig;", [223]);
  ("target;", [8982]); ("tau;", [964]); ("tbrk;", [9140]); ("tcaron;", [357]); ("tcedil;", [355]);
  ("tcy;", [1090]); ("tdot;", [8411]); ("telrec;", [8981]); ("tfr;", [120113]); ("there4;", [8756]);
  ("therefore;", [8756]); ("theta;", [952]); ("thetasym;", [977]); ("thetav;", [977]);
  ("thickapprox;", [8776]); ("thicksim;", [8764]); ("thinsp;", [8201]); ("thkap;", [8776]);
  ("thksim;", [8764]); ("thorn", [254]); ("thorn;", [254]); ("tilde;", [732]); ("times", [215]);
  ("times;", [215]); ("timesb;", [8864]); ("timesbar;", [10801]); ("timesd;", [10800]);
  ("tint;", [8749]); ("toea;", [10536]); ("top;", [8868]); ("topbot;", [9014]); ("topcir;", [10993]);
  ("topf;", [120165]); ("topfork;", [10970]); ("tosa;", [10537]); ("tprime;", [8244]);
  ("trade;", [8482]); ("triangle;", [9653]); ("triangledown;", [9663]); ("triangleleft;", [9667]);
  ("trianglelefteq;", [8884]); ("triangleq;", [8796]); ("triangleright;", [9657]);
  ("trianglerighteq;", [8885]); ("tridot;", [9708]); ("trie;", [8796]); ("triminus;", [10810]);
  ("triplus;", [10809]); ("trisb;", [10701]); ("tritime;", [10811]); ("trpezium;", [9186]);
  ("tscr;", [120009]); ("tscy;", [1094]); ("tshcy;", [1115]); ("tstrok;", [359]); ("twixt;", [8812]);
  ("twoheadleftarrow;", [8606]); ("twoheadrightarrow;", [8608]); ("uArr;", [8657]);
  ("uHar;", [10595]); ("uacute", [250]); ("uacute;", [250]); ("uarr;", [8593]); ("ubrcy;", [1118]);
  ("ubreve;", [365]); ("ucirc", [251]); ("ucirc;", [251]); ("ucy;", [1091]); ("udarr;", [8645]);
  ("udblac;", [369]); ("udhar;", [10606]); ("ufisht;", [10622]); ("ufr;", [120114]);
  ("ugrave", [249]); ("ugrave;", [249]); ("uharl;", [8639]); ("uharr;", [8638]); ("uhblk;", [9600]);
  ("ulcorn;", [8988]); ("ulcorner;", [8988]); ("ulcrop;", [8975]); ("ultri;", [9720]);
  ("umacr;", [363]); ("uml", [168]); ("uml;", [168]); ("uogon;", [371]); ("uopf;", [120166]);
  ("uparrow;", [8593]); ("updownarrow;", [8597]); ("upharpoonleft;", [8639]);
  ("upharpoonright;", [8638]); ("uplus;", [8846]); ("upsi;", [965]); ("upsih;", [978]);
  ("upsilon;", [965]); ("upuparrows;", [8648]); ("urcorn;", [8989]); ("urcorner;", [8989]);
  ("urcrop;", [8974]); ("uring;", [367]); ("urtri;", [9721]); ("uscr;", [120010]);
  ("utdot;", [8944]); ("utilde;", [361]); ("utri;", [9653]); ("utrif;", [9652]); ("uuarr;", [8648]);
  ("uuml", [252]); ("uuml;", [252]); ("uwangle;", [10663]); ("vArr;", [8661]); ("vBar;", [10984]);
  ("vBarv;", [10985]); ("vDash;", [8872]); ("vangrt;", [10652]); ("varepsilon;", [1013]);
  ("varkappa;", [1008]); ("varnothing;", [8709]); ("varphi;", [981]); ("varpi;", [982]);
  ("varpropto;", [8733]); ("varr;", [8597]); ("varrho;", [1009]); ("varsigma;", [962]);
  ("varsubsetneq;", [8842; 65024]); ("varsubsetneqq;", [10955; 65024]);
  ("varsupsetneq;", [8843; 65024]); ("varsupsetneqq;", [10956; 65024]); ("vartheta;", [977]);
  ("vartriangleleft;", [8882]); ("vartriangleright;", [8883]); ("vcy;", [1074]); ("vdash;", [8866]);
  ("vee;", [8744]); ("veebar;", [8891]); ("veeeq;", [8794]); ("vellip;", [8942]); ("verbar;", [124]);
  ("vert;", [124]); ("vfr;", [120115]); ("vltri;", [8882]); ("vnsub;", [8834; 8402]);
  ("vnsup;", [8835; 8402]); ("vopf;", [120167]); ("vprop;", [8733]); ("vrtri;", [8883]);
  ("vscr;", [120011]); ("vsubnE;", [10955; 65024]); ("vsubne;", [8842; 65024]);
  ("vsupnE;", [10956; 65024]); ("vsupne;", [8843; 65024]); ("vzigzag;", [10650]); ("wcirc;", [373]);
  ("wedbar;", [10847]); ("wedge;", [8743]); ("wedgeq;", [8793]); ("weierp;", [8472]);
  ("wfr;", [120116]); ("wopf;", [120168]); ("wp;", [8472]); ("wr;", [8768]); ("wreath;", [8768]);
  ("wscr;", [120012]); ("xcap;", [8898]); ("xcirc;", [9711]); ("xcup;", [8899]); ("xdtri;", [9661]);
  ("xfr;", [120117]); ("xhArr;", [10234]); ("xharr;", [10231]); ("xi;", [958]); ("xlArr;", [10232]);
  ("xlarr;", [10229]); ("xmap;", [10236]); ("xnis;", [8955]); ("xodot;", [10752]);
  ("xopf;", [120169]); ("xoplus;", [10753]); ("xotime;", [10754]); ("xrArr;", [10233]);
  ("xrarr;", [10230]); ("xscr;", [120013]); ("xsqcup;", [10758]); ("xuplus;", [10756]);
  ("xutri;", [9651]); ("xvee;", [8897]); ("xwedge;", [8896]); ("yacute", [253]); ("yacute;", [253]);
  ("yacy;", [1103]); ("ycirc;", [375]); ("ycy;", [1099]); ("yen", [165]); ("yen;", [165]);
  ("yfr;", [120118]); ("yicy;", [1111]); ("yopf;", [120170]); ("yscr;", [120014]); ("yucy;", [1102]);
  ("yuml", [255]); ("yuml;", [255]); ("zacute;", [378]); ("zcaron;", [382]); ("zcy;", [1079]);
  ("zdot;", [380]); ("zeetrf;", [8488]); ("zeta;", [950]); ("zfr;", [120119]); ("zhcy;", [1078]);
  ("zigrarr;", [8669]); ("zopf;", [120171]); ("zscr;", [120015]); ("zwj;", [8205]);
  ("zwnj;", [8204])
]%N.

Fixpoint name_eqb (k : string) (s : pystr) : bool :=
  match k, s with
  | EmptyString, [] => true
  | String a k', c :: s' => N.eqb (N_of_ascii a) c && name_eqb k' s'
  | _, _ => false
  end.

(** [_html5.get(s)] *)
Fixpoint table_get (t : list (string * list N)) (s : pystr) : option pystr :=
  match t with
  | [] => None
  | (k, v) :: t' => if name_eqb k s then Some v else table_get t' s
  end.

Definition html5_get (s : pystr) : option pystr := table_get html5 s.

Definition invalid_charrefs : list (N * pystr) := [
  (0x00, [0xfffd]); (0x0d, [0x0d]); (0x80, [0x20ac]); (0x81, [0x81]);
  (0x82, [0x201a]); (0x83, [0x0192]); (0x84, [0x201e]); (0x85, [0x2026]);
  (0x86, [0x2020]); (0x87, [0x2021]); (0x88, [0x02c6]); (0x89, [0x2030]);
  (0x8a, [0x0160]); (0x8b, [0x2039]); (0x8c, [0x0152]); (0x8d, [0x8d]);
  (0x8e, [0x017d]); (0x8f, [0x8f]); (0x90, [0x90]); (0x91, [0x2018]);
  (0x92, [0x2019]); (0x93, [0x201c]); (0x94, [0x201d]); (0x95, [0x2022]);
  (0x96, [0x2013]); (0x97, [0x2014]); (0x98, [0x02dc]); (0x99, [0x2122]);
  (0x9a, [0x0161]); (0x9b, [0x203a]); (0x9c, [0x0153]); (0x9d, [0x9d]);
  (0x9e, [0x017e]); (0x9f, [0x0178])
]%N.

Definition between (lo hi c : N) : bool := N.leb lo c && N.leb c hi.

(** Membership in [_invalid_codepoints]: the ranges the source lists, then
    [0xb] and the last two code points of each of the seventeen planes. *)
Definition invalid_codepoint (n : N) : bool :=
  between 0x1 0x8 n || between 0xe 0x1f n || between 0x7f 0x9f n ||
  between 0xfdd0 0xfdef n || N.eqb n 0xb ||
  (N.leb n 0x10ffff && N.leb 0xfffe (N.land n 0xffff)).

Fixpoint assoc_N (t : list (N * pystr)) (n : N) : option pystr :=
  match t with
  | [] => None
  | (k, v) :: t' => if N.eqb k n then Some v else assoc_N t' n
  end.

Definition is_digit (c : N) : bool := between 48 57 c.
Definition is_hexdigit (c : N) : bool :=
  is_digit c || between 97 102 c || between 65 70 c.

(** The class [[^\t\n\f <&#;]]. *)
Definition is_name_char (c : N) : bool :=
  negb (existsb (N.eqb c) [9; 10; 12; 32; 60; 38; 35; 59]%N).

Definition AMP : N := 38.
Definition HASH : N := 35.
Definition SEMI : N := 59.

(** The longest prefix of [s] of at most [n] characters, all in [p]. *)
Fixpoint take_upto (n : nat) (p : N -> bool) (s : pystr) : pystr :=
  match n, s with
  | S n', c :: s' => if p c then c :: take_upto n' p s' else []
  | _, _ => []
  end.

Definition take_while (p : N -> bool) (s : pystr) : pystr :=
  take_upto (List.length s) p s.

(** The [;?] that ends each alternative, tried on what follows it. *)
Definition opt_semi (rest : pystr) : pystr :=
  match rest with
  | c :: _ => if N.eqb c SEMI then [SEMI] else []
  | [] => []
  end.

(** Group 1 of [_charref] matched right after an [&]; [None] when the
    pattern does not match there.  The alternatives are tried in the
    order of the pattern; every repetition is greedy and nothing follows
    that could make it give characters back. *)
Definition match_charref (s : pystr) : option pystr :=
  match s with
  | [] => None
  | c :: t =>
      if N.eqb c HASH then
        match take_while is_digit t with
        | (_ :: _) as ds => Some (HASH :: ds ++ opt_semi (skipn (List.length ds) t))
        | [] =>
            match t with
            | x :: t' =>
                if N.eqb x 120 || N.eqb x 88 then
                  match take_while is_hexdigit t' with
                  | (_ :: _) as hs =>
                      Some (HASH :: x :: hs ++ opt_semi (skipn (List.length hs) t'))
                  | [] => None
                  end
                else None
            | [] => None
            end
        end
      else
        match take_upto 32 is_name_char s with
        | (_ :: _) as nm => Some (nm ++ opt_semi (skipn (List.length nm) s))
        | [] => None
        end
  end.

(** [s.rstrip(';')] *)
Fixpoint rstrip_semi (s : pystr) : pystr :=
  match s with
  | [] => []
  | c :: s' =>
      match rstrip_semi s' with
      | [] => if N.eqb c SEMI then [] else [c]
      | r => c :: r
      end
  end.

Definition digit_value (c : N) : N :=
  if is_digit c then c - 48
  else if between 97 102 c then c - 87
  else c - 55.

(** [int(s, base)] on a string of digits of that base, the limit below
    left aside. *)
Definition parse_int (base : N) (s : pystr) : N :=
  fold_left (fun acc c => acc * base + digit_value c)%N s 0%N.

(** [sys.get_int_max_str_digits()]: the interpreter's default, from
    Python 3.11 on. *)
Definition int_max_str_digits : nat := 4300.

Definition int_limit_msg (digits : nat) : pystr :=
  py "Exceeds the limit (4300 digits) for integer string conversion: value has "
  ++ str_of_int (Z.of_nat digits)
  ++ py " digits; use sys.set_int_max_str_digits() to increase the limit".

(** [int(s)] on a string of decimal digits: a string of more digits than
    the limit raises [ValueError], leading zeros counted.  [int(s, 16)]
    has no such limit. *)
Definition int_decimal (s : pystr) : exn + N :=
  if Nat.ltb int_max_str_digits (List.length s)
  then inl (ValueError (int_limit_msg (List.length s)))
  else inr (parse_int 10 s).

(** The longest proper prefix of [s] of length [x] down to 2 that is in
    [_html5], replaced, with the rest of [s] after it. *)
Fixpoint longest_name (x : nat) (s : pystr) : option pystr :=
  match x with
  | O => None
  | S x' =>
      if (2 <=? x)%nat then
        match html5_get (firstn x s) with
        | Some v => Some (v ++ skipn x s)
        | None => longest_name x' s
        end
      else None
  end.

(** The text for the number of a numeric reference. *)
Definition numeric_charref (num : N) : pystr :=
  match assoc_N invalid_charrefs num with
  | Some r => r
  | None =>
      if between 0xD800 0xDFFF num || N.ltb 0x10FFFF num then [0xFFFD%N]
      else if invalid_codepoint num then []
      else [num]
  end.

(** The text for a named reference. *)
Definition named_charref (s : pystr) : pystr :=
  match html5_get s with
  | Some v => v
  | None =>
      match longest_name (List.length s - 1) s with
      | Some r => r
      | None => AMP :: s
      end
  end.

(** [_replace_charref] on group 1 of a match; it raises when [int]
    does. *)
Definition replace_charref (s : pystr) : exn + pystr :=
  match s with
  | c0 :: c1 :: _ =>
      if N.eqb c0 HASH then
        and_then
          (if N.eqb c1 120 || N.eqb c1 88
           then inr (parse_int 16 (rstrip_semi (skipn 2 s)))
           else int_decimal (rstrip_semi (skipn 1 s)))
          (fun num => inr (numeric_charref num))
      else inr (named_charref s)
  | _ => inr (named_charref s)
  end.

(** [_charref.sub(_replace_charref, s)]: a left-to-right scan, replacing
    each match as it is found, so that the first replacement that raises
    ends the scan; [skip] counts the characters of the current match
    still to be passed over. *)
Fixpoint sub_charref (skip : nat) (s : pystr) : exn + pystr :=
  match s with
  | [] => inr []
  | c :: rest =>
      match skip with
      | S k => sub_charref k rest
      | O =>
          if N.eqb c AMP then
            match match_charref rest with
            | Some g =>
                and_then (replace_charref g)
                  (fun r => and_then (sub_charref (List.length g) rest)
                              (fun out => inr (r ++ out)))
            | None => and_then (sub_charref 0 rest) (fun out => inr (c :: out))
            end
          else and_then (sub_charref 0 rest) (fun out => inr (c :: out))
      end
  end.

Definition unescape (s : pystr) : exn + pystr :=
  if existsb (N.eqb AMP) s then sub_charref 0 s else inr s.

(** No run of consecutive digits of [s] is longer than [limit]; [run]
    digits precede [s]. *)
Fixpoint digit_runs_within (limit run : nat) (s : pystr) : bool :=
  match s with
  | [] => true
  | c :: s' =>
      if is_digit c
      then Nat.leb (S run) limit && digit_runs_within limit (S run) s'
      else digit_runs_within limit 0 s'
  end.

Definition no_long_digit_run (s : pystr) : bool :=
  digit_runs_within int_max_str_digits 0 s.

(** ** Python values

    What [json.loads] yields and what the handlers build and return.  A
    dict is an association list, the first binding of a key being the one
    that counts. *)

Inductive pyval : Type :=
| PyNone
| PyBool (b : bool)
| PyInt (n : Z)
| PyFloat (f : spec_float)
| PyStr (s : pystr)
| PyList (l : list pyval)
| PyDict (kvs : list (pystr * pyval)).

(** [bool(v)] *)
Definition truthy (v : pyval) : bool :=
  match v with
  | PyNone => false
  | PyBool b => b
  | PyInt n => negb (Z.eqb n 0)
  | PyFloat (S754_zero _) => false
  | PyFloat _ => true
  | PyStr s => negb (pystr_eqb s [])
  | PyList l => match l with [] => false | _ => true end
  | PyDict kvs => match kvs with [] => false | _ => true end
  end.

Fixpoint assoc {V : Type} (l : list (pystr * V)) (k : pystr) : option V :=
  match l with
  | [] => None
  | (k', v) :: l' => if pystr_eqb k' k then Some v else assoc l' k
  end.

(** [v[k]] with a string [k]: only a dict can be indexed by a string. *)
Definition getitem (v : pyval) (k : pystr) : exn + pyval :=
  match v with
  | PyDict kvs =>
      match assoc kvs k with
      | Some x => inr x
      | None => inl (KeyError k)
      end
  | _ => inl TypeError
  end.

(** [v.get(k, default)]: only a dict has the method. *)
Definition get_method (v : pyval) (k : pystr) (default : pyval) : exn + pyval :=
  match v with
  | PyDict kvs =>
      match assoc kvs k with
      | Some x => inr x
      | None => inr default
      end
  | _ => inl AttributeError
  end.

(** [a or b] *)
Definition py_or (a b : pyval) : pyval := if truthy a then a else b.

(** ** HTTP

    A request is what the handler asks the client to send: the arguments
    of the call, the client's own headers merged in and its cookies
    attached.  A response is what the handlers read of it. *)

Inductive http_method : Type := POST | PUT.

Record request : Type := {
  rq_method : http_method;
  rq_url : pystr;
  rq_params : list (pystr * pyval);
  rq_json : pyval;
  rq_headers : list (pystr * pystr);
  rq_cookies : list (pystr * pystr)
}.

Record response : Type := {
  status_code : Z;
  (** the [content-type] header, when there is one *)
  content_type : option pystr;
  (** the cookies the response sets *)
  set_cookies : list (pystr * pystr);
  (** the body decoded by [json()]; [None] when it is not JSON *)
  json_body : option pyval
}.

(** The client either gets a response or fails to (no connection, a
    timeout): [httpx.TransportError]. *)
Inductive reply : Type :=
| Replied (r : response)
| Failed.

(** ** Handlers as request trees *)

Inductive prog (A : Type) : Type :=
| Ret (a : A)
| Raise (e : exn)
| Send (rq : request) (k : reply -> prog A).

Arguments Ret {A} a.
Arguments Raise {A} e.
Arguments Send {A} rq k.

Fixpoint bind {A B : Type} (p : prog A) (f : A -> prog B) : prog B :=
  match p with
  | Ret a => f a
  | Raise e => Raise e
  | Send rq k => Send rq (fun rp => bind (k rp) f)
  end.

Notation "x <- c ;; k" := (bind c (fun x => k))
  (at level 61, c at next level, right associativity).
Notation "' pat <- c ;; k" := (bind c (fun x => match x with pat => k end))
  (at level 61, pat pattern, c at next level, right associativity).

(** A computation without requests, which returns or raises. *)
Definition lift {A : Type} (r : exn + A) : prog A :=
  match r with
  | inl e => Raise e
  | inr a => Ret a
  end.

(** ** Running a handler against a server

    The server answers a request knowing the requests that came before. *)

Definition server : Type := list request -> request -> reply.

Inductive outcome (A : Type) : Type :=
| Returned (a : A)
| Raised (e : exn).

Arguments Returned {A} a.
Arguments Raised {A} e.

Fixpoint run {A : Type} (srv : server) (hist : list request) (p : prog A)
  : list request * outcome A :=
  match p with
  | Ret a => (hist, Returned a)
  | Raise e => (hist, Raised e)
  | Send rq k => run srv (hist ++ [rq]) (k (srv hist rq))
  end.

(** The requests a handler issued, in order, and how it ended. *)
Definition exec {A : Type} (srv : server) (p : prog A) : list request * outcome A :=
  run srv [] p.

Definition trace {A : Type} (srv : server) (p : prog A) : list request :=
  fst (exec srv p).

Definition result {A : Type} (srv : server) (p : prog A) : outcome A :=
  snd (exec srv p).

(** ** The HTTP client *)

Record Client : Type := {
  headers : list (pystr * pystr);
  cookies : list (pystr * pystr)
}.

(** [httpx.Client(headers=headers)]: an empty cookie jar. *)
Definition new_client (hs : list (pystr * pystr)) : Client :=
  {| headers := hs; cookies := [] |}.

(** [client.post(...)] and [client.put(...)]: the request goes out with the
    client's headers and cookies, and the cookies of the response are kept
    in the jar.  The jar holds one value per name (domains and paths are
    left out), the newest first. *)
Definition build_request (c : Client) (m : http_method) (url : pystr)
    (params : list (pystr * pyval)) (json : pyval)
    (hs : list (pystr * pystr)) : request :=
  {| rq_method := m; rq_url := url; rq_params := params; rq_json := json;
     rq_headers := headers c ++ hs; rq_cookies := cookies c |}.

Definition client_request (c : Client) (m : http_method) (url : pystr)
    (params : list (pystr * pyval)) (json : pyval)
    (hs : list (pystr * pystr)) : prog (response * Client) :=
  Send (build_request c m url params json hs)
       (fun rp =>
          match rp with
          | Replied r =>
              Ret (r, {| headers := headers c;
                         cookies := set_cookies r ++ cookies c |})
          | Failed => Raise TransportError
          end).

(** [client.cookies.get(name)] *)
Definition cookies_get (c : Client) (name : pystr) : option pystr :=
  assoc (cookies c) name.

Definition is_success (r : response) : bool :=
  Z.leb 200 (status_code r) && Z.leb (status_code r) 299.

(** [resp.raise_for_status()] *)
Definition raise_for_status (r : response) : prog unit :=
  if is_success r then Ret tt else Raise (HTTPStatusError (status_code r)).

(** [resp.json()] *)
Definition json (r : response) : exn + pyval :=
  match json_body r with
  | Some v => inr v
  | None => inl JSONDecodeError
  end.

(** ** The request that carries the invocation *)

Record http_request : Type := {
  (** the query string, in order *)
  query_params : list (pystr * pystr)
}.

(** [query_params.get(name)]: of several values of a name, the last. *)
Fixpoint multidict_get (l : list (pystr * pystr)) (k : pystr) : option pystr :=
  match l with
  | [] => None
  | (k', v) :: l' =>
      match multidict_get l' k with
      | Some x => Some x
      | None => if pystr_eqb k' k then Some v else None
      end
  end.

(** [not s] for an optional string: absent or empty. *)
Definition missing (s : option pystr) : bool :=
  match s with
  | None => true
  | Some [] => true
  | Some (_ :: _) => false
  end.

(** ** Constants of the source *)

Definition missing_email_msg : pystr :=
  py "Missing 'email' query parameter. https://note-com.fastmcp.app/mcp?email=foo@gmail.com&password=YOUR_PASSWORD".

Definition missing_password_msg : pystr :=
  py "Missing 'password' query parameter. https://note-com.fastmcp.app/mcp?email=foo@gmail.com&password=YOUR_PASSWORD".

Definition example_url : pystr :=
  py "https://note-com.fastmcp.app/mcp?email=foo@gmail.com&password=YOUR_PASSWORD".

(** The message of the [RuntimeError] raised when the session cookie is
    missing after the login (Japanese text, as code points). *)
Definition no_session_msg : pystr := [
  0x30ed; 0x30b0; 0x30a4; 0x30f3; 0x6210; 0x529f; 0x5f8c; 0x306b; 0x20;
  0x5f; 0x6e; 0x6f; 0x74; 0x65; 0x5f; 0x73; 0x65; 0x73; 0x73; 0x69; 0x6f;
  0x6e; 0x5f; 0x76; 0x35; 0x20; 0x304c; 0x898b; 0x3064; 0x304b; 0x308a;
  0x307e; 0x305b; 0x3093; 0x3002
]%N.

Definition default_headers : list (pystr * pystr) := [
  (py "User-Agent",
   py "Mozilla/5.0 (Windows NT 10.0; Win64; x64) AppleWebKit(KHTML, like Gecko) Chrome/96.0.4664.110 Safari/537.36");
  (py "Accept", py "*/*");
  (py "Origin", py "https://editor.note.com");
  (py "Referer", py "https://editor.note.com/")
].

Definition sign_in_url : pystr := py "https://note.com/api/v1/sessions/sign_in".
Definition text_notes_url : pystr := py "https://note.com/api/v1/text_notes".
Definition draft_save_url : pystr := py "https://note.com/api/v1/text_notes/draft_save".

Definition session_cookie_name : pystr := py "_note_session_v5".
Definition xsrf_cookie_name : pystr := py "XSRF-TOKEN".
Definition xsrf_header_name : pystr := py "X-XSRF-TOKEN".

Definition content_type_json : list (pystr * pystr) :=
  [(py "Content-Type", py "application/json")].

(** [{"X-XSRF-TOKEN": xsrf_cookie} if xsrf_cookie else {}] *)
Definition xsrf_headers_of (xsrf_cookie : option pystr) : list (pystr * pystr) :=
  match xsrf_cookie with
  | Some ((_ :: _) as x) => [(xsrf_header_name, x)]
  | _ => []
  end.

(** [hashtags or []] *)
Definition hashtags_or_empty (hashtags : option (list pystr)) : list pystr :=
  match hashtags with
  | Some ((_ :: _) as l) => l
  | _ => []
  end.

(** The declared return types of the two handlers. *)
Inductive annotation : Type := AnnNone | AnnStr.

Definition post_note_article_returns : annotation := AnnNone.
Definition save_note_draft_returns : annotation := AnnStr.

(** [isinstance] of a value in the annotated type. *)
Definition conforms (v : pyval) (a : annotation) : bool :=
  match a, v with
  | AnnNone, PyNone => true
  | AnnStr, PyStr _ => true
  | _, _ => false
  end.

Section Handlers.

(** An f-string inserts [str(v)].  A string is inserted as it is, [None],
    booleans and integers by their literals.  The text of a float, a list
    or a dict is the interpreter's [repr]; it is not modelled and
    [py_repr] stands for it. *)
Variable py_repr : pyval -> pystr.

Definition py_str (v : pyval) : pystr :=
  match v with
  | PyStr s => s
  | PyNone => py "None"
  | PyBool true => py "True"
  | PyBool false => py "False"
  | PyInt n => str_of_int n
  | _ => py_repr v
  end.

(** The mutation payload of the publish handler. *)
Definition put_body (title body : pystr) (hashtags : option (list pystr))
    (note_key : pyval) : pyval :=
  PyDict [
    (py "author_ids", PyList []);
    (py "body_length", PyInt (Z.of_nat (List.length body)));
    (py "disable_comment", PyBool false);
    (py "exclude_from_creator_top", PyBool false);
    (py "exclude_ai_learning_reward", PyBool false);
    (py "free_body", PyStr body);
    (py "hashtags", PyList (map PyStr (hashtags_or_empty hashtags)));
    (py "image_keys", PyList []);
    (py "index", PyBool false);
    (py "is_refund", PyBool false);
    (py "limited", PyBool false);
    (py "magazine_ids", PyList []);
    (py "magazine_keys", PyList []);
    (py "name", PyStr title);
    (py "pay_body", PyStr (py ""));
    (py "price", PyInt 0);
    (py "send_notifications_flag", PyBool true);
    (py "separator", PyNone);
    (py "slug", PyStr (py "slug-" ++ py_str note_key));
    (py "status", PyStr (py "published"));
    (py "circle_permissions", PyList []);
    (py "discount_campaigns", PyList []);
    (py "lead_form",
     PyDict [(py "is_active", PyBool false); (py "consent_url", PyStr (py ""))]);
    (py "line_add_friend",
     PyDict [(py "is_active", PyBool false); (py "keyword", PyStr (py ""));
             (py "add_friend_url", PyStr (py ""))]);
    (py "line_add_friend_access_token", PyStr (py ""))
  ].

(** [post_note_article].  [req] is what [get_http_request()] gave: the
    request object, or [None]. *)
Definition post_note_article (req : option http_request) (title body : pystr)
    (hashtags : option (list pystr)) : prog pyval :=
  email <- lift match req with
                | Some r => inr (multidict_get (query_params r) (py "email"))
                | None => inl AttributeError
                end ;;
  match email with
  | None | Some [] => Raise (ValueError missing_email_msg)
  | Some email =>
  password <- lift match req with
                   | Some r => inr (multidict_get (query_params r) (py "password"))
                   | None => inl AttributeError
                   end ;;
  match password with
  | None | Some [] => Raise (ValueError missing_password_msg)
  | Some password =>
  let client := new_client default_headers in
  '(resp, client) <- client_request client POST sign_in_url []
      (PyDict [(py "login", PyStr email); (py "password", PyStr password)]) [] ;;
  _ <- raise_for_status resp ;;
  let session_cookie := cookies_get client session_cookie_name in
  let xsrf_cookie := cookies_get client xsrf_cookie_name in
  if missing session_cookie then Raise (RuntimeError no_session_msg) else
  let xsrf_headers := xsrf_headers_of xsrf_cookie in
  '(resp, client) <- client_request client POST text_notes_url []
      (PyDict [(py "template_key", PyNone)]) (xsrf_headers ++ content_type_json) ;;
  _ <- raise_for_status resp ;;
  note_id <- lift (and_then (and_then (json resp) (fun j => getitem j (py "data")))
                            (fun d => getitem d (py "id"))) ;;
  note_key <- lift (and_then (and_then (json resp) (fun j => getitem j (py "data")))
                             (fun d => getitem d (py "key"))) ;;
  '(put_resp, client) <- client_request client PUT
      (text_notes_url ++ py "/" ++ py_str note_id) []
      (put_body title body hashtags note_key) (xsrf_headers ++ content_type_json) ;;
  lift (and_then (and_then (json put_resp) (fun j => getitem j (py "data")))
                 (fun d => getitem d (py "note_url")))
  end
  end.

(** [unescape(re.sub(r"<[^>]*>", "", body or ""))] *)
Definition text_only (body : pystr) : exn + pystr :=
  unescape (strip_tags (match body with [] => py "" | _ :: _ => body end)).

Definition draft_payload (title body : pystr) (body_length : nat) : pyval :=
  PyDict [
    (py "body", PyStr body);
    (py "body_length", PyInt (Z.of_nat body_length));
    (py "index", PyBool false);
    (py "is_lead_form", PyBool false);
    (py "name", PyStr title)
  ].

(** The [try] block that reads the draft-save response: whatever is raised
    inside leaves [data] as the empty dict. *)
Definition draft_data (save_resp : response) : pyval :=
  let content_type :=
    match content_type save_resp with
    | Some ct => ct
    | None => py ""
    end in
  if startswith content_type (py "application/json") then
    match and_then (json save_resp)
                   (fun j => get_method j (py "data") (PyDict [])) with
    | inr data => data
    | inl _ => PyDict []
    end
  else PyDict [].

(** The URL built from the key of the created note. *)
Definition fallback_url (key : pystr) : pystr :=
  py "https://note.com/notes/" ++ key ++ py "?draft=1".

(** [save_note_draft].  The handler never reads [hashtags]. *)
Definition save_note_draft (req : option http_request) (title body : pystr)
    (hashtags : option (list pystr)) : prog pyval :=
  let email := match req with
               | Some r => multidict_get (query_params r) (py "email")
               | None => None
               end in
  match email with
  | None | Some [] => Raise (ValueError missing_email_msg)
  | Some email =>
  let password := match req with
                  | Some r => multidict_get (query_params r) (py "password")
                  | None => None
                  end in
  match password with
  | None | Some [] => Raise (ValueError missing_password_msg)
  | Some password =>
  let client := new_client default_headers in
  '(resp, client) <- client_request client POST sign_in_url []
      (PyDict [(py "login", PyStr email); (py "password", PyStr password)]) [] ;;
  _ <- raise_for_status resp ;;
  let session_cookie := cookies_get client session_cookie_name in
  let xsrf_cookie := cookies_get client xsrf_cookie_name in
  if missing session_cookie then Raise (RuntimeError no_session_msg) else
  let xsrf_headers := xsrf_headers_of xsrf_cookie in
  '(create_resp, client) <- client_request client POST text_notes_url []
      (PyDict [(py "template_key", PyNone)]) (xsrf_headers ++ content_type_json) ;;
  _ <- raise_for_status create_resp ;;
  note <- lift (and_then (json create_resp) (fun j => getitem j (py "data"))) ;;
  note_id <- lift (getitem note (py "id")) ;;
  note_key <- lift (getitem note (py "key")) ;;
  text <- lift (text_only body) ;;
  let body_length := List.length text in
  '(save_resp, client) <- client_request client POST draft_save_url
      [(py "id", note_id); (py "is_temp_saved", PyStr (py "true"))]
      (draft_payload title body body_length)
      (xsrf_headers ++ content_type_json) ;;
  _ <- raise_for_status save_resp ;;
  let data := draft_data save_resp in
  note_url <- lift (get_method data (py "note_url") PyNone) ;;
  Ret (py_or note_url (PyStr (fallback_url (py_str note_key))))
  end
  end.

End Handlers.

(** * Vocabulary of the properties *)

(** The invocation carries both credentials, neither of them empty. *)
Definition supplies (req : http_request) (email password : pystr) : Prop :=
  multidict_get (query_params req) (py "email") = Some email /\
  missing (Some email) = false /\
  multidict_get (query_params req) (py "password") = Some password /\
  missing (Some password) = false.

(** The text of the two [ValueError] messages, by the parameter named. *)
Definition missing_param_msg (name : pystr) : pystr :=
  py "Missing '" ++ name ++ py "' query parameter. " ++ example_url.

(** The login request of both handlers. *)
Definition login_request (email password : pystr) : request :=
  build_request (new_client default_headers) POST sign_in_url []
    (PyDict [(py "login", PyStr email); (py "password", PyStr password)]) [].

(** The client once the login response [r] is in. *)
Definition session_client (r : response) : Client :=
  {| headers := default_headers; cookies := set_cookies r ++ [] |}.

(** The request that creates the note, after the login response [r]. *)
Definition create_request (r : response) : request :=
  build_request (session_client r) POST text_notes_url []
    (PyDict [(py "template_key", PyNone)])
    (xsrf_headers_of (cookies_get (session_client r) xsrf_cookie_name)
     ++ content_type_json).

(** A request that got no response, or one whose status is not 2xx. *)
Definition hard_failure (rp : reply) : bool :=
  match rp with
  | Failed => true
  | Replied r => negb (is_success r)
  end.

(** What the client raises for it. *)
Definition failure_of (rp : reply) : exn :=
  match rp with
  | Failed => TransportError
  | Replied r => HTTPStatusError (status_code r)
  end.

(** The exceptions of a failed look-up into a decoded body. *)
Definition is_lookup_error (e : exn) : bool :=
  match e with
  | JSONDecodeError | KeyError _ | TypeError | AttributeError => true
  | _ => false
  end.

Definition sends_nothing {A : Type} (p : prog A) : Prop :=
  match p with
  | Send _ _ => False
  | _ => True
  end.

(** The first [n] requests of [p] are checked: a hard failure of one of
    them is raised at once; past them, a hard failure is still followed
    by no request. *)
Fixpoint checked {A : Type} (n : nat) (p : prog A) : Prop :=
  match p with
  | Send rq k =>
      (forall rp, hard_failure rp = true ->
                  match n with
                  | O => sends_nothing (k rp)
                  | S _ => k rp = Raise (failure_of rp)
                  end) /\
      (forall rp, checked (pred n) (k rp))
  | _ => True
  end.

(** Every request [p] can issue satisfies [P]. *)
Fixpoint all_sends {A : Type} (P : request -> Prop) (p : prog A) : Prop :=
  match p with
  | Send rq k => P rq /\ forall rp, all_sends P (k rp)
  | _ => True
  end.

(** The client once the response [r2] to the creation is in as well. *)
Definition note_client (r1 r2 : response) : Client :=
  {| headers := default_headers;
     cookies := set_cookies r2 ++ cookies (session_client r1) |}.

(** The draft-save request, after the login response [r1] and the response
    [r2] that created the note [note_id], for a visible text of
    [body_length] characters. *)
Definition draft_request (r1 r2 : response) (note_id : pyval)
    (title body : pystr) (body_length : nat) : request :=
  build_request (note_client r1 r2) POST draft_save_url
    [(py "id", note_id); (py "is_temp_saved", PyStr (py "true"))]
    (draft_payload title body body_length)
    (xsrf_headers_of (cookies_get (session_client r1) xsrf_cookie_name)
     ++ content_type_json).

(** The mutation request of publish, after the login response [r1] and the
    response [r2] that created the note [note_id] with key [note_key]. *)
Definition publish_request (py_repr : pyval -> pystr) (r1 r2 : response)
    (note_id note_key : pyval) (title body : pystr)
    (hashtags : option (list pystr)) : request :=
  build_request (note_client r1 r2) PUT
    (text_notes_url ++ py "/" ++ py_str py_repr note_id) []
    (put_body py_repr title body hashtags note_key)
    (xsrf_headers_of (cookies_get (session_client r1) xsrf_cookie_name)
     ++ content_type_json).

(** The look-ups both handlers make in the response that created the
    note. *)
Definition note_field (r : response) (field : pystr) : exn + pyval :=
  and_then (and_then (json r) (fun j => getitem j (py "data")))
           (fun d => getitem d field).

(** The handler got through the login and the creation of the note: [r1]
    answered the login, with a 2xx status and a session cookie, and [r2]
    the creation, with a 2xx status and a body that has [data.id] and
    [data.key]. *)
Definition note_created (srv : server) (req : http_request)
    (email password : pystr) (r1 r2 : response)
    (note_id note_key : pyval) : Prop :=
  supplies req email password /\
  srv [] (login_request email password) = Replied r1 /\
  is_success r1 = true /\
  missing (assoc (set_cookies r1) session_cookie_name) = false /\
  srv [login_request email password] (create_request r1) = Replied r2 /\
  is_success r2 = true /\
  note_field r2 (py "id") = inr note_id /\
  note_field r2 (py "key") = inr note_key.

(** What ends a handler at the creation of the note, if anything: no
    response, a status that is not 2xx, or a body without [data.id] or
    [data.key] (the id is looked up first). *)
Definition creation_error (rp : reply) : option exn :=
  match rp with
  | Failed => Some TransportError
  | Replied r =>
      if is_success r then
        match note_field r (py "id"), note_field r (py "key") with
        | inl e, _ => Some e
        | inr _, inl e => Some e
        | inr _, inr _ => None
        end
      else Some (HTTPStatusError (status_code r))
  end.

(** How publish ends on the reply to its mutation request. *)
Definition publish_outcome (rp : reply) : outcome pyval :=
  match rp with
  | Failed => Raised TransportError
  | Replied r =>
      match note_field r (py "note_url") with
      | inr v => Returned v
      | inl e => Raised e
      end
  end.

(** How save-draft ends on the reply to its draft-save request, for a
    note of key [note_key]. *)
Definition draft_outcome (py_repr : pyval -> pystr) (note_key : pyval)
    (rp : reply) : outcome pyval :=
  match rp with
  | Failed => Raised TransportError
  | Replied r =>
      if is_success r then
        match get_method (draft_data r) (py "note_url") PyNone with
        | inr u => Returned (py_or u (PyStr (fallback_url (py_str py_repr note_key))))
        | inl e => Raised e
        end
      else Raised (HTTPStatusError (status_code r))
  end.

(** A body whose decimal character reference has one digit too many. *)
Definition long_reference_body : pystr :=
  py "&#" ++ repeat 57%N 4301 ++ py ";".

(** ** Servers and inputs to run the handlers on *)

(** A server that answers the [n]-th request with the [n]-th reply of a
    script, and not at all once the script is over. *)
Definition scripted (replies : list reply) : server :=
  fun hist _ => nth (List.length hist) replies Failed.

Definition demo_request : http_request :=
  {| query_params := [(py "email", py "foo@gmail.com"); (py "password", py "hunter2")] |}.

Definition no_repr : pyval -> pystr := fun _ => [].

Definition json_response (status : Z) (cookies : list (pystr * pystr))
    (body : pyval) : response :=
  {| status_code := status; content_type := Some (py "application/json; charset=utf-8");
     set_cookies := cookies; json_body := Some body |}.

Definition html_response (status : Z) : response :=
  {| status_code := status; content_type := Some (py "text/html");
     set_cookies := []; json_body := None |}.

Definition login_ok : response :=
  json_response 201 [(session_cookie_name, py "s3ss10n"); (xsrf_cookie_name, py "t0k3n")]
    (PyDict [(py "data", PyDict [(py "id", PyInt 7)])]).

Definition login_no_xsrf : response :=
  json_response 201 [(session_cookie_name, py "s3ss10n")]
    (PyDict [(py "data", PyDict [(py "id", PyInt 7)])]).

Definition login_no_session : response :=
  json_response 201 [(xsrf_cookie_name, py "t0k3n")] (PyDict []).

Definition create_ok : response :=
  json_response 201 []
    (PyDict [(py "data", PyDict [(py "id", PyInt 12345);
                                 (py "key", PyStr (py "abcd1234"))])]).

Definition demo_url : pystr := py "https://note.com/foo/n/abcd1234".

Definition mutation_body : pyval :=
  PyDict [(py "data", PyDict [(py "note_url", PyStr demo_url)])].

Definition demo_body : pystr := py "<p>Hello&nbsp;World</p>".
Definition demo_title : pystr := py "Hello".

(** Scripts for the whole sequence; the last reply is the one to the
    mutation request. *)
Definition full_script (last : response) : server :=
  scripted [Replied login_ok; Replied create_ok; Replied last].

Definition null_data_body : pyval := PyDict [(py "data", PyNone)].

(** A login response that sets the session cookie and the token [token];
    a response to the creation that sets another token. *)
Definition login_with_token (token : pystr) : response :=
  json_response 201 [(session_cookie_name, py "s3ss10n"); (xsrf_cookie_name, token)]
    (PyDict []).

Definition create_rotating_token : response :=
  json_response 201 [(xsrf_cookie_name, py "fr3sh")]
    (PyDict [(py "data", PyDict [(py "id", PyInt 12345);
                                 (py "key", PyStr (py "abcd1234"))])]).

Definition empty_credentials_request : http_request :=
  {| query_params := [(py "email", py "foo@gmail.com"); (py "password", py "")] |}.


Definition create_without_key : response :=
  json_response 201 [] (PyDict [(py "data", PyDict [(py "id", PyInt 12345)])]).

(** A draft-save response whose body has a [note_url] but whose content
    type is not JSON. *)
Definition untyped_response : response :=
  {| status_code := 200; content_type := Some (py "text/plain");
     set_cookies := []; json_body := Some mutation_body |}.

Definition empty_url_body : pyval :=
  PyDict [(py "data", PyDict [(py "note_url", PyStr (py ""))])].

(** * Properties *)

Arguments py : simpl never.
Arguments and_then : simpl never.
Arguments getitem : simpl never.
Arguments get_method : simpl never.
Arguments json : simpl never.
Arguments put_body : simpl never.
Arguments draft_payload : simpl never.
Arguments draft_data : simpl never.
Arguments xsrf_headers_of : simpl never.
Arguments missing : simpl never.
Arguments is_success : simpl never.
Arguments py_or : simpl never.
Arguments build_request : simpl never.
Arguments text_only : simpl never.
Arguments unescape : simpl never.
Arguments int_decimal : simpl never.
Arguments note_field : simpl never.

(** ** Running request trees *)

Lemma run_extends {A : Type} (srv : server) (p : prog A) :
  forall hist, exists t, fst (run srv hist p) = hist ++ t.
Proof.
  induction p as [a|e|rq k IH]; intros hist; cbn.
  - exists []. now rewrite app_nil_r.
  - exists []. now rewrite app_nil_r.
  - destruct (IH (srv hist rq) (hist ++ [rq])) as [t Ht].
    exists (rq :: t). rewrite Ht, <- app_assoc. reflexivity.
Qed.

Lemma run_sends_nothing {A : Type} (srv : server) (p : prog A) hist :
  sends_nothing p -> fst (run srv hist p) = hist.
Proof. destruct p; cbn; intros H; [reflexivity | reflexivity | contradiction]. Qed.

Lemma nth_error_at_end {X : Type} (l t : list X) (x : X) :
  nth_error (l ++ x :: t) (List.length l) = Some x.
Proof. induction l; cbn; auto. Qed.

(** A checked tree, run: a request that fails hard is the last one, and
    among the first [n] its failure is the outcome. *)
Lemma checked_run {A : Type} (srv : server) (p : prog A) :
  forall n hist i rq,
    checked n p ->
    nth_error (fst (run srv hist p)) (List.length hist + i) = Some rq ->
    hard_failure (srv (firstn (List.length hist + i) (fst (run srv hist p))) rq) = true ->
    List.length (fst (run srv hist p)) = S (List.length hist + i) /\
    (i < n -> snd (run srv hist p)
              = Raised (failure_of (srv (firstn (List.length hist + i)
                                                (fst (run srv hist p))) rq))).
Proof.
  induction p as [a|e|rq0 k IH]; intros n hist i rq Hc Hn Hf.
  - cbn in Hn. rewrite (proj2 (nth_error_None hist _)) in Hn by lia. discriminate.
  - cbn in Hn. rewrite (proj2 (nth_error_None hist _)) in Hn by lia. discriminate.
  - cbn [run] in *. destruct Hc as [Hhard Hrest].
    destruct (run_extends srv (k (srv hist rq0)) (hist ++ [rq0])) as [t Ht].
    destruct i as [|i].
    + rewrite Nat.add_0_r in *.
      rewrite Ht, <- app_assoc in Hn, Hf. cbn in Hn, Hf.
      rewrite nth_error_at_end in Hn. injection Hn as <-.
      rewrite firstn_app, Nat.sub_diag, firstn_all in Hf. cbn in Hf.
      rewrite app_nil_r in Hf.
      rewrite Ht at 2. rewrite <- app_assoc. cbn [app].
      rewrite firstn_app, Nat.sub_diag, firstn_all. cbn [firstn]. rewrite app_nil_r.
      specialize (Hhard _ Hf).
      destruct n as [|n].
      * split; [|lia]. rewrite run_sends_nothing by exact Hhard.
        rewrite length_app. cbn. lia.
      * rewrite Hhard. cbn. split; [|reflexivity].
        rewrite length_app. cbn. lia.
    + assert (E : List.length hist + S i = List.length (hist ++ [rq0]) + i)
        by (rewrite length_app; cbn; lia).
      rewrite E in *.
      destruct (IH (srv hist rq0) (pred n) (hist ++ [rq0]) i rq (Hrest _) Hn Hf)
        as [Hlen Hout].
      split; [exact Hlen|]. intros Hi. apply Hout. lia.
Qed.

Lemma all_sends_run {A : Type} (P : request -> Prop) (srv : server) (p : prog A) :
  forall hist, all_sends P p -> Forall P hist -> Forall P (fst (run srv hist p)).
Proof.
  induction p as [a|e|rq k IH]; intros hist Hp Hh; cbn; try exact Hh.
  destruct Hp as [Hrq Hk]. apply IH; [apply Hk|].
  apply Forall_app. split; [exact Hh|]. constructor; [exact Hrq|constructor].
Qed.

(** ** The two handlers, path by path *)

(** One step of case analysis along a handler, in the order in which the
    handler decides. *)
Ltac handler_step :=
  match goal with
  | |- context [multidict_get ?l ?k] =>
      destruct (multidict_get l k) as [[|? ?]|] eqn:?
  | |- context [is_success ?r] => destruct (is_success r) eqn:?
  | |- context [missing ?c] => destruct (missing c) eqn:?
  | |- context [lift ?c] => destruct c as [?|?] eqn:?
  end; cbn.

Lemma hard_failure_replied r : hard_failure (Replied r) = true -> is_success r = false.
Proof. cbn. now destruct (is_success r). Qed.

Ltac checked_tree :=
  unfold raise_for_status; cbn;
  repeat first
    [ handler_step
    | match goal with
      | |- True => exact I
      | |- _ /\ _ => split
      | |- forall rp : reply, hard_failure rp = true -> _ =>
          let rp := fresh "rp" in
          let H := fresh "H" in
          intros [rp|] H; cbn;
          [apply hard_failure_replied in H; try rewrite H; cbn |]
      | |- forall rp : reply, _ => intros [?|]; cbn
      | |- _ = _ => reflexivity
      end ].

Lemma post_note_article_checked py_repr req title body tags :
  checked 2 (post_note_article py_repr req title body tags).
Proof.
  unfold post_note_article. destruct req as [req|]; [|exact I].
  checked_tree.
Qed.

Lemma save_note_draft_checked py_repr req title body tags :
  checked 3 (save_note_draft py_repr req title body tags).
Proof.
  unfold save_note_draft. destruct req as [req|]; [|exact I].
  checked_tree.
Qed.

Lemma checked_weaken {A : Type} (p : prog A) :
  forall n, checked (S n) p -> checked n p.
Proof.
  induction p as [a|e|rq k IH]; intros n; cbn; auto.
  intros [H1 H2]. split.
  - intros rp Hrp. specialize (H1 rp Hrp).
    destruct n; [rewrite H1; exact I | exact H1].
  - intros rp. destruct n; [apply H2 | apply IH, H2].
Qed.

(** Symbolic execution of a handler against a server: the handler's own
    decisions, then the server's reply to the request at hand. *)
Ltac run_step srv :=
  first
    [ handler_step
    | match goal with
      | |- context [srv ?h ?rq] => destruct (srv h rq) as [?|] eqn:?
      end; cbn ].

(** Use what is known of the reply to a request. *)
Ltac reply_is H :=
  match type of H with
  | ?srv ?h ?rq = _ =>
      match goal with
      | |- context [srv ?h' ?rq'] =>
          change (srv h' rq') with (srv h rq); rewrite H; cbn
      end
  end.

Lemma supplies_inv req email password :
  supplies req email password ->
  exists e0 e p0 p,
    email = e0 :: e /\ password = p0 :: p /\
    multidict_get (query_params req) (py "email") = Some (e0 :: e) /\
    multidict_get (query_params req) (py "password") = Some (p0 :: p).
Proof.
  intros (He & Hme & Hp & Hmp).
  destruct email as [|e0 e]; [discriminate|].
  destruct password as [|p0 p]; [discriminate|].
  now exists e0, e, p0, p.
Qed.

Ltac with_credentials H :=
  let e0 := fresh "e0" in
  let e := fresh "e" in
  let p0 := fresh "p0" in
  let p := fresh "p" in
  let He := fresh "He" in
  let Hp := fresh "Hp" in
  destruct (supplies_inv H) as (e0 & e & p0 & p & -> & -> & He & Hp);
  unfold exec, trace, result, post_note_article, save_note_draft, raise_for_status;
  cbn; rewrite ?He; cbn; rewrite ?Hp; cbn.

(** ** Look-ups in decoded bodies *)

Lemma json_raises r e : json r = inl e -> is_lookup_error e = true.
Proof. unfold json. destruct (json_body r); intros H; inversion H. reflexivity. Qed.

Lemma getitem_raises v k e : getitem v k = inl e -> is_lookup_error e = true.
Proof.
  unfold getitem. destruct v; try (intros H; inversion H; reflexivity).
  destruct (assoc kvs k); intros H; inversion H. reflexivity.
Qed.

Lemma get_method_raises v k d e :
  get_method v k d = inl e -> is_lookup_error e = true.
Proof.
  unfold get_method. destruct v; try (intros H; inversion H; reflexivity).
  destruct (assoc kvs k); intros H; inversion H.
Qed.

Lemma and_then_inl {A B : Type} (x : exn + A) (f : A -> exn + B) e :
  and_then x f = inl e -> x = inl e \/ exists a, f a = inl e.
Proof.
  unfold and_then. destruct x as [e'|a]; intros H.
  - left. now inversion H.
  - right. exists a. exact H.
Qed.

Lemma and_then_inr {A B : Type} (x : exn + A) (f : A -> exn + B) b :
  and_then x f = inr b -> exists a, x = inr a /\ f a = inr b.
Proof.
  unfold and_then. destruct x as [e|a]; intros H; [discriminate H|].
  exists a. split; [reflexivity|exact H].
Qed.

Ltac lookup_error H :=
  repeat (apply and_then_inl in H; destruct H as [H | [? H]]);
  cbv beta in H;
  first [ apply json_raises in H
        | apply getitem_raises in H
        | apply get_method_raises in H ];
  discriminate H.

Ltac lookup_kind H :=
  repeat (apply and_then_inl in H; destruct H as [H | [? H]]);
  cbv beta in H;
  first [ eapply json_raises; exact H
        | eapply getitem_raises; exact H
        | eapply get_method_raises; exact H ].

(** The look-ups of save-draft in a response that created a note. *)
Lemma note_fields_inv r note_id note_key :
  note_field r (py "id") = inr note_id ->
  note_field r (py "key") = inr note_key ->
  exists note,
    and_then (json r) (fun j => getitem j (py "data")) = inr note /\
    getitem note (py "id") = inr note_id /\
    getitem note (py "key") = inr note_key.
Proof.
  unfold note_field. intros Hid Hkey.
  apply and_then_inr in Hid. destruct Hid as (note & Hn & Hid).
  apply and_then_inr in Hkey. destruct Hkey as (note' & Hn' & Hkey).
  rewrite Hn in Hn'. injection Hn' as <-.
  exists note. repeat split; assumption.
Qed.

Lemma supplies_intro req e0 e p0 p :
  multidict_get (query_params req) (py "email") = Some (e0 :: e) ->
  multidict_get (query_params req) (py "password") = Some (p0 :: p) ->
  supplies req (e0 :: e) (p0 :: p).
Proof. intros He Hp. repeat split; assumption. Qed.

(** ** The runs after the login *)

(** Run a handler up to the response to the creation of the note. *)
Ltac upto_creation_request Hc H1 S1 Hm :=
  with_credentials Hc; reply_is H1; rewrite S1; cbn;
  rewrite <- (app_nil_r (set_cookies _)) in Hm; rewrite Hm; cbn.

Ltac upto_creation Hc H1 S1 Hm H2 S2 :=
  upto_creation_request Hc H1 S1 Hm;
  reply_is H2; rewrite S2; cbn.

(** When the creation of the note fails, either handler ends there with
    its error. *)
Lemma creation_stops :
  forall py_repr srv req title body tags email password r1 e,
    supplies req email password ->
    srv [] (login_request email password) = Replied r1 ->
    is_success r1 = true ->
    missing (assoc (set_cookies r1) session_cookie_name) = false ->
    creation_error (srv [login_request email password] (create_request r1)) = Some e ->
    exec srv (post_note_article py_repr (Some req) title body tags)
    = ([login_request email password; create_request r1], Raised e) /\
    exec srv (save_note_draft py_repr (Some req) title body tags)
    = ([login_request email password; create_request r1], Raised e).
Proof.
  intros py_repr srv req title body tags email password r1 e Hc H1 S1 Hm He.
  unfold creation_error in He.
  destruct (srv [login_request email password] (create_request r1))
    as [r2|] eqn:H2.
  - destruct (is_success r2) eqn:S2.
    + unfold note_field in He.
      split.
      * upto_creation Hc H1 S1 Hm H2 S2.
        destruct (and_then (and_then (json r2) (fun j => getitem j (py "data")))
                           (fun d => getitem d (py "id"))) as [err|i]; cbn.
        -- injection He as <-. reflexivity.
        -- destruct (and_then (and_then (json r2) (fun j => getitem j (py "data")))
                              (fun d => getitem d (py "key"))) as [err|k]; cbn.
           ++ injection He as <-. reflexivity.
           ++ discriminate He.
      * upto_creation Hc H1 S1 Hm H2 S2.
        unfold and_then in He.
        destruct (json r2) as [err|j]; cbn.
        -- injection He as <-. reflexivity.
        -- unfold and_then.
           destruct (getitem j (py "data")) as [err|note]; cbn.
           ++ injection He as <-. reflexivity.
           ++ destruct (getitem note (py "id")) as [err|i]; cbn.
              ** injection He as <-. reflexivity.
              ** destruct (getitem note (py "key")) as [err|k]; cbn.
                 --- injection He as <-. reflexivity.
                 --- discriminate He.
    + injection He as <-.
      split; upto_creation_request Hc H1 S1 Hm; reply_is H2; rewrite S2; reflexivity.
  - injection He as <-.
    split; upto_creation_request Hc H1 S1 Hm; reply_is H2; reflexivity.
Qed.

(** Once the note is created, publish sends its mutation request and ends
    as the reply to it says. *)
Lemma publish_after_creation :
  forall py_repr srv req title body tags email password r1 r2 note_id note_key,
    note_created srv req email password r1 r2 note_id note_key ->
    exec srv (post_note_article py_repr (Some req) title body tags)
    = ([login_request email password; create_request r1;
        publish_request py_repr r1 r2 note_id note_key title body tags],
       publish_outcome
         (srv [login_request email password; create_request r1]
              (publish_request py_repr r1 r2 note_id note_key title body tags))).
Proof.
  intros py_repr srv req title body tags email password r1 r2 note_id note_key H.
  destruct H as (Hc & H1 & S1 & Hm & H2 & S2 & Hid & Hkey).
  unfold note_field in Hid, Hkey.
  upto_creation Hc H1 S1 Hm H2 S2.
  rewrite Hid. cbn. rewrite Hkey. cbn.
  match goal with
  | |- context [publish_outcome ?rp] => set (last := rp)
  end.
  match goal with
  | |- context [srv ?h ?rq] => change (srv h rq) with last
  end.
  clearbody last. unfold publish_outcome, note_field.
  destruct last as [r3|]; cbn; [|reflexivity].
  destruct (and_then (and_then (json r3) (fun j => getitem j (py "data")))
                     (fun d => getitem d (py "note_url"))); reflexivity.
Qed.

(** Once the note is created, save-draft decodes the body; when that
    raises it ends there, else it sends its draft-save request and ends as
    the reply to it says. *)
Lemma save_after_creation :
  forall py_repr srv req title body tags email password r1 r2 note_id note_key,
    note_created srv req email password r1 r2 note_id note_key ->
    exec srv (save_note_draft py_repr (Some req) title body tags)
    = match text_only body with
      | inl e => ([login_request email password; create_request r1], Raised e)
      | inr text =>
          ([login_request email password; create_request r1;
            draft_request r1 r2 note_id title body (List.length text)],
           draft_outcome py_repr note_key
             (srv [login_request email password; create_request r1]
                  (draft_request r1 r2 note_id title body (List.length text))))
      end.
Proof.
  intros py_repr srv req title body tags email password r1 r2 note_id note_key H.
  destruct H as (Hc & H1 & S1 & Hm & H2 & S2 & Hid & Hkey).
  destruct (@note_fields_inv _ _ _ Hid Hkey) as (note & Hn & Hi & Hk).
  upto_creation Hc H1 S1 Hm H2 S2.
  rewrite Hn. cbn. rewrite Hi. cbn. rewrite Hk. cbn.
  destruct (text_only body) as [err|text]; cbn; [reflexivity|].
  match goal with
  | |- context [draft_outcome _ _ ?rp] => set (last := rp)
  end.
  match goal with
  | |- context [srv ?h ?rq] => change (srv h rq) with last
  end.
  clearbody last. unfold draft_outcome.
  destruct last as [r3|]; cbn; [|reflexivity].
  destruct (is_success r3); cbn; [|reflexivity].
  destruct (get_method (draft_data r3) (py "note_url") PyNone); reflexivity.
Qed.

(** ** What decoding a text can raise *)

Lemma int_decimal_raises s e :
  int_decimal s = inl e ->
  exists n, int_max_str_digits < n /\ e = ValueError (int_limit_msg n).
Proof.
  unfold int_decimal.
  destruct (Nat.ltb int_max_str_digits (List.length s)) eqn:E; [|discriminate].
  intros H. injection H as <-. apply Nat.ltb_lt in E.
  exists (List.length s). split; [exact E | reflexivity].
Qed.

Lemma replace_charref_raises g e :
  replace_charref g = inl e ->
  exists n, int_max_str_digits < n /\ e = ValueError (int_limit_msg n).
Proof.
  unfold replace_charref.
  destruct g as [|c0 [|c1 g]]; try discriminate.
  destruct (N.eqb c0 HASH); [|discriminate].
  destruct (N.eqb c1 120 || N.eqb c1 88); [discriminate|].
  unfold and_then.
  destruct (int_decimal (rstrip_semi (skipn 1 (c0 :: c1 :: g)))) as [e'|n] eqn:E;
    [|discriminate].
  intros H. injection H as <-. exact (int_decimal_raises _ E).
Qed.

Lemma sub_charref_raises s :
  forall skip e,
    sub_charref skip s = inl e ->
    exists n, int_max_str_digits < n /\ e = ValueError (int_limit_msg n).
Proof.
  induction s as [|c rest IH]; intros skip e; cbn [sub_charref]; [discriminate|].
  destruct skip as [|k]; [|apply IH].
  assert (Hcons : and_then (sub_charref 0 rest) (fun out => inr (c :: out)) = inl e ->
                  exists n, int_max_str_digits < n /\ e = ValueError (int_limit_msg n)).
  { unfold and_then. destruct (sub_charref 0 rest) as [e'|out] eqn:E; [|discriminate].
    intros H. injection H as <-. exact (IH _ _ E). }
  destruct (N.eqb c AMP); [|exact Hcons].
  destruct (match_charref rest) as [g|]; [|exact Hcons].
  unfold and_then.
  destruct (replace_charref g) as [e'|r] eqn:Er.
  - intros H. injection H as <-. exact (replace_charref_raises _ Er).
  - destruct (sub_charref (List.length g) rest) as [e'|out] eqn:E; [|discriminate].
    intros H. injection H as <-. exact (IH _ _ E).
Qed.

Lemma unescape_raises s e :
  unescape s = inl e ->
  exists n, int_max_str_digits < n /\ e = ValueError (int_limit_msg n).
Proof.
  unfold unescape. destruct (existsb (N.eqb AMP) s); [|discriminate].
  apply sub_charref_raises.
Qed.

Lemma text_only_eq body : text_only body = unescape (strip_tags body).
Proof. unfold text_only. now destruct body. Qed.

Lemma text_only_raises body e :
  text_only body = inl e ->
  exists n, int_max_str_digits < n /\ e = ValueError (int_limit_msg n).
Proof. rewrite text_only_eq. apply unescape_raises. Qed.

(** ** Credentials *)

(** C7.  For both operations, when the email or the password query
    parameter is absent from the request that carries the invocation, the
    operation fails with a [ValueError] before any HTTP request: the
    message names a parameter that is missing ([email] when that one is,
    else [password]) and ends with the example URL. *)
Theorem missing_credentials_rejected :
  forall py_repr srv req title body tags,
    multidict_get (query_params req) (py "email") = None \/
    multidict_get (query_params req) (py "password") = None ->
    let name := if missing (multidict_get (query_params req) (py "email"))
                then py "email" else py "password" in
    missing (multidict_get (query_params req) name) = true /\
    contains (missing_param_msg name) (py "'" ++ name ++ py "'") = true /\
    contains (missing_param_msg name) example_url = true /\
    exec srv (post_note_article py_repr (Some req) title body tags)
    = ([], Raised (ValueError (missing_param_msg name))) /\
    exec srv (save_note_draft py_repr (Some req) title body tags)
    = ([], Raised (ValueError (missing_param_msg name))).
Proof.
  intros py_repr srv req title body tags H.
  unfold exec, post_note_article, save_note_draft, missing. cbn.
  destruct (multidict_get (query_params req) (py "email")) as [[|e0 e]|] eqn:He;
    cbn.
  - rewrite He. repeat split; reflexivity.
  - destruct (multidict_get (query_params req) (py "password")) as [[|p0 p]|] eqn:Hp;
      cbn.
    + repeat split; reflexivity.
    + destruct H; discriminate.
    + repeat split; reflexivity.
  - rewrite He. repeat split; reflexivity.
Qed.

Lemma missing_credentials_rejected_witness :
  multidict_get (query_params {| query_params := [(py "email", py "foo@gmail.com")] |})
                (py "password") = None /\
  exec (scripted [])
       (save_note_draft no_repr
          (Some {| query_params := [(py "email", py "foo@gmail.com")] |})
          demo_title demo_body None)
  = ([], Raised (ValueError missing_password_msg)).
Proof.
  split; [reflexivity|].
  exact (proj2 (proj2 (proj2 (proj2
    (missing_credentials_rejected no_repr (scripted [])
       {| query_params := [(py "email", py "foo@gmail.com")] |}
       demo_title demo_body None (or_intror eq_refl)))))).
Defined.

(** ** Sequencing *)

(** C5.  For both operations, a login request answered with a status that
    is not 2xx makes the operation fail with that HTTP failure, the login
    request being the only one issued; and whatever the server does, a
    request that gets no response or a status that is not 2xx is the last
    request of the run, the operation failing with it when the request is
    the login or the creation of the note. *)
Theorem hard_failure_stops :
  forall py_repr srv title body tags,
    (forall req email password r,
        supplies req email password ->
        srv [] (login_request email password) = Replied r ->
        is_success r = false ->
        exec srv (post_note_article py_repr (Some req) title body tags)
        = ([login_request email password], Raised (HTTPStatusError (status_code r))) /\
        exec srv (save_note_draft py_repr (Some req) title body tags)
        = ([login_request email password], Raised (HTTPStatusError (status_code r)))) /\
    (forall req p,
        p = post_note_article py_repr req title body tags \/
        p = save_note_draft py_repr req title body tags ->
        forall i rq,
          nth_error (trace srv p) i = Some rq ->
          hard_failure (srv (firstn i (trace srv p)) rq) = true ->
          List.length (trace srv p) = S i /\
          (i < 2 ->
           result srv p = Raised (failure_of (srv (firstn i (trace srv p)) rq)))).
Proof.
  intros py_repr srv title body tags. split.
  - intros req email password r Hc Hr Hf.
    split; with_credentials Hc; reply_is Hr; rewrite Hf; reflexivity.
  - intros req p Hp i rq Hn Hf.
    assert (Hc : checked 2 p).
    { destruct Hp as [-> | ->].
      - apply post_note_article_checked.
      - apply checked_weaken, save_note_draft_checked. }
    exact (@checked_run _ srv p 2 [] i rq Hc Hn Hf).
Qed.

Lemma hard_failure_stops_witness :
  supplies demo_request (py "foo@gmail.com") (py "hunter2") /\
  is_success (html_response 401) = false /\
  exec (scripted [Replied (html_response 401); Replied create_ok])
       (post_note_article no_repr (Some demo_request) demo_title demo_body None)
  = ([login_request (py "foo@gmail.com") (py "hunter2")],
     Raised (HTTPStatusError 401)) /\
  List.length (trace (scripted [Replied (html_response 401); Replied create_ok])
                 (save_note_draft no_repr (Some demo_request) demo_title demo_body None))
  = 1.
Proof.
  assert (Hs : supplies demo_request (py "foo@gmail.com") (py "hunter2"))
    by (repeat split; reflexivity).
  split; [exact Hs|]. split; [reflexivity|].
  destruct (hard_failure_stops no_repr
              (scripted [Replied (html_response 401); Replied create_ok])
              demo_title demo_body None) as [H1 H2].
  split.
  - exact (proj1 (H1 demo_request _ _ (html_response 401) Hs eq_refl eq_refl)).
  - exact (proj1 (H2 (Some demo_request) _ (or_intror eq_refl) 0
                     (login_request (py "foo@gmail.com") (py "hunter2"))
                     eq_refl eq_refl)).
Defined.

(** ** Authentication *)

(** C6.  For both operations, when the login is answered with a 2xx status
    and the response sets no [_note_session_v5] cookie, the operation
    raises the [RuntimeError] of the missing session and the login request
    is the only request issued. *)
Theorem missing_session_cookie_fails :
  forall py_repr srv req title body tags email password r,
    supplies req email password ->
    srv [] (login_request email password) = Replied r ->
    is_success r = true ->
    assoc (set_cookies r) session_cookie_name = None ->
    exec srv (post_note_article py_repr (Some req) title body tags)
    = ([login_request email password], Raised (RuntimeError no_session_msg)) /\
    exec srv (save_note_draft py_repr (Some req) title body tags)
    = ([login_request email password], Raised (RuntimeError no_session_msg)).
Proof.
  intros py_repr srv req title body tags email password r Hc Hr Hs Hn.
  split; with_credentials Hc; reply_is Hr; rewrite Hs; cbn;
    rewrite app_nil_r, Hn; reflexivity.
Qed.

Lemma missing_session_cookie_fails_witness :
  supplies demo_request (py "foo@gmail.com") (py "hunter2") /\
  is_success login_no_session = true /\
  assoc (set_cookies login_no_session) session_cookie_name = None /\
  exec (scripted [Replied login_no_session; Replied create_ok])
       (save_note_draft no_repr (Some demo_request) demo_title demo_body None)
  = ([login_request (py "foo@gmail.com") (py "hunter2")],
     Raised (RuntimeError no_session_msg)).
Proof.
  assert (Hs : supplies demo_request (py "foo@gmail.com") (py "hunter2"))
    by (repeat split; reflexivity).
  split; [exact Hs|]. split; [reflexivity|]. split; [reflexivity|].
  exact (proj2 (missing_session_cookie_fails no_repr
                  (scripted [Replied login_no_session; Replied create_ok])
                  demo_title demo_body None (r := login_no_session)
                  Hs eq_refl eq_refl eq_refl)).
Defined.

(** C10.  For both operations, when the login succeeds and sets a session
    cookie but no [XSRF-TOKEN] cookie, nothing fails for it and the
    sequence goes on as the replies say.  The requests that follow the
    login carry the client's headers and the content type only.  When the
    creation of the note fails (no response, a status that is not 2xx, no
    [data.id] or [data.key]) the run ends there with that error.  When it
    yields a note, publish sends its mutation request and ends as the
    reply to it says; save-draft decodes the body and, unless that
    raises, sends its draft-save request and ends as the reply to it
    says.  In every run the creation request follows the login, no
    request carries an [X-XSRF-TOKEN] header and the outcome is not a
    [RuntimeError]. *)
Theorem missing_xsrf_cookie_is_no_error :
  forall py_repr srv req title body tags email password r,
    supplies req email password ->
    srv [] (login_request email password) = Replied r ->
    is_success r = true ->
    missing (assoc (set_cookies r) session_cookie_name) = false ->
    assoc (set_cookies r) xsrf_cookie_name = None ->
    (rq_headers (create_request r) = default_headers ++ content_type_json /\
     (forall r2 note_id note_key,
         rq_headers (publish_request py_repr r r2 note_id note_key title body tags)
         = default_headers ++ content_type_json) /\
     (forall r2 note_id body_length,
         rq_headers (draft_request r r2 note_id title body body_length)
         = default_headers ++ content_type_json)) /\
    (forall e,
        creation_error (srv [login_request email password] (create_request r))
        = Some e ->
        exec srv (post_note_article py_repr (Some req) title body tags)
        = ([login_request email password; create_request r], Raised e) /\
        exec srv (save_note_draft py_repr (Some req) title body tags)
        = ([login_request email password; create_request r], Raised e)) /\
    (forall r2 note_id note_key,
        srv [login_request email password] (create_request r) = Replied r2 ->
        is_success r2 = true ->
        note_field r2 (py "id") = inr note_id ->
        note_field r2 (py "key") = inr note_key ->
        exec srv (post_note_article py_repr (Some req) title body tags)
        = ([login_request email password; create_request r;
            publish_request py_repr r r2 note_id note_key title body tags],
           publish_outcome
             (srv [login_request email password; create_request r]
                  (publish_request py_repr r r2 note_id note_key title body tags))) /\
        exec srv (save_note_draft py_repr (Some req) title body tags)
        = match text_only body with
          | inl e => ([login_request email password; create_request r], Raised e)
          | inr text =>
              ([login_request email password; create_request r;
                draft_request r r2 note_id title body (List.length text)],
               draft_outcome py_repr note_key
                 (srv [login_request email password; create_request r]
                      (draft_request r r2 note_id title body (List.length text))))
          end) /\
    (forall p,
      p = post_note_article py_repr (Some req) title body tags \/
      p = save_note_draft py_repr (Some req) title body tags ->
      (exists rq rest,
          trace srv p = login_request email password :: rq :: rest /\
          rq_method rq = POST /\ rq_url rq = text_notes_url /\
          rq_headers rq = default_headers ++ content_type_json) /\
      Forall (fun rq => assoc (rq_headers rq) xsrf_header_name = None) (trace srv p) /\
      (forall m, result srv p <> Raised (RuntimeError m))).
Proof.
  intros py_repr srv req title body tags email password r Hc Hr Hs Hn Hx.
  split; [|split; [|split]].
  - unfold create_request, publish_request, draft_request, build_request,
      note_client, session_client, cookies_get.
    cbn [rq_headers headers cookies]. rewrite app_nil_r, Hx.
    repeat split; reflexivity.
  - intros e He. exact (@creation_stops py_repr srv req title body tags _ _ _ _ Hc Hr Hs Hn He).
  - intros r2 note_id note_key H2 S2 Hid Hkey.
    assert (Hcr : note_created srv req email password r r2 note_id note_key)
      by exact (conj Hc (conj Hr (conj Hs (conj Hn (conj H2 (conj S2 (conj Hid Hkey))))))).
    split.
    + exact (@publish_after_creation py_repr srv req title body tags _ _ _ _ _ _ Hcr).
    + exact (@save_after_creation py_repr srv req title body tags _ _ _ _ _ _ Hcr).
  - intros p Hp.
    destruct Hp as [-> | ->]; with_credentials Hc; reply_is Hr; rewrite Hs; cbn;
      rewrite !app_nil_r, Hn, Hx; cbn.
    all: repeat run_step srv.
    all: (split; [eexists; eexists; split; [reflexivity|]; repeat split; reflexivity|]).
    all: (split; [repeat constructor|]).
    all: intros m Hm; try discriminate Hm.
    all: injection Hm as ->;
      match goal with
      | H : text_only _ = inl (RuntimeError _) |- _ =>
          destruct (@text_only_raises _ _ H) as (n & _ & Hv); discriminate Hv
      | H : _ = inl (RuntimeError _) |- _ => lookup_error H
      end.
Qed.

Lemma missing_xsrf_cookie_is_no_error_witness :
  supplies demo_request (py "foo@gmail.com") (py "hunter2") /\
  is_success login_no_xsrf = true /\
  missing (assoc (set_cookies login_no_xsrf) session_cookie_name) = false /\
  assoc (set_cookies login_no_xsrf) xsrf_cookie_name = None /\
  note_field create_ok (py "id") = inr (PyInt 12345) /\
  note_field create_ok (py "key") = inr (PyStr (py "abcd1234")) /\
  exec (scripted [Replied login_no_xsrf; Replied create_ok;
                  Replied (json_response 200 [] mutation_body)])
       (post_note_article no_repr (Some demo_request) demo_title demo_body None)
  = ([login_request (py "foo@gmail.com") (py "hunter2");
      create_request login_no_xsrf;
      publish_request no_repr login_no_xsrf create_ok (PyInt 12345)
        (PyStr (py "abcd1234")) demo_title demo_body None],
     Returned (PyStr demo_url)) /\
  Forall (fun rq => assoc (rq_headers rq) xsrf_header_name = None)
    (trace (scripted [Replied login_no_xsrf; Replied create_ok;
                      Replied (json_response 200 [] mutation_body)])
       (post_note_article no_repr (Some demo_request) demo_title demo_body None)).
Proof.
  assert (Hs : supplies demo_request (py "foo@gmail.com") (py "hunter2"))
    by (repeat split; reflexivity).
  split; [exact Hs|]. split; [reflexivity|]. split; [reflexivity|].
  split; [reflexivity|]. split; [reflexivity|]. split; [reflexivity|].
  destruct (@missing_xsrf_cookie_is_no_error no_repr
              (scripted [Replied login_no_xsrf; Replied create_ok;
                         Replied (json_response 200 [] mutation_body)])
              demo_request demo_title demo_body None
              (py "foo@gmail.com") (py "hunter2") login_no_xsrf
              Hs eq_refl eq_refl eq_refl eq_refl) as (_ & _ & H3 & H4).
  split.
  - exact (proj1 (H3 create_ok (PyInt 12345) (PyStr (py "abcd1234"))
                     eq_refl eq_refl eq_refl eq_refl)).
  - exact (proj1 (proj2 (H4 _ (or_introl eq_refl)))).
Defined.

(** ** Texts that [html.unescape] decodes *)

Lemma digit_runs_weaken limit s :
  forall run run',
    run' <= run ->
    digit_runs_within limit run s = true ->
    digit_runs_within limit run' s = true.
Proof.
  induction s as [|c s IH]; intros run run' Hle; cbn [digit_runs_within];
    [reflexivity|].
  destruct (is_digit c); [|exact (fun H => H)].
  intros H. apply andb_true_iff in H. destruct H as [H1 H2].
  apply Nat.leb_le in H1. apply andb_true_iff. split.
  - apply Nat.leb_le. lia.
  - apply (IH (S run) (S run')); [lia | exact H2].
Qed.

Lemma digit_runs_tail limit run c s :
  digit_runs_within limit run (c :: s) = true ->
  digit_runs_within limit 0 s = true.
Proof.
  cbn [digit_runs_within]. destruct (is_digit c); [|exact (fun H => H)].
  intros H. apply andb_true_iff in H. destruct H as [_ H].
  apply (@digit_runs_weaken limit s (S run) 0); [lia | exact H].
Qed.

Lemma take_digits_bound limit s :
  forall n run,
    run <= limit ->
    digit_runs_within limit run s = true ->
    List.length (take_upto n is_digit s) + run <= limit.
Proof.
  induction s as [|c s IH]; intros n run Hrun H.
  - destruct n; cbn; lia.
  - destruct n as [|n]; cbn [take_upto]; [cbn; lia|].
    cbn [digit_runs_within] in H.
    destruct (is_digit c); [|cbn; lia].
    apply andb_true_iff in H. destruct H as [H1 H2].
    apply Nat.leb_le in H1.
    specialize (IH n (S run) H1 H2). cbn [List.length]. lia.
Qed.

Lemma take_upto_all n p s : forallb p (take_upto n p s) = true.
Proof.
  revert s. induction n as [|n IH]; intros [|c s]; cbn [take_upto]; try reflexivity.
  destruct (p c) eqn:E; [|reflexivity].
  cbn [forallb]. now rewrite E, IH.
Qed.

Lemma rstrip_semi_digits ds :
  forallb is_digit ds = true -> rstrip_semi ds = ds.
Proof.
  induction ds as [|c ds IH]; cbn [forallb rstrip_semi]; [reflexivity|].
  intros H. apply andb_true_iff in H. destruct H as [Hc Hds].
  rewrite (IH Hds). destruct ds; [|reflexivity].
  destruct (N.eqb c SEMI) eqn:E; [|reflexivity].
  apply N.eqb_eq in E. subst c. discriminate Hc.
Qed.

Lemma rstrip_semi_digits_semi ds x :
  forallb is_digit ds = true -> rstrip_semi (ds ++ opt_semi x) = ds.
Proof.
  intros H.
  assert (E : opt_semi x = [] \/ opt_semi x = [SEMI]).
  { unfold opt_semi. destruct x as [|c x]; [now left|].
    destruct (N.eqb c SEMI); [now right | now left]. }
  destruct E as [-> | ->]; [rewrite app_nil_r; now apply rstrip_semi_digits|].
  induction ds as [|c ds IH]; [reflexivity|].
  cbn [forallb] in H. apply andb_true_iff in H. destruct H as [Hc Hds].
  cbn [app rstrip_semi]. rewrite (IH Hds). destruct ds; [|reflexivity].
  destruct (N.eqb c SEMI) eqn:E; [|reflexivity].
  apply N.eqb_eq in E. subst c. discriminate Hc.
Qed.

Lemma digit_is_not_x d : is_digit d = true -> N.eqb d 120 || N.eqb d 88 = false.
Proof.
  intros H.
  destruct (N.eqb d 120) eqn:E1; [apply N.eqb_eq in E1; subst d; discriminate H|].
  destruct (N.eqb d 88) eqn:E2; [apply N.eqb_eq in E2; subst d; discriminate H|].
  reflexivity.
Qed.

Lemma named_replace_ok c rest :
  N.eqb c HASH = false -> exists r, replace_charref (c :: rest) = inr r.
Proof.
  intros Ec. unfold replace_charref. destruct rest; [eexists; reflexivity|].
  rewrite Ec. eexists. reflexivity.
Qed.

Lemma decimal_replace_ok ds x :
  forallb is_digit ds = true ->
  List.length ds <= int_max_str_digits ->
  exists r, replace_charref (HASH :: ds ++ opt_semi x) = inr r.
Proof.
  intros Hall Hlen. unfold replace_charref.
  destruct (ds ++ opt_semi x) as [|c1 rest] eqn:E; [eexists; reflexivity|].
  rewrite N.eqb_refl.
  destruct (N.eqb c1 120 || N.eqb c1 88); [eexists; reflexivity|].
  change (skipn 1 (HASH :: c1 :: rest)) with (c1 :: rest).
  rewrite <- E, (@rstrip_semi_digits_semi _ _ Hall).
  unfold int_decimal.
  replace (Nat.ltb int_max_str_digits (List.length ds)) with false
    by (symmetry; apply Nat.ltb_ge; exact Hlen).
  eexists. reflexivity.
Qed.

(** A reference matched in a text without a long run of digits is
    replaced without an error. *)
Lemma match_replace_ok s g :
  no_long_digit_run s = true ->
  match_charref s = Some g ->
  exists r, replace_charref g = inr r.
Proof.
  unfold no_long_digit_run, match_charref. intros Hruns.
  destruct s as [|c t]; [discriminate|].
  destruct (N.eqb c HASH) eqn:Ec.
  - apply N.eqb_eq in Ec. subst c.
    destruct (take_while is_digit t) as [|d ds] eqn:Ed.
    + destruct t as [|x t']; [discriminate|].
      destruct (N.eqb x 120 || N.eqb x 88) eqn:Ex; [|discriminate].
      destruct (take_while is_hexdigit t') as [|h hs]; [discriminate|].
      intros H. injection H as <-.
      unfold replace_charref. cbn [app]. rewrite N.eqb_refl, Ex.
      eexists. reflexivity.
    + intros H. injection H as <-.
      assert (Hall : forallb is_digit (d :: ds) = true)
        by (rewrite <- Ed; apply take_upto_all).
      assert (Hd : is_digit d = true)
        by (cbn [forallb] in Hall; now apply andb_true_iff in Hall).
      assert (Hlen : List.length (d :: ds) <= int_max_str_digits).
      { apply digit_runs_tail in Hruns.
        assert (Hb := @take_digits_bound int_max_str_digits t (List.length t) 0
                        (Nat.le_0_l _) Hruns).
        unfold take_while in Ed. rewrite Ed in Hb. lia. }
      exact (@decimal_replace_ok (d :: ds) _ Hall Hlen).
  - destruct (take_upto 32 is_name_char (c :: t)) as [|a nm] eqn:En; [discriminate|].
    intros H. injection H as <-.
    assert (Ea : a = c).
    { cbn [take_upto] in En. destruct (is_name_char c); [|discriminate En].
      now injection En. }
    subst a. exact (@named_replace_ok c _ Ec).
Qed.

Lemma sub_charref_ok s :
  forall skip,
    no_long_digit_run s = true ->
    exists out, sub_charref skip s = inr out.
Proof.
  induction s as [|c rest IH]; intros skip Hruns; cbn [sub_charref].
  - now exists [].
  - assert (Hrest : no_long_digit_run rest = true)
      by exact (@digit_runs_tail _ _ _ _ Hruns).
    destruct skip as [|k]; [|exact (IH k Hrest)].
    assert (Hcons : exists out,
               and_then (sub_charref 0 rest) (fun out => inr (c :: out)) = inr out).
    { destruct (IH 0 Hrest) as [out Hout]. rewrite Hout. cbn. now eexists. }
    destruct (N.eqb c AMP); [|exact Hcons].
    destruct (match_charref rest) as [g|] eqn:Hg; [|exact Hcons].
    destruct (@match_replace_ok rest g Hrest Hg) as [r Hr].
    destruct (IH (List.length g) Hrest) as [out Hout].
    rewrite Hr, Hout. cbn. now eexists.
Qed.

(** A text without a run of more than 4300 digits is decoded. *)
Lemma unescape_ok s :
  no_long_digit_run s = true -> exists text, unescape s = inr text.
Proof.
  intros H. unfold unescape. destruct (existsb (N.eqb AMP) s).
  - now apply sub_charref_ok.
  - now exists s.
Qed.

Lemma text_only_ok body :
  no_long_digit_run (strip_tags body) = true ->
  exists text, text_only body = inr text.
Proof. rewrite text_only_eq. apply unescape_ok. Qed.

(** ** Payloads *)

Ltac sends_tree :=
  unfold raise_for_status; cbn;
  repeat first
    [ handler_step
    | match goal with
      | |- True => exact I
      | |- _ /\ _ => split
      | |- forall rp : reply, _ => intros [?|]; cbn
      end ].

Lemma all_sends_trace {A : Type} (P : request -> Prop) (srv : server) (p : prog A) rq :
  all_sends P p -> In rq (trace srv p) -> P rq.
Proof.
  intros Hp Hin.
  assert (HF := @all_sends_run _ P srv p [] Hp (Forall_nil _)).
  rewrite Forall_forall in HF. exact (HF rq Hin).
Qed.

(** The claim C4 as stated fails: for a body that holds a decimal
    character reference of 4301 digits, [html.unescape] raises and
    save-draft ends after the creation of the note, with no draft payload
    and no [body_length]. *)
Lemma draft_body_length_cex :
  text_only long_reference_body = inl (ValueError (int_limit_msg 4301)) /\
  exec (full_script (json_response 200 [] mutation_body))
       (save_note_draft no_repr (Some demo_request) demo_title
          long_reference_body None)
  = ([login_request (py "foo@gmail.com") (py "hunter2"); create_request login_ok],
     Raised (ValueError (int_limit_msg 4301))).
Proof. split; vm_compute; reflexivity. Qed.

(** C4, amended.  Whatever the body, a request that save-draft sends to
    the draft-save endpoint carries as [body_length] the number of
    characters of the body once the tags are removed and the character
    references decoded.  Once the note is created, that request is sent
    when the decoding succeeds, and when it raises the operation ends
    there with that error.  The decoding raises nothing but the
    [ValueError] of a decimal reference of more than 4300 digits, and
    never does for a text without a run of more than 4300 digits.  The
    body [<p>Hello&nbsp;World</p>], 23 characters long, gives
    [Hello World] with a no-break space (U+00A0) in the middle: 11
    characters; decimal and hexadecimal references are decoded to their
    characters, a decimal one of 4300 digits to U+FFFD. *)
Theorem draft_body_length_is_visible_length :
  (forall py_repr srv req title body tags rq,
      In rq (trace srv (save_note_draft py_repr req title body tags)) ->
      rq_url rq = draft_save_url ->
      exists text,
        unescape (strip_tags body) = inr text /\
        getitem (rq_json rq) (py "body_length")
        = inr (PyInt (Z.of_nat (List.length text)))) /\
  (forall py_repr srv req title body tags email password r1 r2 note_id note_key,
      note_created srv req email password r1 r2 note_id note_key ->
      match unescape (strip_tags body) with
      | inr text =>
          trace srv (save_note_draft py_repr (Some req) title body tags)
          = [login_request email password; create_request r1;
             draft_request r1 r2 note_id title body (List.length text)]
      | inl e =>
          exec srv (save_note_draft py_repr (Some req) title body tags)
          = ([login_request email password; create_request r1], Raised e)
      end) /\
  (forall body e,
      unescape (strip_tags body) = inl e ->
      exists n, int_max_str_digits < n /\ e = ValueError (int_limit_msg n)) /\
  (forall body,
      no_long_digit_run (strip_tags body) = true ->
      exists text, unescape (strip_tags body) = inr text) /\
  unescape (strip_tags demo_body) = inr (py "Hello" ++ [160%N] ++ py "World") /\
  List.length (py "Hello" ++ [160%N] ++ py "World") = 11 /\
  List.length demo_body = 23 /\
  unescape (py "a&#38;b&#x3C;c&#0065") = inr (py "a&b<cA") /\
  unescape (py "&#" ++ repeat 57%N 4300 ++ py ";") = inr [0xFFFD%N].
Proof.
  split; [|split; [|split; [|split]]].
  - intros py_repr srv req title body tags rq Hin.
    remember (fun rq : request =>
                rq_url rq = draft_save_url ->
                exists text,
                  unescape (strip_tags body) = inr text /\
                  getitem (rq_json rq) (py "body_length")
                  = inr (PyInt (Z.of_nat (List.length text))))
      as P eqn:HP.
    enough (HP' : P rq) by (subst P; exact HP').
    revert Hin. apply all_sends_trace.
    unfold save_note_draft. destruct req as [req|]; [|exact I].
    sends_tree; subst P; unfold build_request; cbn; intros H.
    all: try (vm_compute in H; discriminate H).
    all: rewrite <- text_only_eq; eexists; split; [eassumption | reflexivity].
  - intros py_repr srv req title body tags email password r1 r2 note_id note_key H.
    assert (E := @save_after_creation py_repr srv req title body tags
                   _ _ _ _ _ _ H).
    rewrite text_only_eq in E.
    destruct (unescape (strip_tags body)) as [e|text].
    + exact E.
    + unfold trace. rewrite E. reflexivity.
  - intros body e. apply unescape_raises.
  - intros body. apply unescape_ok.
  - repeat split; vm_compute; reflexivity.
Qed.

Lemma draft_body_length_is_visible_length_witness :
  In (draft_request login_ok create_ok (PyInt 12345) demo_title demo_body 11)
     (trace (full_script (json_response 200 [] mutation_body))
        (save_note_draft no_repr (Some demo_request) demo_title demo_body None)) /\
  exists text,
    unescape (strip_tags demo_body) = inr text /\
    getitem (rq_json (draft_request login_ok create_ok (PyInt 12345)
                        demo_title demo_body 11))
            (py "body_length")
    = inr (PyInt (Z.of_nat (List.length text))).
Proof.
  assert (Hin : In (draft_request login_ok create_ok (PyInt 12345)
                      demo_title demo_body 11)
     (trace (full_script (json_response 200 [] mutation_body))
        (save_note_draft no_repr (Some demo_request) demo_title demo_body None))).
  { right. right. left. reflexivity. }
  split; [exact Hin|].
  exact (proj1 draft_body_length_is_visible_length no_repr
           (full_script (json_response 200 [] mutation_body))
           (Some demo_request) demo_title demo_body None _ Hin eq_refl).
Defined.

(** C9.  The request by which publish mutates the note carries as
    [body_length] the length of the body as it was given, tags and
    character references counted as they are written; for the body
    [<p>Hello&nbsp;World</p>] that is 23 where save-draft sends 11. *)
Theorem publish_body_length_is_raw_length :
  (forall py_repr srv req title body tags rq,
      In rq (trace srv (post_note_article py_repr req title body tags)) ->
      rq_method rq = PUT ->
      getitem (rq_json rq) (py "body_length")
      = inr (PyInt (Z.of_nat (List.length body)))) /\
  (forall py_repr tags key,
      getitem (put_body py_repr demo_title demo_body tags key) (py "body_length")
      = inr (PyInt 23) /\
      exists text,
        text_only demo_body = inr text /\
        getitem (draft_payload demo_title demo_body (List.length text))
                (py "body_length")
        = inr (PyInt 11)).
Proof.
  split.
  2:{ intros. split; [vm_compute; reflexivity|].
      exists (py "Hello" ++ [160%N] ++ py "World").
      split; vm_compute; reflexivity. }
  intros py_repr srv req title body tags rq Hin.
  remember (fun rq : request =>
              rq_method rq = PUT ->
              getitem (rq_json rq) (py "body_length")
              = inr (PyInt (Z.of_nat (List.length body))))
    as P eqn:HP.
  enough (HP' : P rq) by (subst P; exact HP').
  revert Hin. apply all_sends_trace.
  unfold post_note_article. destruct req as [req|]; [|exact I].
  sends_tree; subst P; unfold build_request; cbn; intros H.
  all: try discriminate H.
  all: reflexivity.
Qed.

Lemma publish_body_length_is_raw_length_witness :
  In (build_request (session_client login_ok) PUT
        (text_notes_url ++ py "/" ++ py "12345") []
        (put_body no_repr demo_title demo_body None (PyStr (py "abcd1234")))
        ([(xsrf_header_name, py "t0k3n")] ++ content_type_json))
     (trace (full_script (json_response 200 [] mutation_body))
        (post_note_article no_repr (Some demo_request) demo_title demo_body None)) /\
  getitem (put_body no_repr demo_title demo_body None (PyStr (py "abcd1234")))
          (py "body_length") = inr (PyInt 23).
Proof.
  assert (Hin : In (build_request (session_client login_ok) PUT
        (text_notes_url ++ py "/" ++ py "12345") []
        (put_body no_repr demo_title demo_body None (PyStr (py "abcd1234")))
        ([(xsrf_header_name, py "t0k3n")] ++ content_type_json))
     (trace (full_script (json_response 200 [] mutation_body))
        (post_note_article no_repr (Some demo_request) demo_title demo_body None))).
  { right. right. left. reflexivity. }
  split; [exact Hin|].
  exact (eq_trans
           (proj1 publish_body_length_is_raw_length no_repr
              (full_script (json_response 200 [] mutation_body))
              (Some demo_request) demo_title demo_body None _ Hin eq_refl)
           eq_refl).
Defined.

(** C8.  Two save-draft invocations that differ in the hashtags only issue
    the same requests, the draft payload among them, and end alike. *)
Theorem hashtags_do_not_influence_draft :
  forall py_repr srv req title body hashtags1 hashtags2,
    trace srv (save_note_draft py_repr req title body hashtags1)
    = trace srv (save_note_draft py_repr req title body hashtags2) /\
    result srv (save_note_draft py_repr req title body hashtags1)
    = result srv (save_note_draft py_repr req title body hashtags2).
Proof. intros. split; reflexivity. Qed.

(** ** The last response *)

(** C1, at a failing input.  The publish handler does not check the status
    of the response to its mutation request: answered with status 500 and
    a body that has a [note_url], it returns that value as if the note
    were published; answered with status 500 and a body that is not
    JSON, it raises the decoding error and not the HTTP failure.  The
    save-draft handler, given the same replies, raises the HTTP
    failure. *)
Theorem publish_mutation_status_unchecked :
  is_success (json_response 500 [] mutation_body) = false /\
  exec (full_script (json_response 500 [] mutation_body))
       (post_note_article no_repr (Some demo_request) demo_title demo_body None)
  = ([login_request (py "foo@gmail.com") (py "hunter2");
      create_request login_ok;
      build_request (session_client login_ok) PUT
        (text_notes_url ++ py "/12345") []
        (put_body no_repr demo_title demo_body None (PyStr (py "abcd1234")))
        ([(xsrf_header_name, py "t0k3n")] ++ content_type_json)],
     Returned (PyStr demo_url)) /\
  result (full_script (html_response 500))
         (post_note_article no_repr (Some demo_request) demo_title demo_body None)
  = Raised JSONDecodeError /\
  result (full_script (json_response 500 [] mutation_body))
         (save_note_draft no_repr (Some demo_request) demo_title demo_body None)
  = Raised (HTTPStatusError 500).
Proof. repeat split; vm_compute; reflexivity. Qed.

(** C3, at a failing input.  The draft-save response is JSON and has no
    [note_url]: its body is [{"data": null}].  The look-up of [note_url]
    is made on [None], outside the [try] block, and the handler raises
    [AttributeError] where the fallback URL was due. *)
Theorem draft_null_data_raises :
  is_success (json_response 200 [] null_data_body) = true /\
  draft_data (json_response 200 [] null_data_body) = PyNone /\
  result (full_script (json_response 200 [] null_data_body))
         (save_note_draft no_repr (Some demo_request) demo_title demo_body None)
  = Raised AttributeError.
Proof. repeat split; vm_compute; reflexivity. Qed.

(** The claim C2 as stated fails: a successful publish hands the locator
    to its caller, and a string is not [None]. *)
Lemma publish_returns_url_cex :
  result (full_script (json_response 200 [] mutation_body))
         (post_note_article no_repr (Some demo_request) demo_title demo_body None)
  = Returned (PyStr demo_url) /\
  PyStr demo_url <> PyNone.
Proof. split; [vm_compute; reflexivity | discriminate]. Qed.

(** C2, amended.  When publish succeeds, three requests were issued, the
    last one the mutation, and the value handed to the caller is the
    [note_url] of the [data] of the response to it.  The declared return
    type is [None]; the value conforms to it only when it is [None]
    itself. *)
Theorem publish_returns_locator :
  forall py_repr srv req title body tags v,
    result srv (post_note_article py_repr req title body tags) = Returned v ->
    (exists rq1 rq2 rq3 r3,
        trace srv (post_note_article py_repr req title body tags) = [rq1; rq2; rq3] /\
        rq_method rq3 = PUT /\
        srv [rq1; rq2] rq3 = Replied r3 /\
        and_then (and_then (json r3) (fun j => getitem j (py "data")))
                 (fun d => getitem d (py "note_url")) = inr v) /\
    post_note_article_returns = AnnNone /\
    (conforms v post_note_article_returns = true <-> v = PyNone).
Proof.
  intros py_repr srv req title body tags v.
  unfold result, trace, exec, post_note_article, raise_for_status.
  destruct req as [req|]; cbn; [|discriminate].
  repeat run_step srv; intros H; try discriminate H.
  injection H as ->.
  split; [|split; [reflexivity|]].
  - do 4 eexists. split; [reflexivity|]. split; [reflexivity|].
    split; eassumption.
  - destruct v; cbn; split; intros H; try discriminate H; reflexivity.
Qed.

Lemma publish_returns_locator_witness :
  result (full_script (json_response 200 [] mutation_body))
         (post_note_article no_repr (Some demo_request) demo_title demo_body None)
  = Returned (PyStr demo_url) /\
  conforms (PyStr demo_url) post_note_article_returns = false.
Proof.
  split; [reflexivity|].
  destruct (publish_returns_locator no_repr
              (full_script (json_response 200 [] mutation_body))
              (Some demo_request) demo_title demo_body None
              (v := PyStr demo_url) eq_refl) as (_ & _ & Hc).
  destruct (conforms (PyStr demo_url) post_note_article_returns) eqn:E;
    [|reflexivity].
  destruct Hc as [Hc _]. discriminate (Hc eq_refl).
Defined.

(** ** The fallback URL of save-draft *)

(** What the [try] block leaves in [data]. *)
Lemma draft_data_other_type r :
  startswith (match content_type r with Some ct => ct | None => py "" end)
             (py "application/json") = false ->
  draft_data r = PyDict [].
Proof. unfold draft_data. now intros ->. Qed.

Lemma draft_data_not_json r : json_body r = None -> draft_data r = PyDict [].
Proof.
  unfold draft_data, json, and_then. intros ->.
  now destruct (startswith _ _).
Qed.

Lemma draft_data_no_data r kvs :
  json_body r = Some (PyDict kvs) -> assoc kvs (py "data") = None ->
  draft_data r = PyDict [].
Proof.
  unfold draft_data, json, and_then, get_method. intros -> ->.
  now destruct (startswith _ _).
Qed.

Lemma draft_data_not_dict r v :
  json_body r = Some v -> (forall kvs, v <> PyDict kvs) ->
  draft_data r = PyDict [].
Proof.
  unfold draft_data, json, and_then, get_method. intros -> Hv.
  destruct (startswith _ _); [|reflexivity].
  destruct v; try reflexivity. now destruct (Hv kvs).
Qed.

(** When the sequence goes through, the body is decoded and [data] is left
    a dict without a [note_url], the handler returns the URL built from
    the key of the note. *)
Lemma save_draft_fallback :
  forall py_repr srv req title body tags email password r1 r2 note note_id note_key
         text r3 kvs,
    supplies req email password ->
    srv [] (login_request email password) = Replied r1 ->
    is_success r1 = true ->
    missing (assoc (set_cookies r1) session_cookie_name) = false ->
    srv [login_request email password] (create_request r1) = Replied r2 ->
    is_success r2 = true ->
    and_then (json r2) (fun j => getitem j (py "data")) = inr note ->
    getitem note (py "id") = inr note_id ->
    getitem note (py "key") = inr note_key ->
    text_only body = inr text ->
    srv [login_request email password; create_request r1]
        (draft_request r1 r2 note_id title body (List.length text)) = Replied r3 ->
    is_success r3 = true ->
    draft_data r3 = PyDict kvs ->
    assoc kvs (py "note_url") = None ->
    exec srv (save_note_draft py_repr (Some req) title body tags)
    = ([login_request email password; create_request r1;
        draft_request r1 r2 note_id title body (List.length text)],
       Returned (PyStr (fallback_url (py_str py_repr note_key)))).
Proof.
  intros py_repr srv req title body tags email password r1 r2 note note_id
         note_key text r3 kvs Hc H1 S1 Hm H2 S2 Hnote Hid Hkey Ht H3 S3 Hd Hu.
  with_credentials Hc. reply_is H1. rewrite S1. cbn.
  rewrite <- (app_nil_r (set_cookies r1)) in Hm. rewrite Hm. cbn.
  reply_is H2. rewrite S2. cbn. rewrite Hnote. cbn. rewrite Hid. cbn.
  rewrite Hkey. cbn. rewrite Ht. cbn.
  reply_is H3. rewrite S3. cbn. rewrite Hd.
  unfold get_method. rewrite Hu. cbn. reflexivity.
Qed.

Example save_draft_fallback_abcd1234 :
  result (full_script (html_response 200))
         (save_note_draft no_repr (Some demo_request) demo_title demo_body None)
  = Returned (PyStr (py "https://note.com/notes/abcd1234?draft=1")).
Proof. vm_compute. reflexivity. Qed.

(** ** The text functions *)

Lemma sub_tags_length in_tag s :
  List.length (sub_tags in_tag s) <= List.length s.
Proof.
  revert in_tag. induction s as [|c s IH]; intros in_tag; cbn; [lia|].
  destruct in_tag.
  - specialize (IH (negb (N.eqb c GT))). lia.
  - destruct (N.eqb c LT && existsb (N.eqb GT) s).
    + specialize (IH true). lia.
    + cbn. specialize (IH false). lia.
Qed.

(** The text without its tags is no longer than the body. *)
Lemma strip_tags_length s : List.length (strip_tags s) <= List.length s.
Proof. apply sub_tags_length. Qed.

Lemma strip_tags_plain s :
  existsb (N.eqb LT) s = false -> strip_tags s = s.
Proof.
  unfold strip_tags. induction s as [|c s IH]; cbn [sub_tags existsb]; [reflexivity|].
  intros H. apply orb_false_iff in H. destruct H as [Hc Hs].
  rewrite N.eqb_sym, Hc. cbn [andb]. now rewrite IH.
Qed.

Lemma sub_tags_inside inner post :
  existsb (N.eqb GT) inner = false ->
  sub_tags true (inner ++ GT :: post) = sub_tags false post.
Proof.
  induction inner as [|c inner IH]; cbn [sub_tags existsb app].
  - intros _. now rewrite N.eqb_refl.
  - intros H. apply orb_false_iff in H. destruct H as [Hc Hs].
    rewrite N.eqb_sym, Hc. cbn [negb]. now apply IH.
Qed.

(** A tag is removed whole, whatever it holds. *)
Lemma strip_tags_tag inner post :
  existsb (N.eqb GT) inner = false ->
  strip_tags (LT :: inner ++ GT :: post) = strip_tags post.
Proof.
  intros H. unfold strip_tags. cbn [sub_tags].
  rewrite N.eqb_refl, existsb_app. cbn [existsb].
  rewrite N.eqb_refl, orb_true_r. cbn [andb orb]. now apply sub_tags_inside.
Qed.

Lemma unescape_plain s :
  existsb (N.eqb AMP) s = false -> unescape s = inr s.
Proof. unfold unescape. now intros ->. Qed.

(** * Further properties of the handlers *)

(** After the case analysis of a run: the hypotheses at hand say that the
    note was created. *)
Ltac created_here :=
  match goal with
  | H : missing (assoc (_ ++ []) _) = false |- _ => rewrite app_nil_r in H
  end;
  unfold note_created, note_field;
  repeat split; try eassumption; reflexivity.

(** ** The mutation comes last, after a session and a note *)

(** Whatever the server does, a [PUT] request of publish is the third and
    last request of the run: it follows a login answered with a 2xx status
    and a session cookie and a creation answered with a 2xx status and a
    body with [data.id] and [data.key], and it is built from them: the id
    ends its URL and the key its slug. *)
Theorem publish_mutation_follows_creation :
  forall py_repr srv req title body tags rq,
    In rq (trace srv (post_note_article py_repr (Some req) title body tags)) ->
    rq_method rq = PUT ->
    exists email password r1 r2 note_id note_key,
      note_created srv req email password r1 r2 note_id note_key /\
      rq = publish_request py_repr r1 r2 note_id note_key title body tags /\
      trace srv (post_note_article py_repr (Some req) title body tags)
      = [login_request email password; create_request r1; rq].
Proof.
  intros py_repr srv req title body tags rq.
  unfold trace, exec, post_note_article, raise_for_status. cbn.
  repeat run_step srv; intros Hin Hput.
  all: repeat (destruct Hin as [<- | Hin]; [try discriminate Hput|]);
    try contradiction.
  all: (do 6 eexists; split; [|split; reflexivity]).
  all: created_here.
Qed.

Lemma publish_mutation_follows_creation_witness :
  In (publish_request no_repr login_ok create_ok (PyInt 12345)
        (PyStr (py "abcd1234")) demo_title demo_body None)
     (trace (full_script (html_response 500))
        (post_note_article no_repr (Some demo_request) demo_title demo_body None)) /\
  exists email password r1 r2 note_id note_key,
    note_created (full_script (html_response 500)) demo_request
                 email password r1 r2 note_id note_key.
Proof.
  assert (Hin : In (publish_request no_repr login_ok create_ok (PyInt 12345)
        (PyStr (py "abcd1234")) demo_title demo_body None)
     (trace (full_script (html_response 500))
        (post_note_article no_repr (Some demo_request) demo_title demo_body None))).
  { right. right. left. reflexivity. }
  split; [exact Hin|].
  destruct (publish_mutation_follows_creation no_repr
              (full_script (html_response 500)) demo_request
              demo_title demo_body None _ Hin eq_refl)
    as (e & p & r1 & r2 & i & k & H & _).
  exists e, p, r1, r2, i, k. exact H.
Defined.

Ltac created_here_draft :=
  match goal with
  | H : missing (assoc (_ ++ []) _) = false |- _ => rewrite app_nil_r in H
  end;
  unfold note_created, note_field;
  repeat split; try eassumption; try reflexivity;
  match goal with
  | H : and_then (json _) _ = inr _ |- _ =>
      rewrite H; unfold and_then; eassumption
  end.

(** Whatever the server does, a request of save-draft to the draft-save
    endpoint is the third and last request of the run: it follows a login
    answered with a 2xx status and a session cookie and a creation
    answered with a 2xx status and a body with [data.id] and [data.key],
    the body was decoded, and the request carries the id as the query
    parameter [id] and the length of the decoded text as [body_length]. *)
Theorem draft_save_follows_creation :
  forall py_repr srv req title body tags rq,
    In rq (trace srv (save_note_draft py_repr (Some req) title body tags)) ->
    rq_url rq = draft_save_url ->
    exists email password r1 r2 note_id note_key text,
      note_created srv req email password r1 r2 note_id note_key /\
      text_only body = inr text /\
      rq = draft_request r1 r2 note_id title body (List.length text) /\
      trace srv (save_note_draft py_repr (Some req) title body tags)
      = [login_request email password; create_request r1; rq].
Proof.
  intros py_repr srv req title body tags rq.
  unfold trace, exec, save_note_draft, raise_for_status. cbn.
  repeat run_step srv; intros Hin Hurl.
  all: repeat (destruct Hin as [<- | Hin];
               [try (vm_compute in Hurl; discriminate Hurl)|]);
    try contradiction.
  all: (do 7 eexists; split; [|split; [reflexivity|split; reflexivity]]).
  all: created_here_draft.
Qed.

Lemma draft_save_follows_creation_witness :
  In (draft_request login_ok create_ok (PyInt 12345) demo_title demo_body 11)
     (trace (full_script (html_response 500))
        (save_note_draft no_repr (Some demo_request) demo_title demo_body None)) /\
  exists email password r1 r2 note_id note_key,
    note_created (full_script (html_response 500)) demo_request
                 email password r1 r2 note_id note_key.
Proof.
  assert (Hin : In (draft_request login_ok create_ok (PyInt 12345) demo_title
                      demo_body 11)
     (trace (full_script (html_response 500))
        (save_note_draft no_repr (Some demo_request) demo_title demo_body None))).
  { right. right. left. reflexivity. }
  split; [exact Hin|].
  destruct (draft_save_follows_creation no_repr
              (full_script (html_response 500)) demo_request
              demo_title demo_body None _ Hin eq_refl)
    as (e & p & r1 & r2 & i & k & t & H & _).
  exists e, p, r1, r2, i, k. exact H.
Defined.

(** ** The order of the requests *)

(** Whatever the inputs and whatever the server does, a run of either
    handler issues at most three requests, in this order: a [POST] to the
    sign-in endpoint, a [POST] to the endpoint that creates notes, and the
    mutation, which is a [PUT] for publish and a [POST] to the draft-save
    endpoint for save-draft. *)
Theorem requests_come_in_order :
  forall py_repr srv req title body tags,
    (forall p,
        p = post_note_article py_repr req title body tags \/
        p = save_note_draft py_repr req title body tags ->
        List.length (trace srv p) <= 3 /\
        (forall rq, nth_error (trace srv p) 0 = Some rq ->
                    rq_method rq = POST /\ rq_url rq = sign_in_url) /\
        (forall rq, nth_error (trace srv p) 1 = Some rq ->
                    rq_method rq = POST /\ rq_url rq = text_notes_url)) /\
    (forall rq,
        nth_error (trace srv (post_note_article py_repr req title body tags)) 2
        = Some rq ->
        rq_method rq = PUT) /\
    (forall rq,
        nth_error (trace srv (save_note_draft py_repr req title body tags)) 2
        = Some rq ->
        rq_method rq = POST /\ rq_url rq = draft_save_url).
Proof.
  intros py_repr srv req title body tags.
  split; [|split].
  - intros p Hp.
    destruct Hp as [-> | ->];
      unfold trace, exec, post_note_article, save_note_draft, raise_for_status;
      (destruct req as [req|]; cbn;
       [|split; [lia|split; intros rq H; discriminate H]]).
    all: repeat run_step srv.
    all: split; [cbn; lia|].
    all: split; intros rq H; cbn in H; try discriminate H;
      injection H as <-; split; reflexivity.
  - unfold trace, exec, post_note_article, raise_for_status.
    destruct req as [req|]; cbn; [|intros rq H; discriminate H].
    repeat run_step srv.
    all: intros rq H; cbn in H; try discriminate H;
      injection H as <-; reflexivity.
  - unfold trace, exec, save_note_draft, raise_for_status.
    destruct req as [req|]; cbn; [|intros rq H; discriminate H].
    repeat run_step srv.
    all: intros rq H; cbn in H; try discriminate H;
      injection H as <-; split; reflexivity.
Qed.

Lemma requests_come_in_order_witness :
  nth_error (trace (full_script (html_response 500))
               (save_note_draft no_repr (Some demo_request)
                  demo_title demo_body None)) 2
  = Some (draft_request login_ok create_ok (PyInt 12345) demo_title demo_body 11) /\
  rq_url (draft_request login_ok create_ok (PyInt 12345) demo_title demo_body 11)
  = draft_save_url.
Proof.
  split; [reflexivity|].
  exact (proj2 (proj2 (proj2 (requests_come_in_order no_repr
                  (full_script (html_response 500))
                  (Some demo_request) demo_title demo_body None))
               _ eq_refl)).
Defined.

(** ** The anti-forgery token *)

(** For both operations, when the login succeeds and sets a session cookie
    and a non-empty [XSRF-TOKEN] cookie, the login request itself carries
    no [X-XSRF-TOKEN] header and every later request of the run carries
    that token in it: the token read after the login, also when a later
    response sets the cookie anew. *)
Theorem xsrf_token_is_echoed :
  forall py_repr srv req title body tags email password r token,
    supplies req email password ->
    srv [] (login_request email password) = Replied r ->
    is_success r = true ->
    missing (assoc (set_cookies r) session_cookie_name) = false ->
    assoc (set_cookies r) xsrf_cookie_name = Some token ->
    token <> [] ->
    forall p,
      p = post_note_article py_repr (Some req) title body tags \/
      p = save_note_draft py_repr (Some req) title body tags ->
      assoc (rq_headers (login_request email password)) xsrf_header_name = None /\
      exists rq rest,
        trace srv p = login_request email password :: rq :: rest /\
        Forall (fun rq => assoc (rq_headers rq) xsrf_header_name = Some token)
               (rq :: rest).
Proof.
  intros py_repr srv req title body tags email password r token
         Hc Hr Hs Hn Hx Ht p Hp.
  split; [reflexivity|].
  destruct token as [|t0 token]; [now destruct Ht|].
  destruct Hp as [-> | ->]; with_credentials Hc; reply_is Hr; rewrite Hs; cbn;
    rewrite !app_nil_r, Hn, Hx; cbn.
  all: repeat run_step srv.
  all: do 2 eexists; (split; [reflexivity|]).
  all: repeat (constructor; [reflexivity|]).
  all: constructor.
Qed.

Lemma xsrf_token_is_echoed_witness :
  supplies demo_request (py "foo@gmail.com") (py "hunter2") /\
  assoc (set_cookies (login_with_token (py "t0k3n"))) xsrf_cookie_name
  = Some (py "t0k3n") /\
  exists rq rest,
    trace (scripted [Replied (login_with_token (py "t0k3n"));
                     Replied create_rotating_token;
                     Replied (json_response 200 [] mutation_body)])
          (save_note_draft no_repr (Some demo_request) demo_title demo_body None)
    = login_request (py "foo@gmail.com") (py "hunter2") :: rq :: rest /\
    Forall (fun rq => assoc (rq_headers rq) xsrf_header_name = Some (py "t0k3n"))
           (rq :: rest).
Proof.
  assert (Hs : supplies demo_request (py "foo@gmail.com") (py "hunter2"))
    by (repeat split; reflexivity).
  split; [exact Hs|]. split; [reflexivity|].
  assert (Ht : py "t0k3n" <> []) by discriminate.
  exact (proj2 (xsrf_token_is_echoed no_repr
                  (scripted [Replied (login_with_token (py "t0k3n"));
                             Replied create_rotating_token;
                             Replied (json_response 200 [] mutation_body)])
                  demo_title demo_body None
                  (r := login_with_token (py "t0k3n"))
                  Hs eq_refl eq_refl eq_refl eq_refl Ht
                  (p := save_note_draft no_repr (Some demo_request)
                          demo_title demo_body None)
                  (or_intror eq_refl))).
Defined.

(** ** Edge cases of the checks *)

(** For both operations, a credential that is present in the query string
    but empty is rejected like an absent one: the [ValueError] names
    [email] when the email is empty, [password] when only the password
    is, and no request is issued. *)
Theorem empty_credentials_rejected :
  forall py_repr srv req title body tags,
    multidict_get (query_params req) (py "email") = Some [] \/
    (missing (multidict_get (query_params req) (py "email")) = false /\
     multidict_get (query_params req) (py "password") = Some []) ->
    let name := if missing (multidict_get (query_params req) (py "email"))
                then py "email" else py "password" in
    exec srv (post_note_article py_repr (Some req) title body tags)
    = ([], Raised (ValueError (missing_param_msg name))) /\
    exec srv (save_note_draft py_repr (Some req) title body tags)
    = ([], Raised (ValueError (missing_param_msg name))).
Proof.
  intros py_repr srv req title body tags H.
  unfold exec, post_note_article, save_note_draft, missing in *. cbn.
  destruct H as [He | [Hm Hp]].
  - rewrite He. cbn. split; reflexivity.
  - destruct (multidict_get (query_params req) (py "email")) as [[|e0 e]|];
      try discriminate Hm.
    cbn. rewrite Hp. cbn. split; reflexivity.
Qed.

Lemma empty_credentials_rejected_witness :
  multidict_get (query_params empty_credentials_request) (py "password") = Some [] /\
  exec (scripted [])
       (post_note_article no_repr (Some empty_credentials_request)
          demo_title demo_body None)
  = ([], Raised (ValueError missing_password_msg)).
Proof.
  split; [reflexivity|].
  exact (proj1 (empty_credentials_rejected no_repr (scripted [])
                  empty_credentials_request demo_title demo_body None
                  (or_intror (conj eq_refl eq_refl)))).
Defined.



(** ** The response to the creation *)

(** For both operations, when the creation is answered with a 2xx status
    but its body has no [data.id] or no [data.key] (it is not JSON, has no
    [data], or [data] lacks the field), the operation raises the error of
    that look-up and the mutation request is never issued. *)
Theorem malformed_creation_stops :
  forall py_repr srv req title body tags email password r1 r2 e,
    supplies req email password ->
    srv [] (login_request email password) = Replied r1 ->
    is_success r1 = true ->
    missing (assoc (set_cookies r1) session_cookie_name) = false ->
    srv [login_request email password] (create_request r1) = Replied r2 ->
    is_success r2 = true ->
    note_field r2 (py "id") = inl e \/
    ((exists i, note_field r2 (py "id") = inr i) /\
     note_field r2 (py "key") = inl e) ->
    is_lookup_error e = true /\
    exec srv (post_note_article py_repr (Some req) title body tags)
    = ([login_request email password; create_request r1], Raised e) /\
    exec srv (save_note_draft py_repr (Some req) title body tags)
    = ([login_request email password; create_request r1], Raised e).
Proof.
  intros py_repr srv req title body tags email password r1 r2 e
         Hc H1 S1 Hm H2 S2 H.
  split.
  { destruct H as [H | [_ H]]; unfold note_field in H; lookup_kind H. }
  unfold note_field in H.
  split.
  - upto_creation Hc H1 S1 Hm H2 S2.
    destruct H as [H | [[i Hi] H]].
    + rewrite H. reflexivity.
    + rewrite Hi. cbn. rewrite H. reflexivity.
  - upto_creation Hc H1 S1 Hm H2 S2.
    unfold and_then in H.
    destruct (json r2) as [err|j]; cbn.
    + destruct H as [H | [[i Hi] _]]; [|discriminate Hi].
      injection H as <-. reflexivity.
    + unfold and_then. destruct (getitem j (py "data")) as [err|note]; cbn.
      * destruct H as [H | [[i Hi] _]]; [|discriminate Hi].
        injection H as <-. reflexivity.
      * destruct H as [H | [[i Hi] H]].
        -- rewrite H. reflexivity.
        -- rewrite Hi. cbn. rewrite H. reflexivity.
Qed.

Lemma malformed_creation_stops_witness :
  supplies demo_request (py "foo@gmail.com") (py "hunter2") /\
  note_field create_without_key (py "key") = inl (KeyError (py "key")) /\
  exec (scripted [Replied login_ok; Replied create_without_key;
                  Replied (json_response 200 [] mutation_body)])
       (post_note_article no_repr (Some demo_request) demo_title demo_body None)
  = ([login_request (py "foo@gmail.com") (py "hunter2"); create_request login_ok],
     Raised (KeyError (py "key"))).
Proof.
  assert (Hs : supplies demo_request (py "foo@gmail.com") (py "hunter2"))
    by (repeat split; reflexivity).
  split; [exact Hs|]. split; [reflexivity|].
  exact (proj1 (proj2 (malformed_creation_stops no_repr
                  (scripted [Replied login_ok; Replied create_without_key;
                             Replied (json_response 200 [] mutation_body)])
                  demo_title demo_body None
                  (r1 := login_ok) (r2 := create_without_key)
                  Hs eq_refl eq_refl eq_refl eq_refl eq_refl
                  (or_intror (conj (ex_intro _ (PyInt 12345) eq_refl) eq_refl))))).
Defined.

(** ** The response to the mutation *)

(** When the body is decoded and the draft-save response has a 2xx status,
    a JSON content type and a body whose [data] has a [note_url] that is
    not empty, save-draft returns that [note_url]. *)
Theorem save_draft_returns_note_url :
  forall py_repr srv req title body tags email password r1 r2 note_id note_key
         text r3 ct kvs data u,
    note_created srv req email password r1 r2 note_id note_key ->
    text_only body = inr text ->
    srv [login_request email password; create_request r1]
        (draft_request r1 r2 note_id title body (List.length text)) = Replied r3 ->
    is_success r3 = true ->
    content_type r3 = Some ct ->
    startswith ct (py "application/json") = true ->
    json_body r3 = Some (PyDict kvs) ->
    assoc kvs (py "data") = Some (PyDict data) ->
    assoc data (py "note_url") = Some u ->
    truthy u = true ->
    exec srv (save_note_draft py_repr (Some req) title body tags)
    = ([login_request email password; create_request r1;
        draft_request r1 r2 note_id title body (List.length text)],
       Returned u).
Proof.
  intros py_repr srv req title body tags email password r1 r2 note_id note_key
         text r3 ct kvs data u H Ht H3 S3 Hct Hst Hj Hd Hu Htr.
  rewrite (@save_after_creation py_repr srv req title body tags _ _ _ _ _ _ H).
  rewrite Ht, H3. unfold draft_outcome. rewrite S3.
  unfold draft_data, json, and_then, get_method, py_or.
  rewrite Hct, Hst, Hj, Hd, Hu, Htr. reflexivity.
Qed.

(** When the body is decoded and the draft-save response has a 2xx status
    and a content type that does not start with [application/json] (or
    none), save-draft returns the URL built from the key of the note,
    whatever the body of the response holds. *)
Theorem save_draft_ignores_untyped_body :
  forall py_repr srv req title body tags email password r1 r2 note_id note_key
         text r3,
    note_created srv req email password r1 r2 note_id note_key ->
    text_only body = inr text ->
    srv [login_request email password; create_request r1]
        (draft_request r1 r2 note_id title body (List.length text)) = Replied r3 ->
    is_success r3 = true ->
    startswith (match content_type r3 with Some ct => ct | None => py "" end)
               (py "application/json") = false ->
    exec srv (save_note_draft py_repr (Some req) title body tags)
    = ([login_request email password; create_request r1;
        draft_request r1 r2 note_id title body (List.length text)],
       Returned (PyStr (fallback_url (py_str py_repr note_key)))).
Proof.
  intros py_repr srv req title body tags email password r1 r2 note_id note_key
         text r3 H Ht H3 S3 Hct.
  rewrite (@save_after_creation py_repr srv req title body tags _ _ _ _ _ _ H).
  rewrite Ht, H3. unfold draft_outcome. rewrite S3.
  rewrite (draft_data_other_type _ Hct). reflexivity.
Qed.

(** When the body is decoded and the draft-save response has a 2xx status
    and its [data] is an object whose [note_url] is empty, null or
    otherwise false, save-draft returns the URL built from the key of the
    note. *)
Theorem save_draft_falsy_note_url :
  forall py_repr srv req title body tags email password r1 r2 note_id note_key
         text r3 data u,
    note_created srv req email password r1 r2 note_id note_key ->
    text_only body = inr text ->
    srv [login_request email password; create_request r1]
        (draft_request r1 r2 note_id title body (List.length text)) = Replied r3 ->
    is_success r3 = true ->
    draft_data r3 = PyDict data ->
    assoc data (py "note_url") = Some u ->
    truthy u = false ->
    exec srv (save_note_draft py_repr (Some req) title body tags)
    = ([login_request email password; create_request r1;
        draft_request r1 r2 note_id title body (List.length text)],
       Returned (PyStr (fallback_url (py_str py_repr note_key)))).
Proof.
  intros py_repr srv req title body tags email password r1 r2 note_id note_key
         text r3 data u H Ht H3 S3 Hd Hu Htr.
  rewrite (@save_after_creation py_repr srv req title body tags _ _ _ _ _ _ H).
  rewrite Ht, H3. unfold draft_outcome. rewrite S3.
  unfold get_method, py_or. rewrite Hd, Hu, Htr. reflexivity.
Qed.

(** Save-draft checks the status of the draft-save response: when the body
    is decoded and that status is not 2xx, the operation raises the HTTP
    failure, whatever the body of the response. *)
Theorem save_draft_checks_final_status :
  forall py_repr srv req title body tags email password r1 r2 note_id note_key
         text r3,
    note_created srv req email password r1 r2 note_id note_key ->
    text_only body = inr text ->
    srv [login_request email password; create_request r1]
        (draft_request r1 r2 note_id title body (List.length text)) = Replied r3 ->
    is_success r3 = false ->
    exec srv (save_note_draft py_repr (Some req) title body tags)
    = ([login_request email password; create_request r1;
        draft_request r1 r2 note_id title body (List.length text)],
       Raised (HTTPStatusError (status_code r3))).
Proof.
  intros py_repr srv req title body tags email password r1 r2 note_id note_key
         text r3 H Ht H3 S3.
  rewrite (@save_after_creation py_repr srv req title body tags _ _ _ _ _ _ H).
  rewrite Ht, H3. unfold draft_outcome. rewrite S3. reflexivity.
Qed.

(** The outcome of publish is read off the body of the response to the
    mutation alone: its [data.note_url] when the look-up succeeds, the
    error of the look-up when it fails.  The status of that response is
    not consulted. *)
Theorem publish_outcome_is_read_off_the_body :
  forall py_repr srv req title body tags email password r1 r2 note_id note_key r3,
    note_created srv req email password r1 r2 note_id note_key ->
    srv [login_request email password; create_request r1]
        (publish_request py_repr r1 r2 note_id note_key title body tags)
    = Replied r3 ->
    exec srv (post_note_article py_repr (Some req) title body tags)
    = ([login_request email password; create_request r1;
        publish_request py_repr r1 r2 note_id note_key title body tags],
       match note_field r3 (py "note_url") with
       | inr v => Returned v
       | inl e => Raised e
       end).
Proof.
  intros py_repr srv req title body tags email password r1 r2 note_id note_key r3
         H H3.
  rewrite (@publish_after_creation py_repr srv req title body tags _ _ _ _ _ _ H).
  rewrite H3. reflexivity.
Qed.

(** Whatever the server does, a value that save-draft returns is never
    [None], an empty string or another false value. *)
Theorem save_draft_result_is_truthy :
  forall py_repr srv req title body tags v,
    result srv (save_note_draft py_repr req title body tags) = Returned v ->
    truthy v = true.
Proof.
  intros py_repr srv req title body tags v.
  unfold result, exec, save_note_draft, raise_for_status.
  destruct req as [req|]; cbn; [|discriminate].
  repeat run_step srv; intros H; try discriminate H.
  injection H as <-. unfold py_or.
  match goal with
  | |- context [if truthy ?u then _ else _] => destruct (truthy u) eqn:Hu
  end; [exact Hu | reflexivity].
Qed.

(** The scripted servers create the note of the examples. *)
Lemma demo_note_created last :
  note_created (full_script last) demo_request
    (py "foo@gmail.com") (py "hunter2") login_ok create_ok
    (PyInt 12345) (PyStr (py "abcd1234")).
Proof. repeat split; reflexivity. Qed.

Lemma demo_text_only :
  text_only demo_body = inr (py "Hello" ++ [160%N] ++ py "World").
Proof. vm_compute. reflexivity. Qed.

Lemma save_draft_fallback_witness :
  draft_data (json_response 200 [] (PyDict [(py "data", PyDict [])])) = PyDict [] /\
  exec (full_script (json_response 200 [] (PyDict [(py "data", PyDict [])])))
       (save_note_draft no_repr (Some demo_request) demo_title demo_body None)
  = ([login_request (py "foo@gmail.com") (py "hunter2"); create_request login_ok;
      draft_request login_ok create_ok (PyInt 12345) demo_title demo_body 11],
     Returned (PyStr (py "https://note.com/notes/abcd1234?draft=1"))).
Proof.
  split; [reflexivity|].
  assert (Hs : supplies demo_request (py "foo@gmail.com") (py "hunter2"))
    by (repeat split; reflexivity).
  exact (@save_draft_fallback no_repr
           (full_script (json_response 200 [] (PyDict [(py "data", PyDict [])])))
           demo_request demo_title demo_body None
           (py "foo@gmail.com") (py "hunter2") login_ok create_ok
           (PyDict [(py "id", PyInt 12345); (py "key", PyStr (py "abcd1234"))])
           (PyInt 12345) (PyStr (py "abcd1234"))
           (py "Hello" ++ [160%N] ++ py "World")
           (json_response 200 [] (PyDict [(py "data", PyDict [])])) []
           Hs eq_refl eq_refl eq_refl eq_refl eq_refl eq_refl eq_refl eq_refl
           demo_text_only eq_refl eq_refl eq_refl eq_refl).
Defined.

Lemma save_draft_returns_note_url_witness :
  truthy (PyStr demo_url) = true /\
  exec (full_script (json_response 200 [] mutation_body))
       (save_note_draft no_repr (Some demo_request) demo_title demo_body None)
  = ([login_request (py "foo@gmail.com") (py "hunter2"); create_request login_ok;
      draft_request login_ok create_ok (PyInt 12345) demo_title demo_body 11],
     Returned (PyStr demo_url)).
Proof.
  split; [reflexivity|].
  exact (@save_draft_returns_note_url no_repr
           (full_script (json_response 200 [] mutation_body))
           demo_request demo_title demo_body None _ _ _ _ _ _ _
           (json_response 200 [] mutation_body) _ _ _ _
           (demo_note_created _) demo_text_only eq_refl eq_refl eq_refl eq_refl
           eq_refl eq_refl eq_refl eq_refl).
Defined.

Lemma save_draft_ignores_untyped_body_witness :
  json_body untyped_response = Some mutation_body /\
  startswith (py "text/plain") (py "application/json") = false /\
  exec (full_script untyped_response)
       (save_note_draft no_repr (Some demo_request) demo_title demo_body None)
  = ([login_request (py "foo@gmail.com") (py "hunter2"); create_request login_ok;
      draft_request login_ok create_ok (PyInt 12345) demo_title demo_body 11],
     Returned (PyStr (py "https://note.com/notes/abcd1234?draft=1"))).
Proof.
  split; [reflexivity|]. split; [reflexivity|].
  exact (@save_draft_ignores_untyped_body no_repr (full_script untyped_response)
           demo_request demo_title demo_body None _ _ _ _ _ _ _ untyped_response
           (demo_note_created _) demo_text_only eq_refl eq_refl eq_refl).
Defined.

Lemma save_draft_falsy_note_url_witness :
  truthy (PyStr (py "")) = false /\
  exec (full_script (json_response 200 [] empty_url_body))
       (save_note_draft no_repr (Some demo_request) demo_title demo_body None)
  = ([login_request (py "foo@gmail.com") (py "hunter2"); create_request login_ok;
      draft_request login_ok create_ok (PyInt 12345) demo_title demo_body 11],
     Returned (PyStr (py "https://note.com/notes/abcd1234?draft=1"))).
Proof.
  split; [reflexivity|].
  exact (@save_draft_falsy_note_url no_repr
           (full_script (json_response 200 [] empty_url_body))
           demo_request demo_title demo_body None _ _ _ _ _ _ _
           (json_response 200 [] empty_url_body) _ _
           (demo_note_created _) demo_text_only eq_refl eq_refl eq_refl eq_refl
           eq_refl).
Defined.

Lemma save_draft_checks_final_status_witness :
  is_success (json_response 500 [] mutation_body) = false /\
  exec (full_script (json_response 500 [] mutation_body))
       (save_note_draft no_repr (Some demo_request) demo_title demo_body None)
  = ([login_request (py "foo@gmail.com") (py "hunter2"); create_request login_ok;
      draft_request login_ok create_ok (PyInt 12345) demo_title demo_body 11],
     Raised (HTTPStatusError 500)).
Proof.
  split; [reflexivity|].
  exact (@save_draft_checks_final_status no_repr
           (full_script (json_response 500 [] mutation_body))
           demo_request demo_title demo_body None _ _ _ _ _ _ _
           (json_response 500 [] mutation_body)
           (demo_note_created _) demo_text_only eq_refl eq_refl).
Defined.

Lemma publish_outcome_is_read_off_the_body_witness :
  status_code (json_response 404 [] mutation_body) = 404%Z /\
  exec (full_script (json_response 404 [] mutation_body))
       (post_note_article no_repr (Some demo_request) demo_title demo_body None)
  = ([login_request (py "foo@gmail.com") (py "hunter2"); create_request login_ok;
      publish_request no_repr login_ok create_ok (PyInt 12345)
        (PyStr (py "abcd1234")) demo_title demo_body None],
     Returned (PyStr demo_url)).
Proof.
  split; [reflexivity|].
  exact (@publish_outcome_is_read_off_the_body no_repr
           (full_script (json_response 404 [] mutation_body))
           demo_request demo_title demo_body None _ _ _ _ _ _
           (json_response 404 [] mutation_body)
           (demo_note_created _) eq_refl).
Defined.

Lemma save_draft_result_is_truthy_witness :
  result (full_script (html_response 200))
         (save_note_draft no_repr (Some demo_request) demo_title demo_body None)
  = Returned (PyStr (py "https://note.com/notes/abcd1234?draft=1")) /\
  truthy (PyStr (py "https://note.com/notes/abcd1234?draft=1")) = true.
Proof.
  split; [reflexivity|].
  exact (@save_draft_result_is_truthy no_repr (full_script (html_response 200))
           (Some demo_request) demo_title demo_body None _ eq_refl).
Defined.

(** ** The visible text *)





Lemma table_get_In t s v : table_get t s = Some v -> exists k, In (k, v) t.
Proof.
  induction t as [|[k w] t IH]; cbn [table_get]; [discriminate|].
  destruct (name_eqb k s).
  - intros H. injection H as ->. exists k. now left.
  - intros H. destruct (IH H) as [k' Hk']. exists k'. now right.
Qed.

Lemma html5_values_short :
  forallb (fun kv => Nat.leb (List.length (snd kv)) 2) html5 = true.
Proof. vm_compute. reflexivity. Qed.

Lemma html5_get_length s v : html5_get s = Some v -> List.length v <= 2.
Proof.
  unfold html5_get. intros H. destruct (table_get_In _ _ H) as [k Hk].
  assert (Hf := html5_values_short). rewrite forallb_forall in Hf.
  specialize (Hf _ Hk). cbn in Hf. now apply Nat.leb_le.
Qed.

Lemma invalid_charrefs_single :
  forallb (fun kv => Nat.leb (List.length (snd kv)) 1) invalid_charrefs = true.
Proof. vm_compute. reflexivity. Qed.

Lemma assoc_N_In t n r : assoc_N t n = Some r -> exists k, In (k, r) t.
Proof.
  induction t as [|[k w] t IH]; cbn [assoc_N]; [discriminate|].
  destruct (N.eqb k n).
  - intros H. injection H as ->. exists k. now left.
  - intros H. destruct (IH H) as [k' Hk']. exists k'. now right.
Qed.

Lemma invalid_charref_length n r :
  assoc_N invalid_charrefs n = Some r -> List.length r <= 1.
Proof.
  intros H. destruct (assoc_N_In _ _ H) as [k Hk].
  assert (Hf := invalid_charrefs_single). rewrite forallb_forall in Hf.
  specialize (Hf _ Hk). cbn in Hf. now apply Nat.leb_le.
Qed.

Lemma take_upto_length n p s : List.length (take_upto n p s) <= List.length s.
Proof.
  revert s. induction n as [|n IH]; intros [|c s]; cbn; try lia.
  destruct (p c); cbn; [|lia]. specialize (IH s). lia.
Qed.

Lemma opt_semi_length rest :
  List.length (opt_semi rest) <= List.length rest.
Proof.
  unfold opt_semi. destruct rest as [|c rest]; cbn; [lia|].
  destruct (N.eqb c SEMI); cbn; lia.
Qed.

(** A run of characters and the optional [;] after it fit in the text
    they are taken from. *)
Lemma run_and_semi_length (run s : pystr) :
  List.length run <= List.length s ->
  List.length (run ++ opt_semi (skipn (List.length run) s)) <= List.length s.
Proof.
  intros H. rewrite length_app.
  assert (H1 := opt_semi_length (skipn (List.length run) s)).
  rewrite length_skipn in H1. lia.
Qed.

Lemma match_charref_length s g :
  match_charref s = Some g -> List.length g <= List.length s.
Proof.
  unfold match_charref. destruct s as [|c t]; [discriminate|].
  destruct (N.eqb c HASH).
  - destruct (take_while is_digit t) as [|d ds] eqn:Ed.
    + destruct t as [|x t']; [discriminate|].
      destruct (N.eqb x 120 || N.eqb x 88); [|discriminate].
      destruct (take_while is_hexdigit t') as [|h hs] eqn:Eh; [discriminate|].
      intros H. injection H as <-.
      assert (Hl : List.length (h :: hs) <= List.length t')
        by (rewrite <- Eh; apply take_upto_length).
      assert (Hr := run_and_semi_length (h :: hs) t' Hl).
      cbn [List.length app skipn] in *. lia.
    + intros H. injection H as <-.
      assert (Hl : List.length (d :: ds) <= List.length t)
        by (rewrite <- Ed; apply take_upto_length).
      assert (Hr := run_and_semi_length (d :: ds) t Hl).
      cbn [List.length app skipn] in *. lia.
  - destruct (take_upto 32 is_name_char (c :: t)) as [|a nm] eqn:En; [discriminate|].
    intros H. injection H as <-.
    assert (Hl : List.length (a :: nm) <= List.length (c :: t))
      by (rewrite <- En; apply take_upto_length).
    exact (run_and_semi_length (a :: nm) (c :: t) Hl).
Qed.

Lemma longest_name_length x s r :
  x <= List.length s -> longest_name x s = Some r ->
  List.length r <= List.length s.
Proof.
  induction x as [|x IH]; cbn [longest_name]; [discriminate|].
  intros Hx. destruct (Nat.leb 2 (S x)) eqn:H2; [|discriminate].
  apply Nat.leb_le in H2.
  destruct (html5_get (firstn (S x) s)) as [v|] eqn:Hv.
  - apply html5_get_length in Hv.
    assert (Hk : List.length (v ++ skipn (S x) s) <= List.length s)
      by (rewrite length_app, length_skipn; lia).
    intros H. injection H as <-. exact Hk.
  - intros H. apply IH; [lia | exact H].
Qed.

Lemma numeric_charref_length num : List.length (numeric_charref num) <= 1.
Proof.
  unfold numeric_charref.
  destruct (assoc_N invalid_charrefs num) as [r|] eqn:Hr;
    [exact (invalid_charref_length _ Hr)|].
  destruct (between 0xD800 0xDFFF num || N.ltb 0x10FFFF num); [cbn; lia|].
  destruct (invalid_codepoint num); cbn; lia.
Qed.

Lemma named_charref_length s :
  List.length (named_charref s) <= S (List.length s).
Proof.
  unfold named_charref.
  destruct (html5_get s) as [v|] eqn:Hv.
  - destruct s as [|c s].
    + vm_compute in Hv. discriminate Hv.
    + apply html5_get_length in Hv. cbn [List.length]. lia.
  - destruct (longest_name (List.length s - 1) s) as [r|] eqn:Hr.
    + apply longest_name_length in Hr; lia.
    + cbn [List.length]. lia.
Qed.

Lemma replace_charref_length s r :
  replace_charref s = inr r -> List.length r <= S (List.length s).
Proof.
  unfold replace_charref.
  assert (Hnamed : @inr exn pystr (named_charref s) = inr r ->
                   List.length r <= S (List.length s)).
  { intros H. injection H as <-. apply named_charref_length. }
  destruct s as [|c0 [|c1 s]]; try exact Hnamed.
  destruct (N.eqb c0 HASH); [|exact Hnamed].
  unfold and_then.
  match goal with
  | |- context [match ?x with inl _ => _ | inr _ => _ end] => destruct x as [e|num]
  end; [discriminate|].
  intros H. injection H as <-.
  assert (Hn := numeric_charref_length num). lia.
Qed.

Lemma sub_charref_length s :
  forall skip out,
    sub_charref skip s = inr out ->
    List.length out + Nat.min skip (List.length s) <= List.length s.
Proof.
  induction s as [|c rest IH]; intros skip out; cbn [sub_charref List.length].
  - intros H. injection H as <-. destruct skip; cbn; lia.
  - destruct skip as [|k].
    + assert (Hcons : and_then (sub_charref 0 rest) (fun o => inr (c :: o)) = inr out ->
                      List.length out + Nat.min 0 (S (List.length rest))
                      <= S (List.length rest)).
      { unfold and_then. destruct (sub_charref 0 rest) as [e|o] eqn:E; [discriminate|].
        intros H. injection H as <-. specialize (IH 0 o E). cbn [List.length]. lia. }
      destruct (N.eqb c AMP); [|exact Hcons].
      destruct (match_charref rest) as [g|] eqn:Hg; [|exact Hcons].
      unfold and_then.
      destruct (replace_charref g) as [e|r] eqn:Er; [discriminate|].
      destruct (sub_charref (List.length g) rest) as [e|o] eqn:E; [discriminate|].
      intros H. injection H as <-.
      apply match_charref_length in Hg. apply replace_charref_length in Er.
      specialize (IH (List.length g) o E). rewrite length_app. lia.
    + intros H. specialize (IH k out H). lia.
Qed.

Lemma unescape_length s out :
  unescape s = inr out -> List.length out <= List.length s.
Proof.
  unfold unescape. destruct (existsb (N.eqb AMP) s).
  - intros H. assert (Hl := @sub_charref_length s 0 out H). lia.
  - intros H. injection H as <-. lia.
Qed.

Lemma text_only_length body text :
  text_only body = inr text -> List.length text <= List.length body.
Proof.
  rewrite text_only_eq. intros H. apply unescape_length in H.
  assert (Hs := strip_tags_length body). lia.
Qed.

(** A draft-save request of any run carries the length of the decoded
    body. *)
Lemma draft_save_carries_text_length :
  forall py_repr srv req title body tags rq,
    In rq (trace srv (save_note_draft py_repr req title body tags)) ->
    rq_url rq = draft_save_url ->
    exists text,
      text_only body = inr text /\
      getitem (rq_json rq) (py "body_length")
      = inr (PyInt (Z.of_nat (List.length text))).
Proof.
  intros py_repr srv req title body tags rq Hin.
  remember (fun rq : request =>
              rq_url rq = draft_save_url ->
              exists text,
                text_only body = inr text /\
                getitem (rq_json rq) (py "body_length")
                = inr (PyInt (Z.of_nat (List.length text))))
    as P eqn:HP.
  enough (HP' : P rq) by (subst P; exact HP').
  revert Hin. apply all_sends_trace.
  unfold save_note_draft. destruct req as [req|]; [|exact I].
  sends_tree; subst P; unfold build_request; cbn; intros H.
  all: try (vm_compute in H; discriminate H).
  all: eexists; split; [first [eassumption | reflexivity] | reflexivity].
Qed.

(** Whatever the body and whatever the server does, the [body_length] of a
    draft-save request is between 0 and the length of the body, which is
    the [body_length] that publish sends for the same body: removing tags
    and decoding character references never makes a text longer. *)
Theorem visible_length_at_most_raw_length :
  forall py_repr srv req title body tags rq,
    In rq (trace srv (save_note_draft py_repr req title body tags)) ->
    rq_url rq = draft_save_url ->
    exists visible,
      getitem (rq_json rq) (py "body_length") = inr (PyInt visible) /\
      (0 <= visible <= Z.of_nat (List.length body))%Z /\
      forall hashtags key,
        getitem (put_body py_repr title body hashtags key) (py "body_length")
        = inr (PyInt (Z.of_nat (List.length body))).
Proof.
  intros py_repr srv req title body tags rq Hin Hurl.
  destruct (@draft_save_carries_text_length py_repr srv req title body tags rq
              Hin Hurl) as (text & Ht & Hlen).
  exists (Z.of_nat (List.length text)).
  split; [exact Hlen|]. split.
  - apply text_only_length in Ht. lia.
  - intros hashtags key. reflexivity.
Qed.

Lemma visible_length_at_most_raw_length_witness :
  In (draft_request login_ok create_ok (PyInt 12345) demo_title demo_body 11)
     (trace (full_script (html_response 500))
        (save_note_draft no_repr (Some demo_request) demo_title demo_body None)) /\
  exists visible,
    getitem (rq_json (draft_request login_ok create_ok (PyInt 12345)
                        demo_title demo_body 11))
            (py "body_length") = inr (PyInt visible) /\
    (0 <= visible <= Z.of_nat (List.length demo_body))%Z.
Proof.
  assert (Hin : In (draft_request login_ok create_ok (PyInt 12345)
                      demo_title demo_body 11)
     (trace (full_script (html_response 500))
        (save_note_draft no_repr (Some demo_request) demo_title demo_body None))).
  { right. right. left. reflexivity. }
  split; [exact Hin|].
  destruct (@visible_length_at_most_raw_length no_repr
              (full_script (html_response 500)) (Some demo_request)
              demo_title demo_body None _ Hin eq_refl) as (v & H1 & H2 & _).
  exists v. split; assumption.
Defined.

(** For a body without [<] and without [&], the visible text is the body
    itself and the two operations send the same [body_length]: the length
    of the body. *)
Theorem plain_body_length_agrees :
  forall py_repr title body tags key,
    existsb (N.eqb LT) body = false ->
    existsb (N.eqb AMP) body = false ->
    text_only body = inr body /\
    getitem (draft_payload title body (List.length body)) (py "body_length")
    = getitem (put_body py_repr title body tags key) (py "body_length") /\
    forall srv req rq,
      In rq (trace srv (save_note_draft py_repr req title body tags)) ->
      rq_url rq = draft_save_url ->
      getitem (rq_json rq) (py "body_length")
      = getitem (put_body py_repr title body tags key) (py "body_length").
Proof.
  intros py_repr title body tags key Hlt Hamp.
  assert (E : text_only body = inr body).
  { rewrite text_only_eq, (strip_tags_plain _ Hlt). now apply unescape_plain. }
  split; [exact E|]. split; [reflexivity|].
  intros srv req rq Hin Hurl.
  destruct (@draft_save_carries_text_length py_repr srv req title body tags rq
              Hin Hurl) as (text & Ht & Hlen).
  rewrite E in Ht. injection Ht as <-. rewrite Hlen. reflexivity.
Qed.

Lemma plain_body_length_agrees_witness :
  existsb (N.eqb LT) (py "Hello World") = false /\
  existsb (N.eqb AMP) (py "Hello World") = false /\
  getitem (draft_payload demo_title (py "Hello World")
             (List.length (py "Hello World"))) (py "body_length")
  = inr (PyInt 11).
Proof.
  split; [reflexivity|]. split; [reflexivity|].
  exact (eq_trans
           (proj1 (proj2 (plain_body_length_agrees no_repr demo_title
                            (py "Hello World") None PyNone eq_refl eq_refl)))
           eq_refl).
Defined.

(** ** The login *)

(** For both operations, when both credentials are supplied, the first
    request issued is the login, whatever the server does later: a [POST]
    to the sign-in endpoint whose JSON body is the email as [login] and
    the password as [password], sent without cookies. *)
Theorem login_is_issued_first :
  forall py_repr srv req title body tags email password,
    supplies req email password ->
    forall p,
      p = post_note_article py_repr (Some req) title body tags \/
      p = save_note_draft py_repr (Some req) title body tags ->
      (exists rest, trace srv p = login_request email password :: rest) /\
      rq_method (login_request email password) = POST /\
      rq_url (login_request email password) = sign_in_url /\
      rq_json (login_request email password)
      = PyDict [(py "login", PyStr email); (py "password", PyStr password)] /\
      rq_cookies (login_request email password) = [].
Proof.
  intros py_repr srv req title body tags email password Hc p Hp.
  split; [|repeat split; reflexivity].
  destruct Hp as [-> | ->]; with_credentials Hc.
  all: match goal with
       | |- exists rest, fst (run ?s ?h ?k) = _ =>
           destruct (run_extends s k h) as [t Ht]; exists t; exact Ht
       end.
Qed.

Lemma login_is_issued_first_witness :
  supplies demo_request (py "foo@gmail.com") (py "hunter2") /\
  exists rest,
    trace (scripted [])
          (post_note_article no_repr (Some demo_request) demo_title demo_body None)
    = login_request (py "foo@gmail.com") (py "hunter2") :: rest.
Proof.
  assert (Hs : supplies demo_request (py "foo@gmail.com") (py "hunter2"))
    by (repeat split; reflexivity).
  split; [exact Hs|].
  exact (proj1 (@login_is_issued_first no_repr (scripted []) demo_request
                  demo_title demo_body None _ _ Hs _ (or_introl eq_refl))).
Defined.
